(** * AzureServices: the orchestration facade of the extension

    A shallow embedding of [src/extension/src/azure/azureServices.ts].

    - JavaScript strings are Rocq [string]s.  Every pattern the file
      searches for (the line feed, ["="], the two resource-type segments)
      is plain ASCII, so searching bytes and searching UTF-16 code units
      find the same occurrences.
    - The class's static fields are an explicit record threaded through a
      small state-and-exception monad; a rejected promise is an exception.
    - Calls that leave the class (the auth module, the four providers, the
      name generator) are answered by an oracle record and logged in a
      trace, so that "the provider was (not) invoked" is a statement about
      the trace.
    - [Logger.appendLog] writes to an output channel and returns nothing
      the class reads; it is left out.  So are
      [promptUserForCosmosReplacement] and [updateAppSettings], which only
      talk to the editor window and to [ConnectionString], and
      [validateNameForAzureType], which no other member calls. *)

From Stdlib Require Import ZArith Ascii String.
From stdpp Require Import base decidable option list gmap strings.

Set Warnings "-register-all".
Open Scope string_scope.
Open Scope Z_scope.

(** ** JavaScript string primitives *)

Module JsString.

(** The one-character string ["\n"]. *)
Definition LF : string := String "010"%char EmptyString.

(** [startsWith pat s]: [pat] occurs in [s] at position 0. *)
Fixpoint startsWith (pat s : string) : bool :=
  match pat, s with
  | EmptyString, _ => true
  | String _ _, EmptyString => false
  | String a pat', String b s' =>
      if Ascii.eqb a b then startsWith pat' s' else false
  end.

(** [s.indexOf(pat)]: position of the first occurrence, [-1] if none. *)
Fixpoint indexOf (pat s : string) : Z :=
  if startsWith pat s then 0
  else match s with
       | EmptyString => -1
       | String _ s' =>
           let i := indexOf pat s' in
           if i <? 0 then -1 else i + 1
       end.

Fixpoint slice_to (n : nat) (s : string) : string :=
  match n, s with
  | S n', String c s' => String c (slice_to n' s')
  | _, _ => EmptyString
  end.

Fixpoint slice_from (n : nat) (s : string) : string :=
  match n, s with
  | S n', String _ s' => slice_from n' s'
  | _, _ => s
  end.

(** [s.substr(start, len)]; [len = None] is the one-argument call.
    A negative [start] counts from the end, a negative [len] is 0, and
    both are clamped to the string. *)
Definition substr (s : string) (start : Z) (len : option Z) : string :=
  let size := Z.of_nat (String.length s) in
  let intStart :=
    if start <? 0 then Z.max (size + start) 0 else Z.min start size in
  let intLength :=
    match len with
    | None => size
    | Some l => Z.min (Z.max l 0) size
    end in
  let intEnd := Z.min (intStart + intLength) size in
  slice_to (Z.to_nat (intEnd - intStart)) (slice_from (Z.to_nat intStart) s).

(** [s.split(sep)] for a one-character separator: the segments between
    the separators, in order; never the empty list. *)
Fixpoint split (sep : ascii) (s : string) : list string :=
  match s with
  | EmptyString => [EmptyString]
  | String c s' =>
      if Ascii.eqb c sep then EmptyString :: split sep s'
      else match split sep s' with
           | seg :: segs => String c seg :: segs
           | [] => [String c EmptyString]
           end
  end.

(** [s.replace(pat, rep)] with a string pattern and a replacement free
    of ["$"]: the first occurrence only. *)
Fixpoint replace (pat rep s : string) : string :=
  if startsWith pat s then rep ++ slice_from (String.length pat) s
  else match s with
       | EmptyString => EmptyString
       | String c s' => String c (replace pat rep s')
       end.

(** [s.includes(pat)]. *)
Definition includes (pat s : string) : bool := 0 <=? indexOf pat s.

(** [s.endsWith(pat)]. *)
Definition endsWith (pat s : string) : bool :=
  String.eqb (slice_from (String.length s - String.length pat) s) pat
  && (String.length pat <=? String.length s)%nat.

End JsString.

Import JsString.

(** ** [convertToSettings] and [convertId] *)

(** [result[key] = value] on an object literal whose values are strings.
    Every key makes an own property except ["__proto__"]: that one reaches
    the accessor inherited from [Object.prototype], whose setter ignores a
    value that is neither an object nor [null]. *)
Definition obj_assign (result : gmap string string) (key value : string)
  : gmap string string :=
  if decide (key = "__proto__") then result else <[key := value]> result.

(** The two [substr] calls of the loop body. *)
Definition field_key (field : string) : string :=
  substr field 0 (Some (indexOf "=" field)).

Definition field_value (field : string) : string :=
  substr field (indexOf "=" field + 1) None.

(** The body of the [for] loop at index [i]. *)
Definition convertToSettings_body (fields : list string)
  (result : gmap string string) (i : nat) : gmap string string :=
  match fields !! i with
  | Some field => obj_assign result (field_key field) (field_value field)
  | None => result
  end.

(** [for (let i = 0; i < fields.length - 1; i++)]. *)
Definition convertToSettings (parsedConnectionString : string)
  : gmap string string :=
  let fields := split "010"%char parsedConnectionString in
  foldl (convertToSettings_body fields) ∅
        (seq 0 (List.length fields - 1)).

Definition MS_RESOURCE_DEPLOYMENT : string := "Microsoft.Resources/deployments".
Definition MS_WEB_SITE : string := "Microsoft.Web/sites".

(** [convertId]; [AppService] is the value of the enum member
    [AzureResourceType.AppService], declared in [constants.ts]. *)
Definition convertId (AppService : string) (rawId : string) : string :=
  replace ("-" ++ AppService) ""
          (replace MS_RESOURCE_DEPLOYMENT MS_WEB_SITE rawId).


(** ** Values that cross the message channel *)

(** What a handler puts in a response: the JavaScript values it builds.
    An object is its own properties in insertion order. *)
Inductive JsValue : Type :=
| JUndefined
| JNull
| JBool (b : bool)
| JString (s : string)
| JArray (items : list JsValue)
| JObject (props : list (string * JsValue)).

(** [obj.key]: the first property of that name, [undefined] if there is
    none or if [obj] is not an object. *)
Fixpoint props_get (props : list (string * JsValue)) (key : string) : JsValue :=
  match props with
  | [] => JUndefined
  | (k, v) :: rest => if String.eqb k key then v else props_get rest key
  end.

Definition js_get (obj : JsValue) (key : string) : JsValue :=
  match obj with
  | JObject props => props_get props key
  | _ => JUndefined
  end.

(** A property written after a spread: overwritten in place when the
    spread already brought the key, appended otherwise. *)
Fixpoint props_set (props : list (string * JsValue)) (key : string)
  (v : JsValue) : list (string * JsValue) :=
  match props with
  | [] => [(key, v)]
  | (k, v0) :: rest =>
      if String.eqb k key then (k, v) :: rest
      else (k, v0) :: props_set rest key v
  end.

(** A value of type [string | undefined]. *)
Definition is_undefined (r : option string) : bool :=
  match r with None => true | Some _ => false end.

(** [r === s] for a string [s]. *)
Definition strict_eq (r : option string) (s : string) : bool :=
  match r with Some x => String.eqb x s | None => false end.

(** Truthiness of a [string | undefined]: only a non-empty string. *)
Definition truthy (r : option string) : bool :=
  match r with Some x => negb (String.eqb x "") | None => false end.

Definition js_of_reason (r : option string) : JsValue :=
  match r with Some x => JString x | None => JUndefined end.

(** ** Data model *)

(** A subscription object handed out by the auth module.  [oid] stands
    for the identity of the JavaScript object: two items are the same
    object exactly when they are equal as records. *)
Record SubscriptionItem : Type := {
  oid : nat;
  label : string;
  session_tenantId : string
}.

#[global] Instance SubscriptionItem_eq_dec : EqDecision SubscriptionItem.
Proof. solve_decision. Defined.

Record ResourceGroup : Type := { name : string }.
Record ResourceGroupItem : Type := { rg_name : string; rg_location : string }.
Record LocationItem : Type := { locationDisplayName : string }.
Record SkuDescription : Type := { sku_name : string; sku_tier : string }.
Record AppNameValidationResult : Type := { isValid : bool; message : string }.
Record DatabaseObject : Type := { connectionString : string }.

Inductive AzureResourceType : Type := AppService | Cosmos | Functions.

#[global] Instance AzureResourceType_eq_dec : EqDecision AzureResourceType.
Proof. solve_decision. Defined.

Module ResourceGroupSelection.
Record t : Type := {
  subscriptionItem : SubscriptionItem;
  resourceGroupName : string;
  location : string
}.
End ResourceGroupSelection.

Module AppServiceSelections.
Record t : Type := {
  siteName : string;
  subscriptionItem : SubscriptionItem;
  resourceGroupItem : ResourceGroupItem;
  appServicePlanName : string;
  tier : string;
  sku : string;
  linuxFxVersion : option string;
  location : string
}.
End AppServiceSelections.

Module FunctionSelections.
Record t : Type := {
  functionAppName : string;
  subscriptionItem : SubscriptionItem;
  resourceGroupItem : ResourceGroupItem;
  location : string;
  runtime : string;
  functionNames : list string
}.
End FunctionSelections.

Module CosmosDBSelections.
Record t : Type := {
  cosmosAPI : string;
  cosmosDBResourceName : string;
  location : string;
  resourceGroupItem : ResourceGroupItem;
  subscriptionItem : SubscriptionItem
}.
End CosmosDBSelections.

(** The [message: any] of a command handler, with the fields the
    handlers read. *)
Module Message.
Record t : Type := {
  payload_scope : JsValue;
  subscription : string;
  appName : string;
  projectName : string
}.
End Message.

(** The [payload: any] of [generateDistinctResourceGroupSelections] and
    [deployWebApp]; a field [a_b] is the source's [payload.a.b]. *)
Module Payload.
Record t : Type := {
  engine_projectName : string;
  engine_backendFramework : string;
  engine_path : string;
  selectedFunctions : bool;
  functions_subscription : string;
  selectedCosmos : bool;
  cosmos_subscription : string;
  selectedAppService : bool;
  appService_subscription : string;
  appService_siteName : string;
  appService_resourceGroup : string
}.
End Payload.

(** The [selections: any] of [deployFunctionApp]. *)
Module FunctionInput.
Record t : Type := {
  subscription : string;
  appName : string;
  resourceGroup : string;
  location : string;
  runtimeStack : string;
  functionNames : list string
}.
End FunctionInput.

(** The [selections: any] of [deployCosmosResource]. *)
Module CosmosInput.
Record t : Type := {
  subscription : string;
  api : string;
  accountName : string;
  resourceGroup : string
}.
End CosmosInput.

Record IPayloadResponse : Type := { payload : JsValue }.

(** Constants imported from [configuration.json] and [constants.ts],
    which are outside the file; the development is parametric in them. *)
Record Constants : Type := {
  MICROSOFT_LEARN_TENANTS : list string;
  AZURE_LOCATION_CENTRAL_US : string;
  ERRORS_SUBSCRIPTION_NOT_FOUND : string;
  ERRORS_LOGIN_TIMEOUT : string;
  ERRORS_APP_SERVICE_UNDEFINED_ID : string;
  SKU_DESCRIPTION_FREE : SkuDescription;
  SKU_DESCRIPTION_BASIC : SkuDescription;
  AzureResourceType_AppService : string;
  BackendFrameworkLinuxVersion : string -> option string
}.

(** ** Exceptions, external calls and the monad *)

Inductive Error : Type :=
| SubscriptionError (msg : string)
| AuthorizationError (msg : string)
| ValidationError (msg : string)
| PlainError (msg : string)
| TypeError
| ExternalError (what : string).

Inductive Outcome (A : Type) : Type :=
| Resolved (a : A)
| Rejected (e : Error).
Arguments Resolved {A} a.
Arguments Rejected {A} e.

(** One entry per call that leaves the class, with its arguments. *)
Inductive Call : Type :=
| CallLogin
| CallGetSubscriptions
| CallLogout
| CallGetAllResourceGroupItems (s : SubscriptionItem)
| CallGetLocationsForCosmos (s : SubscriptionItem)
| CallGetLocationsForApp (s : SubscriptionItem)
| CallGetResourceGroupItem (rg : string) (s : SubscriptionItem)
| CallGenerateValidAzureTypeName (projectName : string) (t : AzureResourceType)
| CallCheckWebAppName (n : string) (s : SubscriptionItem)
| CallValidateCosmosDBAccountName (n : string) (s : SubscriptionItem)
| CallCheckFunctionAppName (n : string) (s : SubscriptionItem)
| CallGenerateValidResourceGroupName (projectName : string)
    (subs : list SubscriptionItem)
| CallGetResourceGroups (s : SubscriptionItem)
| CallCreateResourceGroup (sel : ResourceGroupSelection.t)
| CallGenerateValidASPName (projectName : string)
| CallCreateWebApp (sel : AppServiceSelections.t) (path : string)
| CallCreateFunctionApp (sel : FunctionSelections.t) (path : string)
| CallCreateCosmosDB (sel : CosmosDBSelections.t) (path : string).

(** How the outside world answers during one run of a handler. *)
Record Oracle : Type := {
  AzureAuth_login : Outcome bool;
  AzureAuth_getEmail : option string;
  AzureAuth_getSubscriptions : Outcome (list SubscriptionItem);
  AzureAuth_logout : Outcome bool;
  AzureAuth_getAllResourceGroupItems :
    SubscriptionItem -> Outcome (list ResourceGroup);
  AzureAuth_getLocationsForCosmos : SubscriptionItem -> Outcome (list LocationItem);
  AzureAuth_getLocationsForApp : SubscriptionItem -> Outcome (list LocationItem);
  AzureAuth_getResourceGroupItem :
    string -> SubscriptionItem -> Outcome ResourceGroupItem;
  generateValidAzureTypeName : string -> AzureResourceType -> Outcome string;
  checkWebAppName : string -> SubscriptionItem -> Outcome (option string);
  validateCosmosDBAccountName :
    string -> SubscriptionItem -> Outcome (option string);
  checkFunctionAppName : string -> SubscriptionItem -> Outcome (option string);
  generateValidResourceGroupName :
    string -> list SubscriptionItem -> Outcome string;
  GetResourceGroups : SubscriptionItem -> Outcome (list ResourceGroup);
  createResourceGroup : ResourceGroupSelection.t -> Outcome JsValue;
  generateValidASPName : string -> Outcome string;
  createWebApp : AppServiceSelections.t -> string -> Outcome (option string);
  validateFunctionNames : list string -> AppNameValidationResult;
  createFunctionApp : FunctionSelections.t -> string -> Outcome unit;
  createCosmosDB : CosmosDBSelections.t -> string -> Outcome DatabaseObject
}.

(** The static fields of the class, and the trace of external calls
    (oldest first). *)
Record State : Type := {
  subscriptionItemList : list SubscriptionItem;
  usersFunctionSubscriptionItemCache : option SubscriptionItem;
  usersCosmosDBSubscriptionItemCache : option SubscriptionItem;
  usersAppServiceSubscriptionItemCache : option SubscriptionItem;
  trace : list Call
}.

(** The state when the class is loaded. *)
Definition initial : State :=
  {| subscriptionItemList := [];
     usersFunctionSubscriptionItemCache := None;
     usersCosmosDBSubscriptionItemCache := None;
     usersAppServiceSubscriptionItemCache := None;
     trace := [] |}.

Definition set_subscriptionItemList (v : list SubscriptionItem) (st : State) :=
  {| subscriptionItemList := v;
     usersFunctionSubscriptionItemCache := usersFunctionSubscriptionItemCache st;
     usersCosmosDBSubscriptionItemCache := usersCosmosDBSubscriptionItemCache st;
     usersAppServiceSubscriptionItemCache := usersAppServiceSubscriptionItemCache st;
     trace := trace st |}.

Definition set_usersFunctionSubscriptionItemCache (v : SubscriptionItem) (st : State) :=
  {| subscriptionItemList := subscriptionItemList st;
     usersFunctionSubscriptionItemCache := Some v;
     usersCosmosDBSubscriptionItemCache := usersCosmosDBSubscriptionItemCache st;
     usersAppServiceSubscriptionItemCache := usersAppServiceSubscriptionItemCache st;
     trace := trace st |}.

Definition set_usersCosmosDBSubscriptionItemCache (v : SubscriptionItem) (st : State) :=
  {| subscriptionItemList := subscriptionItemList st;
     usersFunctionSubscriptionItemCache := usersFunctionSubscriptionItemCache st;
     usersCosmosDBSubscriptionItemCache := Some v;
     usersAppServiceSubscriptionItemCache := usersAppServiceSubscriptionItemCache st;
     trace := trace st |}.

Definition set_usersAppServiceSubscriptionItemCache (v : SubscriptionItem) (st : State) :=
  {| subscriptionItemList := subscriptionItemList st;
     usersFunctionSubscriptionItemCache := usersFunctionSubscriptionItemCache st;
     usersCosmosDBSubscriptionItemCache := usersCosmosDBSubscriptionItemCache st;
     usersAppServiceSubscriptionItemCache := Some v;
     trace := trace st |}.

Definition log (c : Call) (st : State) : State :=
  {| subscriptionItemList := subscriptionItemList st;
     usersFunctionSubscriptionItemCache := usersFunctionSubscriptionItemCache st;
     usersCosmosDBSubscriptionItemCache := usersCosmosDBSubscriptionItemCache st;
     usersAppServiceSubscriptionItemCache := usersAppServiceSubscriptionItemCache st;
     trace := trace st ++ [c] |}.

(** An [async] body: it runs on the current state and either resolves or
    rejects; what it wrote before rejecting stays written. *)
Definition M (A : Type) : Type := State -> Outcome A * State.

Definition ret {A} (a : A) : M A := fun st => (Resolved a, st).

Definition throw {A} (e : Error) : M A := fun st => (Rejected e, st).

Definition bind {A B} (m : M A) (k : A -> M B) : M B :=
  fun st =>
    match m st with
    | (Resolved a, st') => k a st'
    | (Rejected e, st') => (Rejected e, st')
    end.

(** [await callee(args)]: the call is logged and the oracle's answer is
    its outcome. *)
Definition await {A} (c : Call) (answer : Outcome A) : M A :=
  fun st => (answer, log c st).

Definition gets {A} (f : State -> A) : M A := fun st => (Resolved (f st), st).

Definition modify (f : State -> State) : M unit := fun st => (Resolved tt, f st).

(** Reading a cache slot as a [SubscriptionItem].  Every read in the file
    follows a resolved update of the same slot, which leaves the slot
    defined (lemma [update_resolved_defined]); the other branch stands for
    handing [undefined] on and is never taken. *)
Definition cached (slot : State -> option SubscriptionItem) : M SubscriptionItem :=
  fun st =>
    match slot st with
    | Some s => (Resolved s, st)
    | None => (Rejected TypeError, st)
    end.

Declare Scope az_scope.
Delimit Scope az_scope with az.
Notation "x <- m ;; k" := (bind m (fun x => k))
  (at level 100, m at next level, right associativity) : az_scope.
Notation "m ;;; k" := (bind m (fun _ => k))
  (at level 100, right associativity) : az_scope.
Open Scope az_scope.

(** [Promise.all(items.map(async x => await f(x)))]: every body is started,
    in order, whatever the others do; the result is the list of values if
    all resolve.  (When several reject, which rejection wins depends on
    timing; the model takes the first in list order.) *)
Fixpoint Promise_all {A} (ms : list (M A)) : M (list A) :=
  fun st =>
    match ms with
    | [] => (Resolved [], st)
    | m :: ms' =>
        let '(o, st1) := m st in
        let '(os, st2) := Promise_all ms' st1 in
        (match o, os with
         | Resolved a, Resolved l => Resolved (a :: l)
         | Rejected e, _ => Rejected e
         | Resolved _, Rejected e => Rejected e
         end, st2)
    end.

(** [[...new Set(items)]]: the distinct objects, each at the place of its
    first occurrence. *)
Definition Set_add (s : list SubscriptionItem) (x : SubscriptionItem)
  : list SubscriptionItem :=
  if decide (x ∈ s) then s else s ++ [x].

Definition Set_of (items : list SubscriptionItem) : list SubscriptionItem :=
  foldl Set_add [] items.

(** ** The class [AzureServices] *)

(** The keys of the dispatch table. *)
Module ExtensionCommand.
Inductive t : Type :=
| Login
| GetUserStatus
| Logout
| GetSubscriptionDataForCosmos
| GetSubscriptionDataForAppService
| GetValidAppServiceName
| GetValidCosmosName
| NameFunctions
| NameCosmos
| NameAppService.
End ExtensionCommand.

(** [list.find(item => item.label === subscriptionLabel)]. *)
Definition find_label (subscriptionLabel : string) (items : list SubscriptionItem)
  : option SubscriptionItem :=
  List.find (fun subscriptionItem => String.eqb (label subscriptionItem) subscriptionLabel)
            items.

(** The test that guards the lookup in the three cache updates:
    [cache === undefined || subscriptionLabel !== cache.label]. *)
Definition cache_miss (cache : option SubscriptionItem) (subscriptionLabel : string)
  : bool :=
  match cache with
  | None => true
  | Some c => negb (String.eqb subscriptionLabel (label c))
  end.

Section AzureServices.

Variable K : Constants.

Definition IsMicrosoftLearnSubscription (subscriptionItem : SubscriptionItem)
  : bool :=
  bool_decide (session_tenantId subscriptionItem ∈ MICROSOFT_LEARN_TENANTS K).

Definition updateAppServiceSubscriptionItemCache (subscriptionLabel : string)
  : M unit :=
  cache <- gets usersAppServiceSubscriptionItemCache ;;
  if cache_miss cache subscriptionLabel then
    items <- gets subscriptionItemList ;;
    match find_label subscriptionLabel items with
    | Some subscriptionItem =>
        modify (set_usersAppServiceSubscriptionItemCache subscriptionItem)
    | None => throw (SubscriptionError (ERRORS_SUBSCRIPTION_NOT_FOUND K))
    end
  else ret tt.

Definition updateCosmosDBSubscriptionItemCache (subscriptionLabel : string)
  : M unit :=
  cache <- gets usersCosmosDBSubscriptionItemCache ;;
  if cache_miss cache subscriptionLabel then
    items <- gets subscriptionItemList ;;
    match find_label subscriptionLabel items with
    | Some subscriptionItem =>
        modify (set_usersCosmosDBSubscriptionItemCache subscriptionItem)
    | None => throw (SubscriptionError (ERRORS_SUBSCRIPTION_NOT_FOUND K))
    end
  else ret tt.

Definition updateFunctionSubscriptionItemCache (subscriptionLabel : string)
  : M unit :=
  cache <- gets usersFunctionSubscriptionItemCache ;;
  if cache_miss cache subscriptionLabel then
    items <- gets subscriptionItemList ;;
    match find_label subscriptionLabel items with
    | Some subscriptionItem =>
        modify (set_usersFunctionSubscriptionItemCache subscriptionItem)
    | None => throw (SubscriptionError (ERRORS_SUBSCRIPTION_NOT_FOUND K))
    end
  else ret tt.

Definition sendUserStatusIfLoggedIn (w : Oracle) (message : Message.t)
  : M IPayloadResponse :=
  if truthy (AzureAuth_getEmail w) then
    subscriptions <- await CallGetSubscriptions (AzureAuth_getSubscriptions w) ;;
    modify (set_subscriptionItemList subscriptions) ;;;
    items <- gets subscriptionItemList ;;
    let subscriptionListToDisplay :=
      map (fun subscriptionItem =>
             JObject [("label", JString (label subscriptionItem));
                      ("value", JString (label subscriptionItem));
                      ("isMicrosoftLearnSubscription",
                       JBool (IsMicrosoftLearnSubscription subscriptionItem))])
          items in
    ret {| payload :=
             JObject [("scope", Message.payload_scope message);
                      ("email", js_of_reason (AzureAuth_getEmail w));
                      ("subscriptions", JArray subscriptionListToDisplay)] |}
  else ret {| payload := JNull |}.

Definition performLoginForSubscriptions (w : Oracle) (message : Message.t)
  : M IPayloadResponse :=
  isLoggedIn <- await CallLogin (AzureAuth_login w) ;;
  if isLoggedIn : bool then sendUserStatusIfLoggedIn w message
  else throw (AuthorizationError (ERRORS_LOGIN_TIMEOUT K)).

Definition performLogout (w : Oracle) (message : Message.t)
  : M IPayloadResponse :=
  success <- await CallLogout (AzureAuth_logout w) ;;
  ret {| payload := JObject [("scope", Message.payload_scope message);
                             ("success", JBool success)] |}.

Definition label_value (text : string) : JsValue :=
  JObject [("label", JString text); ("value", JString text)].

Definition getSubscriptionData (w : Oracle) (subscriptionLabel : string)
  (AzureType : AzureResourceType) : M (list (string * JsValue)) :=
  items <- gets subscriptionItemList ;;
  match find_label subscriptionLabel items with
  | None => throw (SubscriptionError (ERRORS_SUBSCRIPTION_NOT_FOUND K))
  | Some subscriptionItem =>
      resourceGroups <- await (CallGetAllResourceGroupItems subscriptionItem)
                          (AzureAuth_getAllResourceGroupItems w subscriptionItem) ;;
      let resourceGroupItems :=
        map (fun resourceGroup => label_value (name resourceGroup)) resourceGroups in
      locationItems <-
        match AzureType with
        | Cosmos =>
            await (CallGetLocationsForCosmos subscriptionItem)
                  (AzureAuth_getLocationsForCosmos w subscriptionItem)
        | Functions | AppService =>
            await (CallGetLocationsForApp subscriptionItem)
                  (AzureAuth_getLocationsForApp w subscriptionItem)
        end ;;
      let locations :=
        map (fun location => label_value (locationDisplayName location))
            locationItems in
      ret [("resourceGroups", JArray resourceGroupItems);
           ("locations", JArray locations)]
  end.

Definition sendAppServiceSubscriptionDataToClient (w : Oracle)
  (message : Message.t) : M IPayloadResponse :=
  data <- getSubscriptionData w (Message.subscription message) AppService ;;
  ret {| payload :=
           JObject (props_set data "scope" (Message.payload_scope message)) |}.

Definition sendCosmosSubscriptionDataToClient (w : Oracle)
  (message : Message.t) : M IPayloadResponse :=
  data <- getSubscriptionData w (Message.subscription message) Cosmos ;;
  validName <- await (CallGenerateValidAzureTypeName (Message.projectName message) Cosmos)
                 (generateValidAzureTypeName w (Message.projectName message) Cosmos) ;;
  ret {| payload :=
           JObject (props_set (props_set data "validName" (JString validName))
                              "scope" (Message.payload_scope message)) |}.

Definition GetValidAppServiceName (w : Oracle) (message : Message.t)
  : M IPayloadResponse :=
  validName <- await (CallGenerateValidAzureTypeName (Message.projectName message) AppService)
                 (generateValidAzureTypeName w (Message.projectName message) AppService) ;;
  ret {| payload := JObject [("validName", JString validName);
                             ("scope", Message.payload_scope message)] |}.

Definition GetValidCosmosName (w : Oracle) (message : Message.t)
  : M IPayloadResponse :=
  validName <- await (CallGenerateValidAzureTypeName (Message.projectName message) Cosmos)
                 (generateValidAzureTypeName w (Message.projectName message) Cosmos) ;;
  ret {| payload := JObject [("validName", JString validName);
                             ("scope", Message.payload_scope message)] |}.

(** [!invalidReason || invalidReason === undefined || invalidReason === ""]. *)
Definition isAvailable_of (invalidReason : option string) : bool :=
  negb (truthy invalidReason) || is_undefined invalidReason
  || strict_eq invalidReason "".

Definition sendAppServiceNameValidationStatusToClient (w : Oracle)
  (message : Message.t) : M IPayloadResponse :=
  updateAppServiceSubscriptionItemCache (Message.subscription message) ;;;
  cache <- cached usersAppServiceSubscriptionItemCache ;;
  invalidReason <- await (CallCheckWebAppName (Message.appName message) cache)
                     (checkWebAppName w (Message.appName message) cache) ;;
  ret {| payload :=
           JObject [("scope", Message.payload_scope message);
                    ("isAvailable", JBool (isAvailable_of invalidReason));
                    ("reason", js_of_reason invalidReason)] |}.

Definition sendCosmosNameValidationStatusToClient (w : Oracle)
  (message : Message.t) : M IPayloadResponse :=
  updateCosmosDBSubscriptionItemCache (Message.subscription message) ;;;
  cache <- cached usersCosmosDBSubscriptionItemCache ;;
  invalidReason <- await (CallValidateCosmosDBAccountName (Message.appName message) cache)
                     (validateCosmosDBAccountName w (Message.appName message) cache) ;;
  ret {| payload :=
           JObject [("scope", Message.payload_scope message);
                    ("isAvailable", JBool (isAvailable_of invalidReason));
                    ("reason", js_of_reason invalidReason)] |}.

Definition sendFunctionNameValidationStatusToClient (w : Oracle)
  (message : Message.t) : M IPayloadResponse :=
  updateFunctionSubscriptionItemCache (Message.subscription message) ;;;
  cache <- cached usersFunctionSubscriptionItemCache ;;
  invalidReason <- await (CallCheckFunctionAppName (Message.appName message) cache)
                     (checkFunctionAppName w (Message.appName message) cache) ;;
  ret {| payload :=
           JObject [("isAvailable", JBool (isAvailable_of invalidReason));
                    ("reason", js_of_reason invalidReason)] |}.

(** The dispatch table [clientCommandMap]. *)
Definition clientCommandMap (command : ExtensionCommand.t)
  : Oracle -> Message.t -> M IPayloadResponse :=
  match command with
  | ExtensionCommand.Login => performLoginForSubscriptions
  | ExtensionCommand.GetUserStatus => sendUserStatusIfLoggedIn
  | ExtensionCommand.Logout => performLogout
  | ExtensionCommand.GetSubscriptionDataForCosmos =>
      sendCosmosSubscriptionDataToClient
  | ExtensionCommand.GetSubscriptionDataForAppService =>
      sendAppServiceSubscriptionDataToClient
  | ExtensionCommand.GetValidAppServiceName => GetValidAppServiceName
  | ExtensionCommand.GetValidCosmosName => GetValidCosmosName
  | ExtensionCommand.NameFunctions => sendFunctionNameValidationStatusToClient
  | ExtensionCommand.NameCosmos => sendCosmosNameValidationStatusToClient
  | ExtensionCommand.NameAppService =>
      sendAppServiceNameValidationStatusToClient
  end.

Definition generateResourceGroupSelection (w : Oracle) (generatedName : string)
  (subscriptionItem : SubscriptionItem) : M ResourceGroupSelection.t :=
  resourceGroupName <-
    (if IsMicrosoftLearnSubscription subscriptionItem then
       resourceGroups <- await (CallGetResourceGroups subscriptionItem)
                           (GetResourceGroups w subscriptionItem) ;;
       match resourceGroups with
       | first :: _ => ret (name first)
       | [] => throw TypeError
       end
     else ret generatedName) ;;
  ret {| ResourceGroupSelection.subscriptionItem := subscriptionItem;
         ResourceGroupSelection.resourceGroupName := resourceGroupName;
         ResourceGroupSelection.location := AZURE_LOCATION_CENTRAL_US K |}.

Definition generateDistinctResourceGroupSelections (w : Oracle)
  (payload : Payload.t) : M (list ResourceGroupSelection.t) :=
  let projectName := Payload.engine_projectName payload in
  let allSubscriptions : list SubscriptionItem := [] in
  allSubscriptions <-
    (if Payload.selectedFunctions payload then
       updateFunctionSubscriptionItemCache (Payload.functions_subscription payload) ;;;
       cache <- cached usersFunctionSubscriptionItemCache ;;
       ret (allSubscriptions ++ [cache])%list
     else ret allSubscriptions) ;;
  allSubscriptions <-
    (if Payload.selectedCosmos payload then
       updateCosmosDBSubscriptionItemCache (Payload.cosmos_subscription payload) ;;;
       cache <- cached usersCosmosDBSubscriptionItemCache ;;
       ret (allSubscriptions ++ [cache])%list
     else ret allSubscriptions) ;;
  allSubscriptions <-
    (if Payload.selectedAppService payload then
       updateAppServiceSubscriptionItemCache (Payload.appService_subscription payload) ;;;
       cache <- cached usersAppServiceSubscriptionItemCache ;;
       ret (allSubscriptions ++ [cache])%list
     else ret allSubscriptions) ;;
  let allDistinctSubscriptions := Set_of allSubscriptions in
  generatedName <-
    await (CallGenerateValidResourceGroupName projectName allDistinctSubscriptions)
          (generateValidResourceGroupName w projectName allDistinctSubscriptions) ;;
  Promise_all
    (map (fun subscription =>
            generateResourceGroupSelection w generatedName subscription)
         allDistinctSubscriptions).

(** Falling off the end of the function resolves to [undefined]. *)
Definition deployResourceGroup (w : Oracle) (selections : ResourceGroupSelection.t)
  : M JsValue :=
  if negb (IsMicrosoftLearnSubscription
             (ResourceGroupSelection.subscriptionItem selections))
  then await (CallCreateResourceGroup selections) (createResourceGroup w selections)
  else ret JUndefined.

(** The [.then] callback of the three deployments:
    [if (invalidReason !== undefined && invalidReason === "") throw ...]. *)
Definition rejectInvalidReason (invalidReason : option string) : M unit :=
  if negb (is_undefined invalidReason) && strict_eq invalidReason "" then
    throw (ValidationError (default "" invalidReason))
  else ret tt.

Definition deployWebApp (w : Oracle) (payload : Payload.t) : M string :=
  updateAppServiceSubscriptionItemCache (Payload.appService_subscription payload) ;;;
  aspName <- await (CallGenerateValidASPName (Payload.engine_projectName payload))
               (generateValidASPName w (Payload.engine_projectName payload)) ;;
  cache <- cached usersAppServiceSubscriptionItemCache ;;
  let appServicePlan :=
    if IsMicrosoftLearnSubscription cache then SKU_DESCRIPTION_FREE K
    else SKU_DESCRIPTION_BASIC K in
  resourceGroupItem <-
    await (CallGetResourceGroupItem (Payload.appService_resourceGroup payload) cache)
          (AzureAuth_getResourceGroupItem w
             (Payload.appService_resourceGroup payload) cache) ;;
  let userAppServiceSelection :=
    {| AppServiceSelections.siteName := Payload.appService_siteName payload;
       AppServiceSelections.subscriptionItem := cache;
       AppServiceSelections.resourceGroupItem := resourceGroupItem;
       AppServiceSelections.appServicePlanName := aspName;
       AppServiceSelections.tier := sku_tier appServicePlan;
       AppServiceSelections.sku := sku_name appServicePlan;
       AppServiceSelections.linuxFxVersion :=
         BackendFrameworkLinuxVersion K (Payload.engine_backendFramework payload);
       AppServiceSelections.location := AZURE_LOCATION_CENTRAL_US K |} in
  invalidReason <-
    await (CallCheckWebAppName
             (AppServiceSelections.siteName userAppServiceSelection)
             (AppServiceSelections.subscriptionItem userAppServiceSelection))
          (checkWebAppName w
             (AppServiceSelections.siteName userAppServiceSelection)
             (AppServiceSelections.subscriptionItem userAppServiceSelection)) ;;
  rejectInvalidReason invalidReason ;;;
  result <- await (CallCreateWebApp userAppServiceSelection (Payload.engine_path payload))
              (createWebApp w userAppServiceSelection (Payload.engine_path payload)) ;;
  if negb (truthy result) then
    throw (PlainError (ERRORS_APP_SERVICE_UNDEFINED_ID K))
  else ret (convertId (AzureResourceType_AppService K) (default "" result)).

Definition deployFunctionApp (w : Oracle) (selections : FunctionInput.t)
  (appPath : string) : M unit :=
  updateFunctionSubscriptionItemCache (FunctionInput.subscription selections) ;;;
  cache <- cached usersFunctionSubscriptionItemCache ;;
  resourceGroupItem <-
    await (CallGetResourceGroupItem (FunctionInput.resourceGroup selections) cache)
          (AzureAuth_getResourceGroupItem w
             (FunctionInput.resourceGroup selections) cache) ;;
  let userFunctionsSelections :=
    {| FunctionSelections.functionAppName := FunctionInput.appName selections;
       FunctionSelections.subscriptionItem := cache;
       FunctionSelections.resourceGroupItem := resourceGroupItem;
       FunctionSelections.location := FunctionInput.location selections;
       FunctionSelections.runtime := FunctionInput.runtimeStack selections;
       FunctionSelections.functionNames := FunctionInput.functionNames selections |} in
  let functionNamesValidation :=
    validateFunctionNames w (FunctionSelections.functionNames userFunctionsSelections) in
  if negb (isValid functionNamesValidation) then
    throw (ValidationError (message functionNamesValidation))
  else
    invalidReason <-
      await (CallCheckFunctionAppName
               (FunctionSelections.functionAppName userFunctionsSelections)
               (FunctionSelections.subscriptionItem userFunctionsSelections))
            (checkFunctionAppName w
               (FunctionSelections.functionAppName userFunctionsSelections)
               (FunctionSelections.subscriptionItem userFunctionsSelections)) ;;
    rejectInvalidReason invalidReason ;;;
    await (CallCreateFunctionApp userFunctionsSelections appPath)
          (createFunctionApp w userFunctionsSelections appPath).

Definition deployCosmosResource (w : Oracle) (selections : CosmosInput.t)
  (genPath : string) : M DatabaseObject :=
  updateCosmosDBSubscriptionItemCache (CosmosInput.subscription selections) ;;;
  cache <- cached usersCosmosDBSubscriptionItemCache ;;
  resourceGroupItem <-
    await (CallGetResourceGroupItem (CosmosInput.resourceGroup selections) cache)
          (AzureAuth_getResourceGroupItem w
             (CosmosInput.resourceGroup selections) cache) ;;
  let userCosmosDBSelection :=
    {| CosmosDBSelections.cosmosAPI := CosmosInput.api selections;
       CosmosDBSelections.cosmosDBResourceName := CosmosInput.accountName selections;
       CosmosDBSelections.location := AZURE_LOCATION_CENTRAL_US K;
       CosmosDBSelections.resourceGroupItem := resourceGroupItem;
       CosmosDBSelections.subscriptionItem := cache |} in
  invalidReason <-
    await (CallValidateCosmosDBAccountName
             (CosmosDBSelections.cosmosDBResourceName userCosmosDBSelection)
             (CosmosDBSelections.subscriptionItem userCosmosDBSelection))
          (validateCosmosDBAccountName w
             (CosmosDBSelections.cosmosDBResourceName userCosmosDBSelection)
             (CosmosDBSelections.subscriptionItem userCosmosDBSelection)) ;;
  rejectInvalidReason invalidReason ;;;
  await (CallCreateCosmosDB userCosmosDBSelection genPath)
        (createCosmosDB w userCosmosDBSelection genPath).

End AzureServices.

(** ** Vocabulary for the properties *)

(** The cache slot of a resource kind, and the update function of that
    slot. *)
Definition cache_of (kind : AzureResourceType) (st : State)
  : option SubscriptionItem :=
  match kind with
  | AppService => usersAppServiceSubscriptionItemCache st
  | Cosmos => usersCosmosDBSubscriptionItemCache st
  | Functions => usersFunctionSubscriptionItemCache st
  end.

Definition set_cache (kind : AzureResourceType) (v : SubscriptionItem)
  (st : State) : State :=
  match kind with
  | AppService => set_usersAppServiceSubscriptionItemCache v st
  | Cosmos => set_usersCosmosDBSubscriptionItemCache v st
  | Functions => set_usersFunctionSubscriptionItemCache v st
  end.

Definition updateCache (K : Constants) (kind : AzureResourceType)
  : string -> M unit :=
  match kind with
  | AppService => updateAppServiceSubscriptionItemCache K
  | Cosmos => updateCosmosDBSubscriptionItemCache K
  | Functions => updateFunctionSubscriptionItemCache K
  end.

(** The provider's name check of a resource kind, its trace entry, and the
    name-validation command of that kind. *)
Definition nameCheck (w : Oracle) (kind : AzureResourceType)
  : string -> SubscriptionItem -> Outcome (option string) :=
  match kind with
  | AppService => checkWebAppName w
  | Cosmos => validateCosmosDBAccountName w
  | Functions => checkFunctionAppName w
  end.

Definition nameCheckCall (kind : AzureResourceType)
  : string -> SubscriptionItem -> Call :=
  match kind with
  | AppService => CallCheckWebAppName
  | Cosmos => CallValidateCosmosDBAccountName
  | Functions => CallCheckFunctionAppName
  end.

Definition nameCommand (kind : AzureResourceType) : ExtensionCommand.t :=
  match kind with
  | AppService => ExtensionCommand.NameAppService
  | Cosmos => ExtensionCommand.NameCosmos
  | Functions => ExtensionCommand.NameFunctions
  end.

(** A sequence of cache updates, each a call of its own: a rejected call
    does not stop the later ones. *)
Fixpoint run_updates (K : Constants) (calls : list (AzureResourceType * string))
  (st : State) : State :=
  match calls with
  | [] => st
  | (kind, l) :: rest => run_updates K rest (snd (updateCache K kind l st))
  end.

Definition resolved {A} (o : Outcome A) : bool :=
  match o with Resolved _ => true | Rejected _ => false end.

Definition kind_eqb (a b : AzureResourceType) : bool :=
  match a, b with
  | AppService, AppService | Cosmos, Cosmos | Functions, Functions => true
  | _, _ => false
  end.

(** The label of the most recent call for [kind] that resolved, [acc] if
    there is none. *)
Fixpoint last_resolved (K : Constants) (kind : AzureResourceType)
  (calls : list (AzureResourceType * string)) (st : State)
  (acc : option string) : option string :=
  match calls with
  | [] => acc
  | (kind', l) :: rest =>
      let '(o, st') := updateCache K kind' l st in
      last_resolved K kind rest st'
        (if kind_eqb kind kind' && resolved o then Some l else acc)
  end.

(** Every cached item is the list's answer for its own label. *)
Definition coherent (st : State) : Prop :=
  forall kind c, cache_of kind st = Some c ->
    find_label (label c) (subscriptionItemList st) = Some c.

(** The invariant of the data model: every cached item is an element of
    the current list. *)
Definition cache_invariant (st : State) : Prop :=
  forall kind c, cache_of kind st = Some c -> c ∈ subscriptionItemList st.

(** One run of a command handler. *)
Definition Invocation : Type := ExtensionCommand.t * Oracle * Message.t.

Fixpoint run_commands (K : Constants) (invs : list Invocation) (st : State)
  : State :=
  match invs with
  | [] => st
  | (command, w, msg) :: rest =>
      run_commands K rest (snd (clientCommandMap K command w msg st))
  end.

(** The two commands that fetch the subscription list again. *)
Definition is_refresh (command : ExtensionCommand.t) : bool :=
  match command with
  | ExtensionCommand.Login | ExtensionCommand.GetUserStatus => true
  | _ => false
  end.

(** Along a run, every refresh installs a list that still contains the
    items cached at that moment. *)
Fixpoint refreshes_keep_cached (K : Constants) (invs : list Invocation)
  (st : State) : Prop :=
  match invs with
  | [] => True
  | (command, w, msg) :: rest =>
      let st' := snd (clientCommandMap K command w msg st) in
      (is_refresh command = true ->
       forall kind c, cache_of kind st = Some c -> c ∈ subscriptionItemList st')
      /\ refreshes_keep_cached K rest st'
  end.

(** The cache entries of the kinds a payload selects, in the order the
    planner visits them. *)
Definition selected_caches (payload : Payload.t) (st : State)
  : list SubscriptionItem :=
  ((if Payload.selectedFunctions payload
    then option_list (usersFunctionSubscriptionItemCache st) else [])
   ++ (if Payload.selectedCosmos payload
       then option_list (usersCosmosDBSubscriptionItemCache st) else [])
   ++ (if Payload.selectedAppService payload
       then option_list (usersAppServiceSubscriptionItemCache st) else []))%list.

(** The text of a connection string whose lines all end in a line feed. *)
Definition unlines (lines : list string) : string :=
  foldr (fun line rest => line ++ LF ++ rest) "" lines.

(** The payload of the name-validation handler of a kind; only the
    Functions handler leaves [scope] out. *)
Definition nameValidationPayload (kind : AzureResourceType)
  (scope : JsValue) (invalidReason : option string) : JsValue :=
  JObject ((match kind with
            | Functions => []
            | _ => [("scope", scope)]
            end)
           ++ [("isAvailable", JBool (isAvailable_of invalidReason));
               ("reason", js_of_reason invalidReason)])%list.

(** The three creation calls of the deployments. *)
Definition is_create (c : Call) : bool :=
  match c with
  | CallCreateWebApp _ _ | CallCreateFunctionApp _ _ | CallCreateCosmosDB _ _ => true
  | _ => false
  end.

(** One block of the planner: the update of a selected kind followed by
    the push of its cache entry. *)
Definition collect (K : Constants) (kind : AzureResourceType) (selected : bool)
  (subscriptionLabel : string) (allSubscriptions : list SubscriptionItem)
  : M (list SubscriptionItem) :=
  if selected then
    bind (updateCache K kind subscriptionLabel) (fun _ =>
    bind (cached (cache_of kind)) (fun cache =>
    ret (allSubscriptions ++ [cache])%list))
  else ret allSubscriptions.

(** The assignment the loop of [convertToSettings] makes for one field. *)
Definition assign_field (result : gmap string string) (field : string)
  : gmap string string :=
  obj_assign result (field_key field) (field_value field).

Ltac unfold_monad :=
  unfold bind, gets, modify, ret, throw, await, cached in *.

(** The list a command fetches and installs, if it gets that far: only a
    refresh does, and only when the login completed (for [Login]), the user
    has an e-mail and the subscriptions were fetched. *)
Definition fetched_list (command : ExtensionCommand.t) (w : Oracle)
  : option (list SubscriptionItem) :=
  let status :=
    if truthy (AzureAuth_getEmail w) then
      match AzureAuth_getSubscriptions w with
      | Resolved subs => Some subs
      | Rejected _ => None
      end
    else None in
  match command with
  | ExtensionCommand.Login =>
      match AzureAuth_login w with
      | Resolved true => status
      | _ => None
      end
  | ExtensionCommand.GetUserStatus => status
  | _ => None
  end.

(** The subscription an update of [kind] with label [l] leaves in the
    slot when it resolves, read off the state before the call: the cached
    item on a hit, the list's item for the label on a miss. *)
Definition resolve_subscription (st : State) (kind : AzureResourceType)
  (l : string) : option SubscriptionItem :=
  if cache_miss (cache_of kind st) l
  then find_label l (subscriptionItemList st)
  else cache_of kind st.

(** The subscriptions the kinds selected by a payload resolve to, from the
    state before the planner runs, in the order the planner visits them. *)
Definition resolved_subscriptions (payload : Payload.t) (st : State)
  : list SubscriptionItem :=
  ((if Payload.selectedFunctions payload
    then option_list (resolve_subscription st Functions
                        (Payload.functions_subscription payload)) else [])
   ++ (if Payload.selectedCosmos payload
       then option_list (resolve_subscription st Cosmos
                           (Payload.cosmos_subscription payload)) else [])
   ++ (if Payload.selectedAppService payload
       then option_list (resolve_subscription st AppService
                           (Payload.appService_subscription payload)) else []))%list.

(** The labels a payload selects, in the same order. *)
Definition selected_labels (payload : Payload.t) : list string :=
  ((if Payload.selectedFunctions payload
    then [Payload.functions_subscription payload] else [])
   ++ (if Payload.selectedCosmos payload
       then [Payload.cosmos_subscription payload] else [])
   ++ (if Payload.selectedAppService payload
       then [Payload.appService_subscription payload] else []))%list.


(** ** Sample data for the examples *)

Module Sample.

Definition K0 : Constants :=
  {| MICROSOFT_LEARN_TENANTS := ["learn-tenant"];
     AZURE_LOCATION_CENTRAL_US := "Central US";
     ERRORS_SUBSCRIPTION_NOT_FOUND := "subscription not found";
     ERRORS_LOGIN_TIMEOUT := "login timeout";
     ERRORS_APP_SERVICE_UNDEFINED_ID := "undefined app service id";
     SKU_DESCRIPTION_FREE := {| sku_name := "F1"; sku_tier := "Free" |};
     SKU_DESCRIPTION_BASIC := {| sku_name := "B1"; sku_tier := "Basic" |};
     AzureResourceType_AppService := "AppService";
     BackendFrameworkLinuxVersion := fun _ => Some "NODE|10.14" |}.

Definition subA : SubscriptionItem :=
  {| oid := 1; label := "A"; session_tenantId := "contoso" |}.
Definition subB : SubscriptionItem :=
  {| oid := 2; label := "B"; session_tenantId := "contoso" |}.
Definition subLearn : SubscriptionItem :=
  {| oid := 3; label := "L"; session_tenantId := "learn-tenant" |}.
(** A second object for subscription A, as a later fetch returns it. *)
Definition subA' : SubscriptionItem :=
  {| oid := 4; label := "A"; session_tenantId := "contoso" |}.

Definition rawId : string :=
  "/subscriptions/0/resourceGroups/rg/providers/Microsoft.Resources/deployments/myapp-AppService".

(** An oracle in which every call resolves: the user is logged in, the
    auth module lists [subs], every name check answers [reason], and
    every subscription has the resource groups [groups]. *)
Definition oracle (subs : list SubscriptionItem) (reason : option string)
  (groups : list ResourceGroup) : Oracle :=
  {| AzureAuth_login := Resolved true;
     AzureAuth_getEmail := Some "dev@example.com";
     AzureAuth_getSubscriptions := Resolved subs;
     AzureAuth_logout := Resolved true;
     AzureAuth_getAllResourceGroupItems := fun _ => Resolved groups;
     AzureAuth_getLocationsForCosmos := fun _ => Resolved [];
     AzureAuth_getLocationsForApp := fun _ => Resolved [];
     AzureAuth_getResourceGroupItem :=
       fun rg _ => Resolved {| rg_name := rg; rg_location := "Central US" |};
     generateValidAzureTypeName := fun projectName _ => Resolved projectName;
     checkWebAppName := fun _ _ => Resolved reason;
     validateCosmosDBAccountName := fun _ _ => Resolved reason;
     checkFunctionAppName := fun _ _ => Resolved reason;
     generateValidResourceGroupName := fun projectName _ => Resolved projectName;
     GetResourceGroups := fun _ => Resolved groups;
     createResourceGroup := fun _ => Resolved JNull;
     generateValidASPName := fun projectName => Resolved projectName;
     createWebApp := fun _ _ => Resolved (Some rawId);
     validateFunctionNames := fun _ => {| isValid := true; message := "" |};
     createFunctionApp := fun _ _ => Resolved tt;
     createCosmosDB :=
       fun _ _ => Resolved {| connectionString := "AccountEndpoint=x" |} |}.

Definition msg (subscriptionLabel : string) : Message.t :=
  {| Message.payload_scope := JString "wizard-7";
     Message.subscription := subscriptionLabel;
     Message.appName := "myapp123";
     Message.projectName := "myapp" |}.

Definition payload (fn cosmos app : bool) (lf lc la : string) : Payload.t :=
  {| Payload.engine_projectName := "myapp";
     Payload.engine_backendFramework := "Node";
     Payload.engine_path := "/tmp/myapp";
     Payload.selectedFunctions := fn;
     Payload.functions_subscription := lf;
     Payload.selectedCosmos := cosmos;
     Payload.cosmos_subscription := lc;
     Payload.selectedAppService := app;
     Payload.appService_subscription := la;
     Payload.appService_siteName := "myapp";
     Payload.appService_resourceGroup := "rg" |}.

Definition functionInput : FunctionInput.t :=
  {| FunctionInput.subscription := "A";
     FunctionInput.appName := "myfn";
     FunctionInput.resourceGroup := "rg";
     FunctionInput.location := "Central US";
     FunctionInput.runtimeStack := "node";
     FunctionInput.functionNames := ["f1"] |}.

Definition cosmosInput : CosmosInput.t :=
  {| CosmosInput.subscription := "A";
     CosmosInput.api := "MongoDB";
     CosmosInput.accountName := "mydb";
     CosmosInput.resourceGroup := "rg" |}.

(** The session after a status query that listed [subs]. *)
Definition session (subs : list SubscriptionItem) : State :=
  set_subscriptionItemList subs initial.

End Sample.

(** ** The remaining members of the class *)

(** [validateNameForAzureType]: the provider's check of the kind, on the
    subscription the caller hands in; [validationResult === undefined]. *)
Definition validateNameForAzureType (w : Oracle) (projectName : string)
  (userSubscriptionItem : SubscriptionItem) (azureType : AzureResourceType)
  : M bool :=
  validationResult <-
    match azureType with
    | AppService =>
        await (CallCheckWebAppName projectName userSubscriptionItem)
              (checkWebAppName w projectName userSubscriptionItem)
    | Cosmos =>
        await (CallValidateCosmosDBAccountName projectName userSubscriptionItem)
              (validateCosmosDBAccountName w projectName userSubscriptionItem)
    | Functions =>
        await (CallCheckFunctionAppName projectName userSubscriptionItem)
              (checkFunctionAppName w projectName userSubscriptionItem)
    end ;;
  ret (is_undefined validationResult).

(** One call of the App Service provider's [updateAppSettings], with the
    [properties] of the [StringDictionary] it receives. *)
Record AppSettingsCall : Type := {
  settings_resourceGroupName : string;
  settings_webAppName : string;
  settings_properties : gmap string string
}.

(** [updateAppSettings].  It reads no static field, so it is a function of
    its arguments: its outcome and the provider calls it makes.
    [parseConnectionString] is [ConnectionString.parseConnectionString],
    which is outside the file; the provider's promise is not awaited, so
    its outcome does not reach the caller. *)
Definition updateAppSettings (parseConnectionString : string -> Outcome string)
  (resourceGroupName webAppName connectionString : string)
  : Outcome unit * list AppSettingsCall :=
  match parseConnectionString connectionString with
  | Rejected e => (Rejected e, [])
  | Resolved parsed =>
      let settings := convertToSettings parsed in
      (Resolved tt,
       [ {| settings_resourceGroupName := resourceGroupName;
            settings_webAppName := webAppName;
            settings_properties := settings |} ])
  end.

(** ** More vocabulary *)

(** The static fields of two states agree. *)
Definition same_statics (st st' : State) : Prop :=
  subscriptionItemList st' = subscriptionItemList st
  /\ forall kind, cache_of kind st' = cache_of kind st.

(** A computation that writes nothing but the trace. *)
Definition trace_only {A} (m : M A) : Prop :=
  forall st, same_statics st (snd (m st)).

(** From [st] to [st'] the list stays and every cached item was cached
    before or is in the list. *)
Definition caches_from_list (st st' : State) : Prop :=
  subscriptionItemList st' = subscriptionItemList st
  /\ forall kind c, cache_of kind st' = Some c ->
       cache_of kind st = Some c \/ c ∈ subscriptionItemList st.

(** A computation that leaves the list alone, caches only list items, and
    writes no slot outside [kinds]. *)
Definition writes_only (kinds : list AzureResourceType) {A} (m : M A) : Prop :=
  forall st,
    caches_from_list st (snd (m st))
    /\ forall kind, kind ∉ kinds -> cache_of kind (snd (m st)) = cache_of kind st.

(** The operations of the class that return a promise and are not a
    refresh of the list: the command handlers and the public members the
    generation flow calls. *)
Inductive Operation : Type :=
| OpCommand (command : ExtensionCommand.t) (msg : Message.t)
| OpDeployWebApp (payload : Payload.t)
| OpDeployFunctionApp (selections : FunctionInput.t) (appPath : string)
| OpDeployCosmosResource (selections : CosmosInput.t) (genPath : string)
| OpGenerateDistinctResourceGroupSelections (payload : Payload.t)
| OpDeployResourceGroup (selections : ResourceGroupSelection.t)
| OpValidateNameForAzureType (projectName : string) (s : SubscriptionItem)
    (azureType : AzureResourceType).

(** The state an operation leaves behind. *)
Definition after (K : Constants) (w : Oracle) (op : Operation) (st : State)
  : State :=
  match op with
  | OpCommand command msg => snd (clientCommandMap K command w msg st)
  | OpDeployWebApp payload => snd (deployWebApp K w payload st)
  | OpDeployFunctionApp selections appPath =>
      snd (deployFunctionApp K w selections appPath st)
  | OpDeployCosmosResource selections genPath =>
      snd (deployCosmosResource K w selections genPath st)
  | OpGenerateDistinctResourceGroupSelections payload =>
      snd (generateDistinctResourceGroupSelections K w payload st)
  | OpDeployResourceGroup selections => snd (deployResourceGroup K w selections st)
  | OpValidateNameForAzureType projectName s azureType =>
      snd (validateNameForAzureType w projectName s azureType st)
  end.

Definition refreshing (op : Operation) : bool :=
  match op with
  | OpCommand command _ => is_refresh command
  | _ => false
  end.

(** The cache slots an operation updates. *)
Definition slots_of (op : Operation) : list AzureResourceType :=
  match op with
  | OpCommand ExtensionCommand.NameAppService _ => [AppService]
  | OpCommand ExtensionCommand.NameCosmos _ => [Cosmos]
  | OpCommand ExtensionCommand.NameFunctions _ => [Functions]
  | OpCommand _ _ => []
  | OpDeployWebApp _ => [AppService]
  | OpDeployFunctionApp _ _ => [Functions]
  | OpDeployCosmosResource _ _ => [Cosmos]
  | OpGenerateDistinctResourceGroupSelections payload =>
      (if Payload.selectedFunctions payload then [Functions] else [])
      ++ (if Payload.selectedCosmos payload then [Cosmos] else [])
      ++ (if Payload.selectedAppService payload then [AppService] else [])
  | OpDeployResourceGroup _ => []
  | OpValidateNameForAzureType _ _ _ => []
  end%list.

(** A connection string written from key/value pairs, one [key=value]
    line per pair. *)
Definition key_value_line (kv : string * string) : string :=
  fst kv ++ "=" ++ snd kv.

Definition serialize (kvs : list (string * string)) : string :=
  unlines (map key_value_line kvs).

(** A pair that survives the trip through a line: no ["="] in the key and
    no line feed in either part. *)
Definition line_safe (kv : string * string) : Prop :=
  indexOf "=" (fst kv) = -1
  /\ indexOf LF (fst kv) = -1
  /\ indexOf LF (snd kv) = -1.

(** The tier of the App Service plan a subscription gets. *)
Definition planned_sku (K : Constants) (s : SubscriptionItem) : SkuDescription :=
  if IsMicrosoftLearnSubscription K s then SKU_DESCRIPTION_FREE K
  else SKU_DESCRIPTION_BASIC K.

(** The resource-group lookups a list of subscriptions causes: one per
    Microsoft Learn subscription, in order. *)
Definition learn_lookups (K : Constants) (subs : list SubscriptionItem)
  : list Call :=
  map CallGetResourceGroups (filter (fun s => IsMicrosoftLearnSubscription K s = true) subs).

(** Several calls logged in order. *)
Definition log_all (calls : list Call) (st : State) : State :=
  foldl (fun s c => log c s) st calls.

(** The selection objects the three deployments assemble, as functions of
    what they are assembled from. *)
Definition userAppServiceSelection (K : Constants) (p : Payload.t)
  (cache : SubscriptionItem) (resourceGroupItem : ResourceGroupItem)
  (aspName : string) : AppServiceSelections.t :=
  {| AppServiceSelections.siteName := Payload.appService_siteName p;
     AppServiceSelections.subscriptionItem := cache;
     AppServiceSelections.resourceGroupItem := resourceGroupItem;
     AppServiceSelections.appServicePlanName := aspName;
     AppServiceSelections.tier := sku_tier (planned_sku K cache);
     AppServiceSelections.sku := sku_name (planned_sku K cache);
     AppServiceSelections.linuxFxVersion :=
       BackendFrameworkLinuxVersion K (Payload.engine_backendFramework p);
     AppServiceSelections.location := AZURE_LOCATION_CENTRAL_US K |}.

Definition userFunctionsSelections (selections : FunctionInput.t)
  (cache : SubscriptionItem) (resourceGroupItem : ResourceGroupItem)
  : FunctionSelections.t :=
  {| FunctionSelections.functionAppName := FunctionInput.appName selections;
     FunctionSelections.subscriptionItem := cache;
     FunctionSelections.resourceGroupItem := resourceGroupItem;
     FunctionSelections.location := FunctionInput.location selections;
     FunctionSelections.runtime := FunctionInput.runtimeStack selections;
     FunctionSelections.functionNames := FunctionInput.functionNames selections |}.

Definition userCosmosDBSelection (K : Constants) (selections : CosmosInput.t)
  (cache : SubscriptionItem) (resourceGroupItem : ResourceGroupItem)
  : CosmosDBSelections.t :=
  {| CosmosDBSelections.cosmosAPI := CosmosInput.api selections;
     CosmosDBSelections.cosmosDBResourceName := CosmosInput.accountName selections;
     CosmosDBSelections.location := AZURE_LOCATION_CENTRAL_US K;
     CosmosDBSelections.resourceGroupItem := resourceGroupItem;
     CosmosDBSelections.subscriptionItem := cache |}.

(** The entry of the subscription list shown to the user. *)
Definition subscriptionToDisplay (K : Constants) (s : SubscriptionItem) : JsValue :=
  JObject [("label", JString (label s));
           ("value", JString (label s));
           ("isMicrosoftLearnSubscription",
            JBool (IsMicrosoftLearnSubscription K s))].

Module Scenario.

(** An oracle with the answers that matter chosen by the scenario; the
    rest resolves as in [Sample.oracle]. *)
Definition oracle (login : Outcome bool) (email : option string)
  (subs : Outcome (list SubscriptionItem)) (check : Outcome (option string))
  (created : Outcome (option string)) (names : AppNameValidationResult)
  : Oracle :=
  {| AzureAuth_login := login;
     AzureAuth_getEmail := email;
     AzureAuth_getSubscriptions := subs;
     AzureAuth_logout := Resolved true;
     AzureAuth_getAllResourceGroupItems :=
       fun _ => Resolved [ {| name := "rg-one" |}; {| name := "rg-two" |} ];
     AzureAuth_getLocationsForCosmos :=
       fun _ => Resolved [ {| locationDisplayName := "West Europe" |} ];
     AzureAuth_getLocationsForApp :=
       fun _ => Resolved [ {| locationDisplayName := "Central US" |} ];
     AzureAuth_getResourceGroupItem :=
       fun rg _ => Resolved {| rg_name := rg; rg_location := "Central US" |};
     generateValidAzureTypeName := fun projectName _ => Resolved projectName;
     checkWebAppName := fun _ _ => check;
     validateCosmosDBAccountName := fun _ _ => check;
     checkFunctionAppName := fun _ _ => check;
     generateValidResourceGroupName := fun projectName _ => Resolved projectName;
     GetResourceGroups := fun _ => Resolved [ {| name := "learn-rg" |} ];
     createResourceGroup := fun _ => Resolved JNull;
     generateValidASPName := fun projectName => Resolved projectName;
     createWebApp := fun _ _ => created;
     validateFunctionNames := fun _ => names;
     createFunctionApp := fun _ _ => Resolved tt;
     createCosmosDB :=
       fun _ _ => Resolved {| connectionString := "AccountEndpoint=x" |} |}.

Definition fine : Oracle :=
  oracle (Resolved true) (Some "dev@example.com")
         (Resolved [Sample.subA; Sample.subLearn]) (Resolved None)
         (Resolved (Some Sample.rawId)) {| isValid := true; message := "" |}.

Definition webPayload (subscriptionLabel : string) : Payload.t :=
  Sample.payload false false true "" "" subscriptionLabel.

End Scenario.

(** ** Facts about the string primitives *)

Section StringFacts.

Lemma append_cons c (a b : string) : String c a ++ b = String c (a ++ b).
Proof. reflexivity. Qed.

Lemma append_empty (b : string) : "" ++ b = b.
Proof. reflexivity. Qed.

Lemma indexOf_lower_bound pat s : -1 <= indexOf pat s.
Proof.
  induction s as [|c s IH]; simpl.
  - destruct (startsWith pat ""); lia.
  - destruct (startsWith pat (String c s)); [lia|].
    destruct (indexOf pat s <? 0) eqn:E; [lia|].
    apply Z.ltb_ge in E. lia.
Qed.

Lemma indexOf_cons_absent pat c s :
  indexOf pat (String c s) = -1 ->
  startsWith pat (String c s) = false /\ indexOf pat s = -1.
Proof.
  simpl. destruct (startsWith pat (String c s)); [discriminate|].
  pose proof (indexOf_lower_bound pat s).
  destruct (indexOf pat s <? 0) eqn:E.
  - apply Z.ltb_lt in E. intros _. split; [reflexivity|lia].
  - apply Z.ltb_ge in E. lia.
Qed.

Lemma indexOf_cons_pos pat c s n :
  indexOf pat (String c s) = Z.of_nat (S n) ->
  startsWith pat (String c s) = false /\ indexOf pat s = Z.of_nat n.
Proof.
  simpl. destruct (startsWith pat (String c s)); [lia|].
  destruct (indexOf pat s <? 0) eqn:E; [lia|].
  intros H. split; [reflexivity|lia].
Qed.

Lemma startsWith_app pat s : startsWith pat (pat ++ s) = true.
Proof.
  induction pat as [|a pat IH]; [reflexivity|].
  rewrite append_cons. simpl. rewrite Ascii.eqb_refl. exact IH.
Qed.

Lemma slice_from_app_length p s : slice_from (String.length p) (p ++ s) = s.
Proof.
  induction p as [|a p IH]; [destruct s; reflexivity|].
  rewrite append_cons. simpl. exact IH.
Qed.

Lemma slice_to_app_length p s : slice_to (String.length p) (p ++ s) = p.
Proof.
  induction p as [|a p IH]; [destruct s; reflexivity|].
  rewrite append_cons. simpl. now rewrite IH.
Qed.

Lemma slice_to_all s : slice_to (String.length s) s = s.
Proof. induction s as [|a s IH]; simpl; [reflexivity | now rewrite IH]. Qed.

Lemma app_assoc_string (a b c : string) : (a ++ b) ++ c = a ++ b ++ c.
Proof.
  induction a as [|x a IH]; [reflexivity|].
  rewrite !append_cons. now rewrite IH.
Qed.

Lemma app_length_string (a b : string) :
  String.length (a ++ b) = (String.length a + String.length b)%nat.
Proof.
  induction a as [|x a IH]; [reflexivity|].
  rewrite append_cons. simpl. now rewrite IH.
Qed.

(** [replace] leaves a string without the pattern alone. *)
Lemma replace_absent pat rep s : indexOf pat s = -1 -> replace pat rep s = s.
Proof.
  induction s as [|c s IH]; intros H.
  - simpl in *. destruct (startsWith pat ""); [discriminate | reflexivity].
  - destruct (indexOf_cons_absent _ _ _ H) as [Hs Hi].
    simpl. simpl in Hs. rewrite Hs. now rewrite IH.
Qed.

(** [replace] rewrites the occurrence that [indexOf] finds. *)
Lemma replace_first pat rep pre suf :
  indexOf pat (pre ++ pat ++ suf) = Z.of_nat (String.length pre) ->
  replace pat rep (pre ++ pat ++ suf) = pre ++ rep ++ suf.
Proof.
  induction pre as [|c pre IH]; intros H.
  - rewrite !append_empty.
    assert (Hr : replace pat rep (pat ++ suf)
                 = rep ++ slice_from (String.length pat) (pat ++ suf)).
    { pose proof (startsWith_app pat suf) as Hs.
      destruct (pat ++ suf); simpl; simpl in Hs; now rewrite Hs. }
    rewrite Hr. now rewrite slice_from_app_length.
  - rewrite append_cons in *.
    change (String.length (String c pre)) with (S (String.length pre)) in H.
    destruct (indexOf_cons_pos _ _ _ _ H) as [Hs Hi].
    simpl. simpl in Hs. rewrite Hs. now rewrite (IH Hi).
Qed.

(** In [k ++ c ++ v] with no [c] in [k], the first [c] is the one after
    [k]. *)
Lemma indexOf_first_char c k v :
  indexOf (String c "") k = -1 ->
  indexOf (String c "") (k ++ String c v) = Z.of_nat (String.length k).
Proof.
  induction k as [|b k IH]; intros H.
  - rewrite append_empty. simpl. rewrite Ascii.eqb_refl. reflexivity.
  - destruct (indexOf_cons_absent _ _ _ H) as [Hs Hi].
    specialize (IH Hi).
    rewrite append_cons.
    simpl in Hs. simpl. rewrite Hs. rewrite IH.
    destruct (Z.of_nat (String.length k) <? 0) eqn:E;
      [apply Z.ltb_lt in E; lia | lia].
Qed.

End StringFacts.

(** ** Connection strings *)

Section ConnectionStrings.

Lemma startsWith_char c b s :
  startsWith (String c "") (String b s) = Ascii.eqb c b.
Proof. cbn [startsWith]. now destruct (Ascii.eqb c b). Qed.

Lemma split_line l rest :
  indexOf LF l = -1 ->
  split "010"%char (l ++ LF ++ rest) = l :: split "010"%char rest.
Proof.
  induction l as [|b l IH]; intros H.
  - reflexivity.
  - destruct (indexOf_cons_absent _ _ _ H) as [Hs Hi].
    unfold LF in Hs. rewrite startsWith_char, Ascii.eqb_sym in Hs.
    rewrite append_cons. cbn [split]. rewrite Hs.
    now rewrite (IH Hi).
Qed.

Lemma split_last l : indexOf LF l = -1 -> split "010"%char l = [l].
Proof.
  induction l as [|b l IH]; intros H; [reflexivity|].
  destruct (indexOf_cons_absent _ _ _ H) as [Hs Hi].
  unfold LF in Hs. rewrite startsWith_char, Ascii.eqb_sym in Hs.
  cbn [split]. rewrite Hs.
  now rewrite (IH Hi).
Qed.

Lemma split_unlines lines last :
  Forall (fun line => indexOf LF line = -1) lines ->
  indexOf LF last = -1 ->
  split "010"%char (unlines lines ++ last) = (lines ++ [last])%list.
Proof.
  intros Hl Hlast. induction Hl as [|l ls Hl _ IH]; simpl.
  - rewrite append_empty. now apply split_last.
  - rewrite !app_assoc_string. rewrite (split_line _ _ Hl). now rewrite IH.
Qed.

(** The index loop visits the first [n] fields in order. *)
Lemma loop_prefix n : forall (pre fields : list string) result,
  (n <= List.length fields)%nat ->
  foldl (convertToSettings_body (pre ++ fields)) result (seq (List.length pre) n)
  = foldl assign_field result (take n fields).
Proof.
  induction n as [|n IH]; intros pre fields result Hn; [reflexivity|].
  destruct fields as [|f fs]; [simpl in Hn; lia|].
  simpl. unfold convertToSettings_body at 2.
  rewrite list_lookup_middle by reflexivity.
  replace (pre ++ f :: fs)%list with ((pre ++ [f]) ++ fs)%list
    by now rewrite <- app_assoc.
  replace (S (List.length pre)) with (List.length (pre ++ [f])%list)
    by (rewrite length_app; simpl; lia).
  apply IH. simpl in Hn. lia.
Qed.

Lemma convertToSettings_unlines lines last :
  Forall (fun line => indexOf LF line = -1) lines ->
  indexOf LF last = -1 ->
  convertToSettings (unlines lines ++ last) = foldl assign_field ∅ lines.
Proof.
  intros Hl Hlast. unfold convertToSettings.
  rewrite (split_unlines _ _ Hl Hlast).
  replace (List.length (lines ++ [last])%list - 1)%nat with (List.length lines)
    by (rewrite length_app; simpl; lia).
  rewrite (loop_prefix (List.length lines) [] (lines ++ [last])%list)
    by (rewrite length_app; lia).
  now rewrite take_app_length.
Qed.

Lemma field_key_first_eq k v :
  indexOf "=" k = -1 -> field_key (k ++ "=" ++ v) = k.
Proof.
  intros H. unfold field_key.
  change ("=" ++ v) with (String "="%char v).
  rewrite (indexOf_first_char _ _ v H).
  unfold substr. rewrite app_length_string. simpl String.length.
  change (0 <? 0) with false. cbv iota.
  replace (Z.to_nat _) with (String.length k) by lia.
  replace (Z.to_nat _) with 0%nat by lia.
  change (slice_from 0 (k ++ String "=" v)) with (k ++ String "="%char v).
  apply slice_to_app_length.
Qed.

Lemma field_value_first_eq k v :
  indexOf "=" k = -1 -> field_value (k ++ "=" ++ v) = v.
Proof.
  intros H. unfold field_value.
  change ("=" ++ v) with (String "="%char v).
  rewrite (indexOf_first_char _ _ v H).
  unfold substr. rewrite app_length_string. simpl String.length.
  destruct (Z.of_nat (String.length k) + 1 <? 0) eqn:E;
    [apply Z.ltb_lt in E; lia|].
  replace (Z.to_nat (Z.min _ _ - _)) with (String.length v) by lia.
  replace (Z.to_nat _) with (String.length (k ++ "=")).
  2:{ rewrite app_length_string. simpl. lia. }
  change (String "="%char v) with ("=" ++ v).
  rewrite <- app_assoc_string. rewrite slice_from_app_length.
  apply slice_to_all.
Qed.

Lemma indexOf_char_cons c b s :
  Ascii.eqb c b = false ->
  indexOf (String c "") s = -1 ->
  indexOf (String c "") (String b s) = -1.
Proof.
  intros Hcb Hs. cbn [indexOf]. rewrite startsWith_char, Hcb, Hs. reflexivity.
Qed.

(** Every string is a run of terminated lines followed by a last segment
    without a line feed. *)
Lemma every_string_is_lines s :
  exists lines last,
    s = unlines lines ++ last
    /\ Forall (fun line => indexOf LF line = -1) lines
    /\ indexOf LF last = -1.
Proof.
  induction s as [|c s (lines & last & -> & Hlines & Hlast)].
  - exists [], "". repeat split. constructor.
  - destruct (Ascii.eqb "010" c) eqn:E.
    + apply Ascii.eqb_eq in E. subst c.
      exists ("" :: lines), last. repeat split; [|exact Hlast].
      constructor; [reflexivity | exact Hlines].
    + destruct Hlines as [|l ls Hl Hls].
      * exists [], (String c last). repeat split; [constructor|].
        now apply indexOf_char_cons.
      * exists (String c l :: ls), last. repeat split; [|exact Hlast].
        constructor; [now apply indexOf_char_cons | exact Hls].
Qed.

End ConnectionStrings.

(** C2, counterexample.  On ["A=1\nB=2"], which has no trailing line
    feed, the loop stops before the last segment: the well-formed line
    ["B=2"] yields no entry. *)
Lemma convertToSettings_unterminated_line_lost :
  convertToSettings ("A=1" ++ LF ++ "B=2") = {[ "A" := "1" ]}
  /\ convertToSettings ("A=1" ++ LF ++ "B=2") !! "B" = None.
Proof. split; vm_compute; reflexivity. Qed.

(** C2, as amended.  [convertToSettings] maps ["A=1\nB=2\n"] to
    [{A: "1", B: "2"}] and ["A=x=y\n"] to [{A: "x=y"}].  For every input,
    written as lines that each end in a line feed followed by a last
    segment without one, the result is the assignments of the terminated
    lines in order, and the last segment is discarded whether it is empty
    or not; every string can be written that way.  A line [k=v] with no
    ["="] in [k] has key [k] and value [v]. *)
Theorem convertToSettings_terminated_lines
  (lines : list string) (last k v : string) :
  Forall (fun line => indexOf LF line = -1) lines ->
  indexOf LF last = -1 ->
  indexOf "=" k = -1 ->
  convertToSettings ("A=1" ++ LF ++ "B=2" ++ LF) = {[ "A" := "1"; "B" := "2" ]}
  /\ convertToSettings ("A=x=y" ++ LF) = {[ "A" := "x=y" ]}
  /\ convertToSettings (unlines lines ++ last) = foldl assign_field ∅ lines
  /\ field_key (k ++ "=" ++ v) = k
  /\ field_value (k ++ "=" ++ v) = v
  /\ (forall s, exists lines' last',
         s = unlines lines' ++ last'
         /\ Forall (fun line => indexOf LF line = -1) lines'
         /\ indexOf LF last' = -1).
Proof.
  intros Hlines Hlast Hk.
  split; [vm_compute; reflexivity|].
  split; [vm_compute; reflexivity|].
  split; [now apply convertToSettings_unlines|].
  split; [now apply field_key_first_eq|].
  split; [now apply field_value_first_eq | apply every_string_is_lines].
Qed.

Lemma convertToSettings_terminated_lines_witness :
  convertToSettings (unlines ["A=1"; "B=2"] ++ "C=3")
  = foldl assign_field ∅ ["A=1"; "B=2"]
  /\ field_key ("A" ++ "=" ++ "x=y") = "A"
  /\ field_value ("A" ++ "=" ++ "x=y") = "x=y".
Proof.
  destruct (convertToSettings_terminated_lines ["A=1"; "B=2"] "C=3" "A" "x=y")
    as (_ & _ & H3 & H4 & H5 & _).
  - repeat constructor.
  - reflexivity.
  - reflexivity.
  - exact (conj H3 (conj H4 H5)).
Defined.

(** ** Identifier normalisation *)

Lemma append_empty_r (s : string) : s ++ "" = s.
Proof. induction s as [|c s IH]; [reflexivity|]. rewrite append_cons. now rewrite IH. Qed.

(** C9, the code at the failing input.  The deployment id of the site
    [myapp] in a resource group named [web-AppService]: the first
    ["-AppService"] of the id is inside the group's name, so that one is
    removed and the suffix stays; the result names another resource group
    and is not the id of the site.  Likewise, with two deployment segments
    only the first is rewritten. *)
Lemma convertId_suffix_kept :
  convertId "AppService"
    "/subscriptions/0/resourceGroups/web-AppService/providers/Microsoft.Resources/deployments/myapp-AppService"
  = "/subscriptions/0/resourceGroups/web/providers/Microsoft.Web/sites/myapp-AppService"
  /\ convertId "AppService"
       "/subscriptions/0/resourceGroups/web-AppService/providers/Microsoft.Resources/deployments/myapp-AppService"
     <> "/subscriptions/0/resourceGroups/web-AppService/providers/Microsoft.Web/sites/myapp"
  /\ convertId "AppService"
       "/Microsoft.Resources/deployments/a/Microsoft.Resources/deployments/myapp-AppService"
     = "/Microsoft.Web/sites/a/Microsoft.Resources/deployments/myapp"
  /\ includes "/Microsoft.Web/sites/myapp"
       (convertId "AppService"
          "/Microsoft.Resources/deployments/a/Microsoft.Resources/deployments/myapp-AppService")
     = false.
Proof.
  split; [vm_compute; reflexivity|].
  split; [vm_compute; discriminate|].
  split; vm_compute; reflexivity.
Qed.

(** Where the conversion is right: for an id
    [pre/Microsoft.Resources/deployments/name-T] in which the first
    deployment segment is the one after [pre] and the first ["-T"] of the
    rewritten id is its suffix, the result is
    [pre/Microsoft.Web/sites/name]. *)
Theorem convertId_first_occurrences (T pre name : string) :
  indexOf MS_RESOURCE_DEPLOYMENT
          (pre ++ MS_RESOURCE_DEPLOYMENT ++ "/" ++ name ++ "-" ++ T)
  = Z.of_nat (String.length pre) ->
  indexOf ("-" ++ T) (pre ++ MS_WEB_SITE ++ "/" ++ name ++ "-" ++ T)
  = Z.of_nat (String.length (pre ++ MS_WEB_SITE ++ "/" ++ name)) ->
  convertId T (pre ++ MS_RESOURCE_DEPLOYMENT ++ "/" ++ name ++ "-" ++ T)
  = pre ++ MS_WEB_SITE ++ "/" ++ name.
Proof.
  intros H1 H2. unfold convertId.
  rewrite (replace_first _ MS_WEB_SITE pre _ H1).
  assert (E : pre ++ MS_WEB_SITE ++ "/" ++ name ++ "-" ++ T
              = (pre ++ MS_WEB_SITE ++ "/" ++ name) ++ ("-" ++ T) ++ "").
  { rewrite append_empty_r. now rewrite !app_assoc_string. }
  rewrite E in H2 |- *.
  rewrite (replace_first _ "" _ "" H2).
  now rewrite !append_empty_r.
Qed.

Lemma convertId_first_occurrences_witness :
  convertId "AppService"
    ("/subscriptions/0/resourceGroups/rg/providers/"
       ++ MS_RESOURCE_DEPLOYMENT ++ "/" ++ "myapp" ++ "-" ++ "AppService")
  = "/subscriptions/0/resourceGroups/rg/providers/"
      ++ MS_WEB_SITE ++ "/" ++ "myapp".
Proof.
  apply (convertId_first_occurrences "AppService"
           "/subscriptions/0/resourceGroups/rg/providers/" "myapp");
    vm_compute; reflexivity.
Defined.

(** ** The subscription caches *)

Lemma find_label_Some l items s :
  find_label l items = Some s -> label s = l /\ s ∈ items.
Proof.
  unfold find_label. intros H. apply find_some in H as [Hin Heq].
  apply String.eqb_eq in Heq. split; [exact Heq | now apply list_elem_of_In].
Qed.

Lemma cache_miss_false cache l :
  cache_miss cache l = false <-> exists c, cache = Some c /\ label c = l.
Proof.
  destruct cache as [c|]; simpl; split.
  - intros H. exists c. split; [reflexivity|].
    apply negb_false_iff, String.eqb_eq in H. now symmetry.
  - intros (c' & [= <-] & <-). now rewrite String.eqb_refl.
  - discriminate.
  - intros (c' & [=] & _).
Qed.

(** The three update functions are one function of the slot. *)
Lemma updateCache_unfold K kind l st :
  updateCache K kind l st =
  if cache_miss (cache_of kind st) l then
    match find_label l (subscriptionItemList st) with
    | Some s => (Resolved tt, set_cache kind s st)
    | None =>
        (Rejected (SubscriptionError (ERRORS_SUBSCRIPTION_NOT_FOUND K)), st)
    end
  else (Resolved tt, st).
Proof.
  destruct kind; simpl;
    [ unfold updateAppServiceSubscriptionItemCache
    | unfold updateCosmosDBSubscriptionItemCache
    | unfold updateFunctionSubscriptionItemCache ];
    unfold_monad;
    match goal with |- context [cache_miss ?c l] => destruct (cache_miss c l) end;
    try reflexivity;
    destruct (find_label l (subscriptionItemList st)); reflexivity.
Qed.

Lemma kind_eqb_eq a b : kind_eqb a b = true <-> a = b.
Proof. destruct a, b; simpl; split; congruence. Qed.

Lemma cache_of_set_cache kind kind' s st :
  cache_of kind' (set_cache kind s st)
  = if kind_eqb kind' kind then Some s else cache_of kind' st.
Proof. destruct kind, kind'; reflexivity. Qed.

Lemma list_set_cache kind s st :
  subscriptionItemList (set_cache kind s st) = subscriptionItemList st.
Proof. destruct kind; reflexivity. Qed.

Lemma trace_set_cache kind s st : trace (set_cache kind s st) = trace st.
Proof. destruct kind; reflexivity. Qed.

(** What one update does to the state: the list and the trace stay, the
    other slots stay, and the slot itself either stays or takes the list's
    item for the label. *)
Lemma updateCache_effect K kind l st :
  let '(o, st') := updateCache K kind l st in
  subscriptionItemList st' = subscriptionItemList st
  /\ trace st' = trace st
  /\ (forall kind', kind' <> kind -> cache_of kind' st' = cache_of kind' st)
  /\ (resolved o = true ->
      exists c, cache_of kind st' = Some c /\ label c = l
                /\ (cache_of kind st = Some c
                    \/ find_label l (subscriptionItemList st) = Some c))
  /\ (resolved o = false -> st' = st).
Proof.
  rewrite updateCache_unfold.
  destruct (cache_miss (cache_of kind st) l) eqn:Hm.
  - destruct (find_label l (subscriptionItemList st)) as [s|] eqn:Hf.
    + rewrite list_set_cache, trace_set_cache.
      repeat split; try discriminate.
      * intros kind' Hne. rewrite cache_of_set_cache.
        destruct (kind_eqb kind' kind) eqn:E; [|reflexivity].
        now apply kind_eqb_eq in E.
      * intros _. exists s. rewrite cache_of_set_cache.
        replace (kind_eqb kind kind) with true by now destruct kind.
        destruct (find_label_Some _ _ _ Hf). auto.
    + repeat split; discriminate.
  - apply cache_miss_false in Hm as (c & Hc & Hl).
    repeat split; try discriminate. intros _. exists c. auto.
Qed.

Lemma updateCache_coherent K kind l st :
  coherent st -> coherent (snd (updateCache K kind l st)).
Proof.
  intros Hco. pose proof (updateCache_effect K kind l st) as H.
  destruct (updateCache K kind l st) as [o st']. simpl.
  destruct H as (Hlist & _ & Hother & Hres & Hrej).
  destruct o as [[]|e]; [|now rewrite (Hrej eq_refl)].
  destruct (Hres eq_refl) as (c & Hc & Hl & Hfrom).
  intros kind' c' Hc'. rewrite Hlist.
  destruct (decide (kind' = kind)) as [->|Hne].
  - rewrite Hc in Hc'. injection Hc' as <-.
    destruct Hfrom as [Hold|Hf]; [now apply (Hco kind)|now rewrite Hl].
  - rewrite (Hother _ Hne) in Hc'. now apply (Hco kind').
Qed.

Lemma run_updates_coherent K calls : forall st,
  coherent st -> coherent (run_updates K calls st).
Proof.
  induction calls as [|[kind l] rest IH]; intros st Hco; [exact Hco|].
  simpl. apply IH. now apply updateCache_coherent.
Qed.

Lemma run_updates_list K calls : forall st,
  subscriptionItemList (run_updates K calls st) = subscriptionItemList st.
Proof.
  induction calls as [|[kind l] rest IH]; intros st; [reflexivity|].
  simpl. rewrite IH.
  pose proof (updateCache_effect K kind l st) as H.
  destruct (updateCache K kind l st). simpl. tauto.
Qed.

(** The invariant carried along a sequence of updates: the accumulator,
    once set, is the label of the item in the slot. *)
Lemma last_resolved_label K kind calls : forall st acc,
  (forall l, acc = Some l ->
             exists c, cache_of kind st = Some c /\ label c = l
                       /\ (coherent st ->
                           find_label l (subscriptionItemList st) = Some c)) ->
  match last_resolved K kind calls st acc with
  | Some l =>
      exists c, cache_of kind (run_updates K calls st) = Some c /\ label c = l
                /\ (coherent st ->
                    find_label l (subscriptionItemList st) = Some c)
  | None => cache_of kind (run_updates K calls st) = cache_of kind st
  end.
Proof.
  induction calls as [|[kind' l'] rest IH]; intros st acc Hacc.
  - simpl. destruct acc as [l|]; [now apply Hacc | reflexivity].
  - simpl.
    pose proof (updateCache_effect K kind' l' st) as H.
    pose proof (updateCache_coherent K kind' l' st) as Hco'.
    destruct (updateCache K kind' l' st) as [o st']. simpl in *.
    destruct H as (Hlist & _ & Hother & Hres & Hrej).
    set (acc' := if kind_eqb kind kind' && resolved o then Some l' else acc).
    assert (Hacc' : forall l, acc' = Some l ->
              exists c, cache_of kind st' = Some c /\ label c = l
                        /\ (coherent st' ->
                            find_label l (subscriptionItemList st') = Some c)).
    { intros l Hl. subst acc'.
      destruct (kind_eqb kind kind') eqn:Ek; simpl in Hl.
      - apply kind_eqb_eq in Ek. subst kind'.
        destruct (resolved o) eqn:Er.
        + injection Hl as <-. destruct (Hres eq_refl) as (c & Hc & Hlab & _).
          exists c. repeat split; auto. intros Hc'. rewrite <- Hlab.
          now apply (Hc' kind).
        + rewrite (Hrej eq_refl). destruct (Hacc _ Hl) as (c & ? & ? & ?).
          exists c. auto.
      - assert (kind <> kind') as Hne.
        { intros ->. now destruct kind'. }
        rewrite (Hother _ Hne). destruct (Hacc _ Hl) as (c & Hc & Hlab & _).
        exists c. repeat split; auto. intros Hc'. rewrite <- Hlab.
        apply (Hc' kind). now rewrite (Hother _ Hne). }
    specialize (IH st' acc' Hacc').
    destruct (last_resolved K kind rest st' acc') as [l|] eqn:El.
    + destruct IH as (c & Hc & Hlab & Hf). exists c. repeat split; auto.
      intros Hco. rewrite <- Hlist. apply Hf. now apply Hco'.
    + rewrite IH. subst acc'.
      assert (Hnone : forall a, last_resolved K kind rest st' (Some a) <> None).
      { clear. intros a. revert st' a.
        induction rest as [|[k l] rest IHr]; intros st' a; simpl; [discriminate|].
        destruct (updateCache K k l st') as [o' st''].
        destruct (kind_eqb kind k && resolved o'); apply IHr. }
      destruct (kind_eqb kind kind') eqn:Ek; simpl in El.
      * destruct (resolved o) eqn:Er; [now apply Hnone in El|].
        now rewrite (Hrej eq_refl).
      * apply Hother. intros ->. now destruct kind'.
Qed.

(** C3, counterexample.  After a status query that lists A, a name
    validation that caches it and a second status query that lists only B,
    the label A is absent from the list; an update of the App Service slot
    with the label A resolves all the same and leaves the slot. *)
Lemma stale_label_update_resolves :
  let st :=
    run_commands Sample.K0
      [(ExtensionCommand.GetUserStatus,
        Sample.oracle [Sample.subA] None [], Sample.msg "A");
       (ExtensionCommand.NameAppService,
        Sample.oracle [Sample.subA] None [], Sample.msg "A");
       (ExtensionCommand.GetUserStatus,
        Sample.oracle [Sample.subB] None [], Sample.msg "A")]
      initial in
  find_label "A" (subscriptionItemList st) = None
  /\ updateAppServiceSubscriptionItemCache Sample.K0 "A" st = (Resolved tt, st)
  /\ usersAppServiceSubscriptionItemCache st = Some Sample.subA.
Proof. cbv zeta. repeat split; vm_compute; reflexivity. Qed.

(** C3, as amended.  One cache update, by cases, in this order.  First the
    slot is compared with the label: a slot that carries the requested
    label is left as it is and the call resolves, without a look at the
    list.  Only otherwise is the list searched: the slot takes the item the
    list has for the label, and with no such item the call throws
    [SubscriptionError] and nothing changes.  So the call throws exactly
    when the slot does not carry the label and the list lacks it.  No
    update touches another slot or the list.  After any sequence of updates
    the slot of a kind holds an item with the label of the latest call for
    that kind that resolved (the list's own item for it, when the caches
    started out as list items), and is what it was at the start when no
    such call resolved.  In the states such a sequence reaches from caches
    that are list items, a label absent from the list always throws. *)
Theorem cache_update_sequences
  (K : Constants) (kind : AzureResourceType) (l : string) (st : State)
  (calls : list (AzureResourceType * string)) :
  (forall c, cache_of kind st = Some c -> label c = l ->
             updateCache K kind l st = (Resolved tt, st))
  /\ (cache_miss (cache_of kind st) l = true ->
      forall s, find_label l (subscriptionItemList st) = Some s ->
                updateCache K kind l st = (Resolved tt, set_cache kind s st))
  /\ (cache_miss (cache_of kind st) l = true ->
      find_label l (subscriptionItemList st) = None ->
      updateCache K kind l st
      = (Rejected (SubscriptionError (ERRORS_SUBSCRIPTION_NOT_FOUND K)), st))
  /\ (forall kind', kind' <> kind ->
        cache_of kind' (snd (updateCache K kind l st)) = cache_of kind' st)
  /\ subscriptionItemList (snd (updateCache K kind l st)) = subscriptionItemList st
  /\ match last_resolved K kind calls st None with
     | Some l' =>
         exists c, cache_of kind (run_updates K calls st) = Some c
                   /\ label c = l'
                   /\ (coherent st ->
                       find_label l' (subscriptionItemList st) = Some c)
     | None => cache_of kind (run_updates K calls st) = cache_of kind st
     end
  /\ (coherent st ->
      find_label l (subscriptionItemList st) = None ->
      updateCache K kind l (run_updates K calls st)
      = (Rejected (SubscriptionError (ERRORS_SUBSCRIPTION_NOT_FOUND K)),
         run_updates K calls st))
  /\ (resolved (fst (updateCache K kind l st)) = false
      <-> cache_miss (cache_of kind st) l = true
          /\ find_label l (subscriptionItemList st) = None).
Proof.
  assert (Hthrows : resolved (fst (updateCache K kind l st)) = false
                    <-> cache_miss (cache_of kind st) l = true
                        /\ find_label l (subscriptionItemList st) = None).
  { rewrite updateCache_unfold.
    destruct (cache_miss (cache_of kind st) l);
      [destruct (find_label l (subscriptionItemList st))|]; simpl;
      split; intros H; try discriminate; try tauto;
      destruct H; discriminate. }
  split; [|split; [|split; [|split; [|split; [|split; [|split; [|exact Hthrows]]]]]]].
  - intros c Hc Hl.
    assert (Hm : cache_miss (cache_of kind st) l = false)
      by (apply cache_miss_false; eauto).
    rewrite updateCache_unfold. now rewrite Hm.
  - intros Hm s Hf. rewrite updateCache_unfold. now rewrite Hm, Hf.
  - intros Hm Hf. rewrite updateCache_unfold. now rewrite Hm, Hf.
  - intros kind' Hne. pose proof (updateCache_effect K kind l st) as Heff.
    destruct (updateCache K kind l st) as [o st']. simpl.
    destruct Heff as (_ & _ & Hother & _). now apply Hother.
  - pose proof (updateCache_effect K kind l st) as Heff.
    destruct (updateCache K kind l st) as [o st']. simpl. tauto.
  - apply last_resolved_label. discriminate.
  - intros Hco Hf.
    pose proof (run_updates_coherent K calls st Hco) as Hco'.
    rewrite updateCache_unfold, run_updates_list, Hf.
    destruct (cache_miss (cache_of kind (run_updates K calls st)) l) eqn:Hm;
      [reflexivity|].
    apply cache_miss_false in Hm as (c & Hc & Hl).
    apply Hco' in Hc. rewrite run_updates_list, Hl, Hf in Hc. discriminate.
Qed.

Lemma cache_update_sequences_witness :
  updateCache Sample.K0 AppService "A"
              (set_cache AppService Sample.subA (Sample.session [Sample.subB]))
  = (Resolved tt, set_cache AppService Sample.subA (Sample.session [Sample.subB]))
  /\ updateCache Sample.K0 AppService "B" (Sample.session [Sample.subA; Sample.subB])
     = (Resolved tt,
        set_cache AppService Sample.subB (Sample.session [Sample.subA; Sample.subB]))
  /\ updateCache Sample.K0 AppService "Z" (Sample.session [Sample.subA; Sample.subB])
     = (Rejected (SubscriptionError "subscription not found"),
        Sample.session [Sample.subA; Sample.subB])
  /\ updateCache Sample.K0 Cosmos "Z"
       (run_updates Sample.K0 [(AppService, "A"); (Cosmos, "B"); (AppService, "Z")]
          (Sample.session [Sample.subA; Sample.subB]))
     = (Rejected (SubscriptionError "subscription not found"),
        run_updates Sample.K0 [(AppService, "A"); (Cosmos, "B"); (AppService, "Z")]
          (Sample.session [Sample.subA; Sample.subB]))
  /\ resolved (fst (updateCache Sample.K0 Functions "Z"
                      (Sample.session [Sample.subA; Sample.subB]))) = false.
Proof.
  split; [|split; [|split; [|split]]].
  - destruct (cache_update_sequences Sample.K0 AppService "A"
                (set_cache AppService Sample.subA (Sample.session [Sample.subB])) [])
      as (Hhit & _).
    apply (Hhit Sample.subA); reflexivity.
  - destruct (cache_update_sequences Sample.K0 AppService "B"
                (Sample.session [Sample.subA; Sample.subB]) [])
      as (_ & Hfound & _).
    apply Hfound; reflexivity.
  - destruct (cache_update_sequences Sample.K0 AppService "Z"
                (Sample.session [Sample.subA; Sample.subB]) [])
      as (_ & _ & Habsent & _).
    apply Habsent; reflexivity.
  - destruct (cache_update_sequences Sample.K0 Cosmos "Z"
                (Sample.session [Sample.subA; Sample.subB])
                [(AppService, "A"); (Cosmos, "B"); (AppService, "Z")])
      as (_ & _ & _ & _ & _ & _ & Hreach & _).
    apply Hreach.
    + intros kind c Hc. destruct kind; discriminate.
    + reflexivity.
  - destruct (cache_update_sequences Sample.K0 Functions "Z"
                (Sample.session [Sample.subA; Sample.subB]) [])
      as (_ & _ & _ & _ & _ & _ & _ & Hthrows).
    apply Hthrows. split; reflexivity.
Defined.

(** ** The command handlers *)

Lemma cache_of_log kind c st : cache_of kind (log c st) = cache_of kind st.
Proof. destruct kind; reflexivity. Qed.

Lemma cache_of_set_list kind v st :
  cache_of kind (set_subscriptionItemList v st) = cache_of kind st.
Proof. destruct kind; reflexivity. Qed.

(** The three name-validation handlers are one handler of the kind. *)
Lemma nameHandler_unfold K kind w msg st :
  clientCommandMap K (nameCommand kind) w msg st =
  match updateCache K kind (Message.subscription msg) st with
  | (Rejected e, st1) => (Rejected e, st1)
  | (Resolved _, st1) =>
      match cache_of kind st1 with
      | None => (Rejected TypeError, st1)
      | Some c =>
          let st2 := log (nameCheckCall kind (Message.appName msg) c) st1 in
          match nameCheck w kind (Message.appName msg) c with
          | Rejected e => (Rejected e, st2)
          | Resolved r =>
              (Resolved {| payload :=
                  nameValidationPayload kind (Message.payload_scope msg) r |},
               st2)
          end
      end
  end.
Proof.
  destruct kind; simpl;
    [ unfold sendAppServiceNameValidationStatusToClient
    | unfold sendCosmosNameValidationStatusToClient
    | unfold sendFunctionNameValidationStatusToClient ];
    unfold bind at 1;
    match goal with
    | |- context [match ?u with (_, _) => _ end] =>
        destruct u as [[[]|e] st1]
    end;
    try reflexivity; unfold_monad;
    match goal with
    | |- context [match ?c with Some _ => _ | None => _ end] => destruct c
    end;
    reflexivity.
Qed.

(** After a resolved update the slot is defined, so [cached] never takes
    its other branch. *)
Lemma update_resolved_defined K kind l st u st1 :
  updateCache K kind l st = (Resolved u, st1) ->
  exists c, cache_of kind st1 = Some c /\ label c = l.
Proof.
  intros H. pose proof (updateCache_effect K kind l st) as Heff.
  rewrite H in Heff. destruct Heff as (_ & _ & _ & Hres & _).
  destruct (Hres eq_refl) as (c & Hc & Hl & _). eauto.
Qed.

(** What a handler does to the caches and the list: a refresh leaves the
    caches; every other command leaves the list, and an item it caches was
    cached before or is in the list. *)
Lemma handler_frame K command w msg st :
  let st' := snd (clientCommandMap K command w msg st) in
  (is_refresh command = true ->
   forall kind, cache_of kind st' = cache_of kind st)
  /\ (is_refresh command = false ->
      subscriptionItemList st' = subscriptionItemList st
      /\ forall kind c, cache_of kind st' = Some c ->
           cache_of kind st = Some c \/ c ∈ subscriptionItemList st).
Proof.
  assert (Hname : forall kind,
    let st' := snd (clientCommandMap K (nameCommand kind) w msg st) in
    subscriptionItemList st' = subscriptionItemList st
    /\ forall kind' c, cache_of kind' st' = Some c ->
         cache_of kind' st = Some c \/ c ∈ subscriptionItemList st).
  { intros kind. cbv zeta. rewrite nameHandler_unfold.
    pose proof (updateCache_effect K kind (Message.subscription msg) st) as Heff.
    destruct (updateCache K kind (Message.subscription msg) st) as [o st1].
    destruct Heff as (Hlist & _ & Hother & Hres & Hrej).
    assert (Hst1 : forall kind' c, cache_of kind' st1 = Some c ->
              cache_of kind' st = Some c \/ c ∈ subscriptionItemList st).
    { intros kind' c Hc. destruct o as [u|e]; [|rewrite (Hrej eq_refl) in Hc; auto].
      destruct (decide (kind' = kind)) as [->|Hne].
      - destruct (Hres eq_refl) as (c0 & Hc0 & _ & [Hold|Hf]).
        + left. congruence.
        + right. apply find_label_Some in Hf as [_ Hin]. congruence.
      - left. now rewrite <- (Hother _ Hne). }
    destruct o as [u|e]; [|simpl; auto].
    destruct (cache_of kind st1); [|simpl; auto].
    destruct (nameCheck w kind (Message.appName msg) s); simpl;
      (split; [exact Hlist | intros kind' c; rewrite cache_of_log; apply Hst1]). }
  destruct command; cbv zeta; (split; [intros Hr | intros Hr]);
    try discriminate Hr;
    try (apply (Hname AppService)); try (apply (Hname Cosmos));
    try (apply (Hname Functions)).
  - (* Login *)
    intros kind. simpl. unfold performLoginForSubscriptions, sendUserStatusIfLoggedIn.
    unfold_monad. destruct (AzureAuth_login w) as [[]|]; simpl;
      try (destruct kind; reflexivity).
    destruct (truthy (AzureAuth_getEmail w)); simpl;
      try (destruct kind; reflexivity).
    destruct (AzureAuth_getSubscriptions w); simpl; destruct kind; reflexivity.
  - (* GetUserStatus *)
    intros kind. simpl. unfold sendUserStatusIfLoggedIn. unfold_monad.
    destruct (truthy (AzureAuth_getEmail w)); simpl;
      try (destruct kind; reflexivity).
    destruct (AzureAuth_getSubscriptions w); simpl; destruct kind; reflexivity.
  - (* Logout *)
    simpl. unfold performLogout. unfold_monad.
    destruct (AzureAuth_logout w); simpl;
      (split; [reflexivity | intros kind c; rewrite cache_of_log; auto]).
  - (* GetSubscriptionDataForCosmos *)
    simpl. unfold sendCosmosSubscriptionDataToClient, getSubscriptionData.
    unfold_monad.
    destruct (find_label (Message.subscription msg) (subscriptionItemList st));
      simpl; [|auto].
    destruct (AzureAuth_getAllResourceGroupItems w s); simpl;
      [|split; [reflexivity | intros kind c; rewrite cache_of_log; auto]].
    destruct (AzureAuth_getLocationsForCosmos w s); simpl;
      [|split; [reflexivity | intros kind c; rewrite !cache_of_log; auto]].
    destruct (generateValidAzureTypeName w (Message.projectName msg) Cosmos); simpl;
      (split; [reflexivity | intros kind c; rewrite !cache_of_log; auto]).
  - (* GetSubscriptionDataForAppService *)
    simpl. unfold sendAppServiceSubscriptionDataToClient, getSubscriptionData.
    unfold_monad.
    destruct (find_label (Message.subscription msg) (subscriptionItemList st));
      simpl; [|auto].
    destruct (AzureAuth_getAllResourceGroupItems w s); simpl;
      [|split; [reflexivity | intros kind c; rewrite cache_of_log; auto]].
    destruct (AzureAuth_getLocationsForApp w s); simpl;
      (split; [reflexivity | intros kind c; rewrite !cache_of_log; auto]).
  - (* GetValidAppServiceName *)
    simpl. unfold GetValidAppServiceName. unfold_monad.
    destruct (generateValidAzureTypeName w (Message.projectName msg) AppService);
      simpl; (split; [reflexivity | intros kind c; rewrite cache_of_log; auto]).
  - (* GetValidCosmosName *)
    simpl. unfold GetValidCosmosName. unfold_monad.
    destruct (generateValidAzureTypeName w (Message.projectName msg) Cosmos);
      simpl; (split; [reflexivity | intros kind c; rewrite cache_of_log; auto]).
Qed.

(** ** The invariant between caches and list *)

Lemma handler_preserves_invariant K command w msg st :
  cache_invariant st ->
  (is_refresh command = true ->
   forall kind c, cache_of kind st = Some c ->
     c ∈ subscriptionItemList (snd (clientCommandMap K command w msg st))) ->
  cache_invariant (snd (clientCommandMap K command w msg st)).
Proof.
  intros Hinv Hkeep kind c Hc.
  destruct (handler_frame K command w msg st) as [Hrefresh Hother].
  destruct (is_refresh command) eqn:Er.
  - rewrite (Hrefresh eq_refl) in Hc. now apply (Hkeep eq_refl kind).
  - destruct (Hother eq_refl) as [Hlist Hfrom]. rewrite Hlist.
    destruct (Hfrom _ _ Hc) as [Hold|Hin]; [now apply (Hinv kind) | exact Hin].
Qed.

(** C4, counterexample.  A status query lists subscription A, a name
    validation caches it, and a second status query (another account, or
    the subscription is gone) lists only B: the App Service cache still
    holds A, which is not in the list. *)
Lemma stale_cache_after_refresh :
  let final :=
    run_commands Sample.K0
      [(ExtensionCommand.GetUserStatus,
        Sample.oracle [Sample.subA] None [], Sample.msg "A");
       (ExtensionCommand.NameAppService,
        Sample.oracle [Sample.subA] None [], Sample.msg "A");
       (ExtensionCommand.GetUserStatus,
        Sample.oracle [Sample.subB] None [], Sample.msg "A")]
      initial in
  usersAppServiceSubscriptionItemCache final = Some Sample.subA
  /\ subscriptionItemList final = [Sample.subB]
  /\ ~ cache_invariant final.
Proof.
  cbv zeta. split; [reflexivity|]. split; [reflexivity|].
  intros Hinv. specialize (Hinv AppService Sample.subA eq_refl).
  vm_compute in Hinv.
  apply list_elem_of_In in Hinv. destruct Hinv as [Heq|[]]. discriminate Heq.
Qed.

(** C4, as amended.  The initial state satisfies the invariant, and so does
    every state reached from a state that satisfies it by command-handler
    invocations in which each refresh of the list ([Login],
    [GetUserStatus]) leaves a list that still contains the items cached at
    that moment.  A refresh that completes (for [Login] the login resolves
    to [true]; the user has an e-mail; the subscriptions are fetched)
    replaces the list by the fetched one; every other run of a handler, a
    refresh that does not complete included, leaves the list as it is.  A
    refresh, complete or not, leaves the three cache entries as they
    are. *)
Theorem cache_invariant_between_refreshes
  (K : Constants) (invs : list Invocation) (st : State) :
  cache_invariant st ->
  refreshes_keep_cached K invs st ->
  cache_invariant initial
  /\ cache_invariant (run_commands K invs st)
  /\ (forall command w msg st0 kind,
        is_refresh command = true ->
        cache_of kind (snd (clientCommandMap K command w msg st0))
        = cache_of kind st0)
  /\ (forall command w msg st0,
        subscriptionItemList (snd (clientCommandMap K command w msg st0))
        = default (subscriptionItemList st0) (fetched_list command w)).
Proof.
  intros Hinv Hkeep. split; [|split; [|split]].
  - intros kind c Hc. destruct kind; discriminate.
  - revert st Hinv Hkeep.
    induction invs as [|[[command w] msg] rest IH]; intros st Hinv Hkeep;
      [exact Hinv|].
    simpl in *. destruct Hkeep as [Hhere Hrest].
    apply IH; [|exact Hrest].
    now apply handler_preserves_invariant.
  - intros command w msg st0 kind Hr.
    now apply (handler_frame K command w msg st0).
  - intros command w msg st0.
    destruct (is_refresh command) eqn:Hr.
    + destruct command; try discriminate Hr; simpl;
        unfold performLoginForSubscriptions, sendUserStatusIfLoggedIn;
        unfold_monad; unfold fetched_list.
      * destruct (AzureAuth_login w) as [[]|]; try reflexivity.
        destruct (truthy (AzureAuth_getEmail w)); [|reflexivity].
        destruct (AzureAuth_getSubscriptions w); reflexivity.
      * destruct (truthy (AzureAuth_getEmail w)); [|reflexivity].
        destruct (AzureAuth_getSubscriptions w); reflexivity.
    + destruct (handler_frame K command w msg st0) as [_ Hother].
      destruct (Hother Hr) as [Hlist _]. rewrite Hlist.
      destruct command; try discriminate Hr; reflexivity.
Qed.

Lemma cache_invariant_between_refreshes_witness :
  cache_invariant
    (run_commands Sample.K0
       [(ExtensionCommand.GetUserStatus,
         Sample.oracle [Sample.subA] None [], Sample.msg "A");
        (ExtensionCommand.NameAppService,
         Sample.oracle [Sample.subA] None [], Sample.msg "A");
        (ExtensionCommand.GetUserStatus,
         Sample.oracle [Sample.subB; Sample.subA] None [], Sample.msg "A")]
       initial)
  /\ subscriptionItemList
       (snd (clientCommandMap Sample.K0 ExtensionCommand.GetUserStatus
               (Sample.oracle [Sample.subB; Sample.subA] None [])
               (Sample.msg "A") (Sample.session [Sample.subA])))
     = [Sample.subB; Sample.subA].
Proof.
  destruct (cache_invariant_between_refreshes Sample.K0
              [(ExtensionCommand.GetUserStatus,
                Sample.oracle [Sample.subA] None [], Sample.msg "A");
               (ExtensionCommand.NameAppService,
                Sample.oracle [Sample.subA] None [], Sample.msg "A");
               (ExtensionCommand.GetUserStatus,
                Sample.oracle [Sample.subB; Sample.subA] None [], Sample.msg "A")]
              initial) as (_ & Hinv & _ & Hlist).
  - intros kind c Hc. destruct kind; discriminate.
  - simpl. repeat split; intros _ kind c Hc; destruct kind; try discriminate.
    injection Hc as <-. apply list_elem_of_In. simpl. tauto.
  - split; [exact Hinv|]. rewrite Hlist. reflexivity.
Defined.

(** ** The scope token *)

Lemma props_get_set props key v : props_get (props_set props key v) key = v.
Proof.
  induction props as [|[k v0] rest IH]; simpl.
  - now rewrite String.eqb_refl.
  - destruct (String.eqb k key) eqn:E; simpl; rewrite E; [reflexivity | exact IH].
Qed.

(** Every handler of the table but the Functions name validation puts the
    message's scope into a non-null payload. *)
Lemma other_commands_echo_scope K command w msg st resp st' :
  command <> ExtensionCommand.NameFunctions ->
  clientCommandMap K command w msg st = (Resolved resp, st') ->
  payload resp = JNull
  \/ js_get (payload resp) "scope" = Message.payload_scope msg.
Proof.
  intros Hne H.
  assert (Hname : forall kind, kind <> Functions ->
            clientCommandMap K (nameCommand kind) w msg st = (Resolved resp, st') ->
            js_get (payload resp) "scope" = Message.payload_scope msg).
  { intros kind Hk. rewrite nameHandler_unfold.
    destruct (updateCache K kind (Message.subscription msg) st) as [[u|e] st1];
      [|discriminate].
    destruct (cache_of kind st1); [|discriminate].
    destruct (nameCheck w kind (Message.appName msg) s); [|discriminate].
    intros [= <- _]. destruct kind; [reflexivity | reflexivity | contradiction]. }
  destruct command; simpl in H; try contradiction.
  - unfold performLoginForSubscriptions, sendUserStatusIfLoggedIn in H.
    unfold_monad. destruct (AzureAuth_login w) as [[]|]; try discriminate.
    destruct (truthy (AzureAuth_getEmail w)); [|injection H as <- _; now left].
    destruct (AzureAuth_getSubscriptions w); [|discriminate].
    injection H as <- _. now right.
  - unfold sendUserStatusIfLoggedIn in H. unfold_monad.
    destruct (truthy (AzureAuth_getEmail w)); [|injection H as <- _; now left].
    destruct (AzureAuth_getSubscriptions w); [|discriminate].
    injection H as <- _. now right.
  - unfold performLogout in H. unfold_monad.
    destruct (AzureAuth_logout w); [|discriminate].
    injection H as <- _. now right.
  - unfold sendCosmosSubscriptionDataToClient, getSubscriptionData in H.
    unfold_monad.
    destruct (find_label _ _); [|discriminate].
    destruct (AzureAuth_getAllResourceGroupItems w s); [|discriminate].
    destruct (AzureAuth_getLocationsForCosmos w s); [|discriminate].
    destruct (generateValidAzureTypeName w _ _); [|discriminate].
    injection H as <- _. right. first [reflexivity | apply props_get_set].
  - unfold sendAppServiceSubscriptionDataToClient, getSubscriptionData in H.
    unfold_monad.
    destruct (find_label _ _); [|discriminate].
    destruct (AzureAuth_getAllResourceGroupItems w s); [|discriminate].
    destruct (AzureAuth_getLocationsForApp w s); [|discriminate].
    injection H as <- _. right. first [reflexivity | apply props_get_set].
  - unfold GetValidAppServiceName in H. unfold_monad.
    destruct (generateValidAzureTypeName w _ _); [|discriminate].
    injection H as <- _. now right.
  - unfold GetValidCosmosName in H. unfold_monad.
    destruct (generateValidAzureTypeName w _ _); [|discriminate].
    injection H as <- _. now right.
  - right. now apply (Hname Cosmos).
  - right. now apply (Hname AppService).
Qed.

(** C5, the code at the failing command.  Whenever the Functions
    name-validation handler resolves, its payload is an object without a
    [scope] property: reading it gives [undefined], not the token of the
    message. *)
Theorem NameFunctions_payload_without_scope
  (K : Constants) (w : Oracle) (msg : Message.t) (st st' : State)
  (resp : IPayloadResponse) :
  clientCommandMap K ExtensionCommand.NameFunctions w msg st = (Resolved resp, st') ->
  Message.payload_scope msg <> JUndefined ->
  payload resp <> JNull
  /\ js_get (payload resp) "scope" = JUndefined
  /\ js_get (payload resp) "scope" <> Message.payload_scope msg.
Proof.
  intros H Hscope.
  change ExtensionCommand.NameFunctions with (nameCommand Functions) in H.
  rewrite nameHandler_unfold in H.
  destruct (updateCache K Functions (Message.subscription msg) st) as [[u|e] st1];
    [|discriminate].
  destruct (cache_of Functions st1); [|discriminate].
  destruct (nameCheck w Functions (Message.appName msg) s); [|discriminate].
  injection H as <- _. simpl. repeat split; [discriminate | congruence].
Qed.

Lemma NameFunctions_payload_without_scope_witness :
  exists resp st',
    clientCommandMap Sample.K0 ExtensionCommand.NameFunctions
      (Sample.oracle [Sample.subA] None []) (Sample.msg "A")
      (Sample.session [Sample.subA]) = (Resolved resp, st')
    /\ payload resp
       = JObject [("isAvailable", JBool true); ("reason", JUndefined)]
    /\ js_get (payload resp) "scope" <> JString "wizard-7".
Proof.
  eexists _, _. split; [reflexivity|]. split; [reflexivity|].
  eapply (NameFunctions_payload_without_scope Sample.K0
            (Sample.oracle [Sample.subA] None []) (Sample.msg "A")
            (Sample.session [Sample.subA])).
  - reflexivity.
  - discriminate.
Defined.

(** ** Name validation *)

Lemma isAvailable_of_spec r :
  isAvailable_of r = true <-> r = None \/ r = Some "".
Proof.
  destruct r as [s|]; unfold isAvailable_of; simpl; [|tauto].
  destruct (String.eqb s "") eqn:E; simpl.
  - apply String.eqb_eq in E. subst. tauto.
  - apply String.eqb_neq in E. split; [discriminate|].
    intros [H|H]; [discriminate | congruence].
Qed.

Lemma updateCache_rejection K kind l st e st1 :
  updateCache K kind l st = (Rejected e, st1) ->
  e = SubscriptionError (ERRORS_SUBSCRIPTION_NOT_FOUND K) /\ st1 = st.
Proof.
  rewrite updateCache_unfold.
  destruct (cache_miss _ _); [|discriminate].
  destruct (find_label _ _); [discriminate|]. now intros [= <- <-].
Qed.

(** C6.  A name-validation handler, for each of the three kinds, by cases
    on what its two steps do.  If the cache update rejects (always with
    [SubscriptionError]), the handler rejects with that error.  Otherwise
    the provider's check is called on the cached subscription: if the
    check rejects, the handler rejects with the same error; if it resolves
    to a reason [r], the handler resolves with a payload whose
    [isAvailable] is true exactly when [r] is [undefined] or [""] and
    whose [reason] is [r].  These are all the cases, so an unavailable name
    never makes the handler throw. *)
Theorem name_validation_outcomes
  (K : Constants) (kind : AzureResourceType) (w : Oracle) (msg : Message.t)
  (st : State) :
  match updateCache K kind (Message.subscription msg) st with
  | (Rejected e, st1) =>
      e = SubscriptionError (ERRORS_SUBSCRIPTION_NOT_FOUND K)
      /\ clientCommandMap K (nameCommand kind) w msg st = (Rejected e, st1)
  | (Resolved _, st1) =>
      exists c,
        cache_of kind st1 = Some c
        /\ label c = Message.subscription msg
        /\ let st2 := log (nameCheckCall kind (Message.appName msg) c) st1 in
           match nameCheck w kind (Message.appName msg) c with
           | Rejected e =>
               clientCommandMap K (nameCommand kind) w msg st = (Rejected e, st2)
           | Resolved r =>
               exists resp b,
                 clientCommandMap K (nameCommand kind) w msg st
                 = (Resolved resp, st2)
                 /\ js_get (payload resp) "isAvailable" = JBool b
                 /\ (b = true <-> r = None \/ r = Some "")
                 /\ js_get (payload resp) "reason" = js_of_reason r
           end
  end.
Proof.
  rewrite nameHandler_unfold.
  destruct (updateCache K kind (Message.subscription msg) st) as [[u|e] st1] eqn:Hu.
  - destruct (update_resolved_defined _ _ _ _ _ _ Hu) as (c & Hc & Hl).
    exists c. rewrite Hc. repeat split; [exact Hl|]. cbv zeta.
    destruct (nameCheck w kind (Message.appName msg) c) as [r|e]; [|reflexivity].
    eexists _, (isAvailable_of r). split; [reflexivity|].
    split; [now destruct kind|]. split; [apply isAvailable_of_spec|].
    now destruct kind.
  - split; [|reflexivity]. now apply updateCache_rejection in Hu.
Qed.

(** ** Resource groups *)

Lemma IsMicrosoftLearnSubscription_true K s :
  IsMicrosoftLearnSubscription K s = true
  <-> session_tenantId s ∈ MICROSOFT_LEARN_TENANTS K.
Proof. unfold IsMicrosoftLearnSubscription. apply bool_decide_eq_true. Qed.

Lemma IsMicrosoftLearnSubscription_false K s :
  IsMicrosoftLearnSubscription K s = false
  <-> session_tenantId s ∉ MICROSOFT_LEARN_TENANTS K.
Proof. unfold IsMicrosoftLearnSubscription. apply bool_decide_eq_false. Qed.

Lemma generateResourceGroupSelection_unfold K w generatedName s st :
  generateResourceGroupSelection K w generatedName s st =
  if IsMicrosoftLearnSubscription K s then
    match GetResourceGroups w s with
    | Resolved (first :: _) =>
        (Resolved
           {| ResourceGroupSelection.subscriptionItem := s;
              ResourceGroupSelection.resourceGroupName := name first;
              ResourceGroupSelection.location := AZURE_LOCATION_CENTRAL_US K |},
         log (CallGetResourceGroups s) st)
    | Resolved [] => (Rejected TypeError, log (CallGetResourceGroups s) st)
    | Rejected e => (Rejected e, log (CallGetResourceGroups s) st)
    end
  else
    (Resolved
       {| ResourceGroupSelection.subscriptionItem := s;
          ResourceGroupSelection.resourceGroupName := generatedName;
          ResourceGroupSelection.location := AZURE_LOCATION_CENTRAL_US K |},
     st).
Proof.
  unfold generateResourceGroupSelection. unfold_monad.
  destruct (IsMicrosoftLearnSubscription K s); [|reflexivity].
  destruct (GetResourceGroups w s) as [[|first rest]|e]; reflexivity.
Qed.

(** C8.  For a subscription of a Microsoft Learn tenant whose resource
    groups the provider lists as [first :: rest], the selection carries the
    name of [first] and the generated name is not used; for any other
    subscription it carries the generated name and no call is made.  In
    both cases the location is the Central US constant. *)
Theorem generateResourceGroupSelection_name
  (K : Constants) (w : Oracle) (generatedName : string)
  (subscriptionItem : SubscriptionItem) (st : State) :
  (session_tenantId subscriptionItem ∈ MICROSOFT_LEARN_TENANTS K ->
   forall first rest,
     GetResourceGroups w subscriptionItem = Resolved (first :: rest) ->
     generateResourceGroupSelection K w generatedName subscriptionItem st
     = (Resolved
          {| ResourceGroupSelection.subscriptionItem := subscriptionItem;
             ResourceGroupSelection.resourceGroupName := name first;
             ResourceGroupSelection.location := AZURE_LOCATION_CENTRAL_US K |},
        log (CallGetResourceGroups subscriptionItem) st))
  /\ (session_tenantId subscriptionItem ∉ MICROSOFT_LEARN_TENANTS K ->
      generateResourceGroupSelection K w generatedName subscriptionItem st
      = (Resolved
           {| ResourceGroupSelection.subscriptionItem := subscriptionItem;
              ResourceGroupSelection.resourceGroupName := generatedName;
              ResourceGroupSelection.location := AZURE_LOCATION_CENTRAL_US K |},
         st)).
Proof.
  split.
  - intros Hlearn first rest Hrg.
    apply IsMicrosoftLearnSubscription_true in Hlearn.
    rewrite generateResourceGroupSelection_unfold. now rewrite Hlearn, Hrg.
  - intros Hother. apply IsMicrosoftLearnSubscription_false in Hother.
    rewrite generateResourceGroupSelection_unfold. now rewrite Hother.
Qed.

Lemma generateResourceGroupSelection_name_witness :
  generateResourceGroupSelection Sample.K0
    (Sample.oracle [] None [{| name := "learn-rg" |}; {| name := "other" |}])
    "myapp-rg" Sample.subLearn initial
  = (Resolved
       {| ResourceGroupSelection.subscriptionItem := Sample.subLearn;
          ResourceGroupSelection.resourceGroupName := "learn-rg";
          ResourceGroupSelection.location := "Central US" |},
     log (CallGetResourceGroups Sample.subLearn) initial)
  /\ generateResourceGroupSelection Sample.K0
       (Sample.oracle [] None [{| name := "learn-rg" |}])
       "myapp-rg" Sample.subA initial
     = (Resolved
          {| ResourceGroupSelection.subscriptionItem := Sample.subA;
             ResourceGroupSelection.resourceGroupName := "myapp-rg";
             ResourceGroupSelection.location := "Central US" |},
        initial).
Proof.
  split.
  - destruct (generateResourceGroupSelection_name Sample.K0
                (Sample.oracle [] None [{| name := "learn-rg" |}; {| name := "other" |}])
                "myapp-rg" Sample.subLearn initial) as [Hlearn _].
    apply (Hlearn ltac:(apply list_elem_of_In; simpl; tauto)
                  {| name := "learn-rg" |} [{| name := "other" |}]).
    reflexivity.
  - destruct (generateResourceGroupSelection_name Sample.K0
                (Sample.oracle [] None [{| name := "learn-rg" |}])
                "myapp-rg" Sample.subA initial) as [_ Hother].
    apply Hother. intros Hin. apply list_elem_of_In in Hin.
    destruct Hin as [Heq|[]]. discriminate Heq.
Defined.

(** C10.  For a subscription outside the Microsoft Learn tenants,
    [deployResourceGroup] makes exactly the provider's [createResourceGroup]
    call and its outcome is that call's outcome; for a Microsoft Learn
    subscription it makes no call, resolves to [undefined] and leaves the
    state as it is. *)
Theorem deployResourceGroup_calls_provider
  (K : Constants) (w : Oracle) (selections : ResourceGroupSelection.t)
  (st : State) :
  (session_tenantId (ResourceGroupSelection.subscriptionItem selections)
     ∉ MICROSOFT_LEARN_TENANTS K ->
   deployResourceGroup K w selections st
   = (createResourceGroup w selections, log (CallCreateResourceGroup selections) st))
  /\ (session_tenantId (ResourceGroupSelection.subscriptionItem selections)
        ∈ MICROSOFT_LEARN_TENANTS K ->
      deployResourceGroup K w selections st = (Resolved JUndefined, st))
  /\ (CallCreateResourceGroup selections
        ∈ drop (List.length (trace st))
               (trace (snd (deployResourceGroup K w selections st)))
      <-> session_tenantId (ResourceGroupSelection.subscriptionItem selections)
            ∉ MICROSOFT_LEARN_TENANTS K).
Proof.
  unfold deployResourceGroup. unfold_monad.
  destruct (IsMicrosoftLearnSubscription K
              (ResourceGroupSelection.subscriptionItem selections)) eqn:E; simpl.
  - apply IsMicrosoftLearnSubscription_true in E.
    split; [contradiction|]. split; [reflexivity|].
    rewrite drop_all. split; [intros H; inversion H | contradiction].
  - apply IsMicrosoftLearnSubscription_false in E.
    split; [reflexivity|]. split; [contradiction|].
    rewrite drop_app_length. split; [auto | intros _; apply list_elem_of_here].
Qed.

Lemma deployResourceGroup_calls_provider_witness :
  deployResourceGroup Sample.K0 (Sample.oracle [] None [])
    {| ResourceGroupSelection.subscriptionItem := Sample.subA;
       ResourceGroupSelection.resourceGroupName := "myapp-rg";
       ResourceGroupSelection.location := "Central US" |} initial
  = (Resolved JNull,
     log (CallCreateResourceGroup
            {| ResourceGroupSelection.subscriptionItem := Sample.subA;
               ResourceGroupSelection.resourceGroupName := "myapp-rg";
               ResourceGroupSelection.location := "Central US" |}) initial)
  /\ deployResourceGroup Sample.K0 (Sample.oracle [] None [])
       {| ResourceGroupSelection.subscriptionItem := Sample.subLearn;
          ResourceGroupSelection.resourceGroupName := "learn-rg";
          ResourceGroupSelection.location := "Central US" |} initial
     = (Resolved JUndefined, initial).
Proof.
  split.
  - apply (deployResourceGroup_calls_provider Sample.K0 (Sample.oracle [] None [])).
    simpl. intros Hin. apply list_elem_of_In in Hin.
    destruct Hin as [Heq|[]]. discriminate Heq.
  - apply (deployResourceGroup_calls_provider Sample.K0 (Sample.oracle [] None [])).
    simpl. apply list_elem_of_In. simpl. tauto.
Defined.

(** ** Deployments *)

(** The guard of the three deployments throws for the empty reason only. *)
Lemma rejectInvalidReason_spec invalidReason st :
  rejectInvalidReason invalidReason st =
  if decide (invalidReason = Some "")
  then (Rejected (ValidationError ""), st)
  else (Resolved tt, st).
Proof.
  unfold rejectInvalidReason. destruct invalidReason as [s|]; simpl.
  - destruct (String.eqb s "") eqn:E.
    + apply String.eqb_eq in E. subst. reflexivity.
    + apply String.eqb_neq in E.
      destruct (decide (Some s = Some "")) as [[= ->]|_];
        [contradiction | reflexivity].
  - reflexivity.
Qed.

(** C1, the code at the failing input.  The provider's check answers
    ["name taken"] for every name.  Each of the three deployments resolves
    all the same, and its trace ends with the provider's creation call.
    With the empty reason, which the claim counts as "no reason", each of
    them throws [ValidationError("")] and creates nothing. *)
Theorem deployments_ignore_invalid_reason :
  let st := Sample.session [Sample.subA] in
  let taken := Sample.oracle [Sample.subA] (Some "name taken") [] in
  let empty := Sample.oracle [Sample.subA] (Some "") [] in
  let payload := Sample.payload false false true "" "" "A" in
  (fst (deployWebApp Sample.K0 taken payload st)
   = Resolved "/subscriptions/0/resourceGroups/rg/providers/Microsoft.Web/sites/myapp"
   /\ existsb is_create (trace (snd (deployWebApp Sample.K0 taken payload st))) = true)
  /\ (fst (deployFunctionApp Sample.K0 taken Sample.functionInput "/tmp/fn" st)
      = Resolved tt
      /\ existsb is_create
           (trace (snd (deployFunctionApp Sample.K0 taken Sample.functionInput
                          "/tmp/fn" st))) = true)
  /\ (fst (deployCosmosResource Sample.K0 taken Sample.cosmosInput "/tmp/db" st)
      = Resolved {| connectionString := "AccountEndpoint=x" |}
      /\ existsb is_create
           (trace (snd (deployCosmosResource Sample.K0 taken Sample.cosmosInput
                          "/tmp/db" st))) = true)
  /\ (fst (deployWebApp Sample.K0 empty payload st) = Rejected (ValidationError "")
      /\ existsb is_create (trace (snd (deployWebApp Sample.K0 empty payload st)))
         = false)
  /\ (fst (deployFunctionApp Sample.K0 empty Sample.functionInput "/tmp/fn" st)
      = Rejected (ValidationError "")
      /\ existsb is_create
           (trace (snd (deployFunctionApp Sample.K0 empty Sample.functionInput
                          "/tmp/fn" st))) = false)
  /\ (fst (deployCosmosResource Sample.K0 empty Sample.cosmosInput "/tmp/db" st)
      = Rejected (ValidationError "")
      /\ existsb is_create
           (trace (snd (deployCosmosResource Sample.K0 empty Sample.cosmosInput
                          "/tmp/db" st))) = false).
Proof. cbv zeta. repeat split; vm_compute; reflexivity. Qed.

(** ** Distinct resource-group selections *)

Lemma foldl_Set_add_spec items : forall acc,
  NoDup acc ->
  NoDup (foldl Set_add acc items)
  /\ forall x, x ∈ foldl Set_add acc items <-> x ∈ acc \/ x ∈ items.
Proof.
  induction items as [|y items IH]; intros acc Hnd; simpl.
  - split; [exact Hnd|]. intros x. rewrite elem_of_nil. tauto.
  - assert (Hnd' : NoDup (Set_add acc y)).
    { unfold Set_add. destruct (decide (y ∈ acc)); [exact Hnd|].
      apply NoDup_app. split; [exact Hnd|]. split.
      - intros x Hx Hy. apply list_elem_of_singleton in Hy. now subst.
      - apply NoDup_singleton. }
    destruct (IH _ Hnd') as [H1 H2]. split; [exact H1|].
    intros x. rewrite H2, elem_of_cons. unfold Set_add.
    destruct (decide (y ∈ acc)) as [Hin|Hnin].
    + split; [tauto|]. intros [?|[->|?]]; auto.
    + rewrite elem_of_app, list_elem_of_singleton. tauto.
Qed.

Lemma Set_of_NoDup items : NoDup (Set_of items).
Proof. apply foldl_Set_add_spec. apply NoDup_nil_2. Qed.

Lemma elem_of_Set_of items x : x ∈ Set_of items <-> x ∈ items.
Proof.
  unfold Set_of.
  destruct (foldl_Set_add_spec items [] (NoDup_nil_2)) as [_ H].
  rewrite H, elem_of_nil. tauto.
Qed.

(** A list that repeats one object yields that object once. *)
Lemma Set_of_same s items :
  items <> [] -> Forall (eq s) items -> Set_of items = [s].
Proof.
  intros Hne Hall. destruct Hall as [|x items <- Hall]; [contradiction|].
  unfold Set_of. simpl. change (Set_add [] s) with [s].
  induction Hall as [|y items <- _ IH]; [reflexivity|].
  simpl. unfold Set_add at 2. rewrite decide_True by apply list_elem_of_here.
  apply IH. discriminate.
Qed.

Lemma collect_unfold K kind selected l acc st :
  collect K kind selected l acc st =
  if selected then
    match updateCache K kind l st with
    | (Rejected e, st1) => (Rejected e, st1)
    | (Resolved _, st1) =>
        match cache_of kind st1 with
        | Some c => (Resolved (acc ++ [c])%list, st1)
        | None => (Rejected TypeError, st1)
        end
    end
  else (Resolved acc, st).
Proof.
  unfold collect. destruct selected; [|reflexivity].
  unfold_monad. destruct (updateCache K kind l st) as [[u|e] st1]; [|reflexivity].
  destruct (cache_of kind st1); reflexivity.
Qed.

(** A resolved block appended the entry of its kind, left the list, the
    trace and the other slots alone; a block resolves when its label is in
    the list. *)
Lemma collect_resolved K kind selected l acc st acc' st1 :
  collect K kind selected l acc st = (Resolved acc', st1) ->
  subscriptionItemList st1 = subscriptionItemList st
  /\ (forall kind', kind' <> kind -> cache_of kind' st1 = cache_of kind' st)
  /\ acc' = (acc ++ if selected then option_list (cache_of kind st1) else [])%list.
Proof.
  rewrite collect_unfold. destruct selected.
  - pose proof (updateCache_effect K kind l st) as Heff.
    destruct (updateCache K kind l st) as [[u|e] st0]; [|discriminate].
    destruct Heff as (Hlist & _ & Hother & _).
    destruct (cache_of kind st0) as [c|] eqn:Hc; [|discriminate].
    intros [= <- <-]. rewrite Hc. auto.
  - intros [= <- <-]. rewrite app_nil_r. auto.
Qed.

Lemma collect_total K kind selected l acc st :
  (selected = true -> is_Some (find_label l (subscriptionItemList st))) ->
  exists acc' st1, collect K kind selected l acc st = (Resolved acc', st1).
Proof.
  intros Hfound. rewrite collect_unfold. destruct selected; [|eauto].
  destruct (Hfound eq_refl) as [s Hs].
  destruct (updateCache K kind l st) as [[u|e] st1] eqn:Hu.
  - destruct (update_resolved_defined _ _ _ _ _ _ Hu) as (c & Hc & _).
    rewrite Hc. eauto.
  - rewrite updateCache_unfold in Hu. rewrite Hs in Hu.
    destruct (cache_miss _ _); discriminate.
Qed.

Lemma planner_unfold K w payload :
  generateDistinctResourceGroupSelections K w payload =
  bind (collect K Functions (Payload.selectedFunctions payload)
          (Payload.functions_subscription payload) []) (fun a1 =>
  bind (collect K Cosmos (Payload.selectedCosmos payload)
          (Payload.cosmos_subscription payload) a1) (fun a2 =>
  bind (collect K AppService (Payload.selectedAppService payload)
          (Payload.appService_subscription payload) a2) (fun a3 =>
  bind (await (CallGenerateValidResourceGroupName
                 (Payload.engine_projectName payload) (Set_of a3))
              (generateValidResourceGroupName w
                 (Payload.engine_projectName payload) (Set_of a3))) (fun generatedName =>
  Promise_all (map (generateResourceGroupSelection K w generatedName)
                   (Set_of a3)))))).
Proof. reflexivity. Qed.

(** The joined selections are those of the given subscriptions, in order;
    building them touches the trace only. *)
Lemma Promise_all_selections K w generatedName subs : forall st sels st',
  Promise_all (map (generateResourceGroupSelection K w generatedName) subs) st
  = (Resolved sels, st') ->
  map ResourceGroupSelection.subscriptionItem sels = subs
  /\ (forall kind, cache_of kind st' = cache_of kind st).
Proof.
  induction subs as [|s subs IH]; intros st sels st' H; simpl in H.
  - injection H as <- <-. auto.
  - rewrite generateResourceGroupSelection_unfold in H.
    destruct (IsMicrosoftLearnSubscription K s).
    + destruct (GetResourceGroups w s) as [[|first rest]|e].
      * destruct (Promise_all _ _) as [os st2]. discriminate.
      * destruct (Promise_all _ _) as [[l|e] st2] eqn:Hrest; [|discriminate].
        injection H as <- <-. destruct (IH _ _ _ Hrest) as [Hm Hc].
        simpl. rewrite Hm. split; [reflexivity|].
        intros kind. rewrite Hc. apply cache_of_log.
      * destruct (Promise_all _ _) as [os st2]. discriminate.
    + destruct (Promise_all _ _) as [[l|e] st2] eqn:Hrest; [|discriminate].
      injection H as <- <-. destruct (IH _ _ _ Hrest) as [Hm Hc].
      simpl. rewrite Hm. auto.
Qed.

Lemma Promise_all_total K w generatedName subs : forall st,
  (forall s, IsMicrosoftLearnSubscription K s = true ->
             exists first rest, GetResourceGroups w s = Resolved (first :: rest)) ->
  exists sels st',
    Promise_all (map (generateResourceGroupSelection K w generatedName) subs) st
    = (Resolved sels, st').
Proof.
  intros st Hrg. revert st.
  induction subs as [|s subs IH]; intros st; simpl; [eauto|].
  rewrite generateResourceGroupSelection_unfold.
  destruct (IsMicrosoftLearnSubscription K s) eqn:E.
  - destruct (Hrg s E) as (first & rest & ->).
    destruct (IH (log (CallGetResourceGroups s) st)) as (sels & st' & ->). eauto.
  - destruct (IH st) as (sels & st' & ->). eauto.
Qed.

(** The subscriptions the planner deduplicates are the cache entries of
    the selected kinds as they stand when it returns. *)
Lemma planner_resolved K w payload st sels st' :
  generateDistinctResourceGroupSelections K w payload st = (Resolved sels, st') ->
  map ResourceGroupSelection.subscriptionItem sels
  = Set_of (selected_caches payload st').
Proof.
  rewrite planner_unfold. unfold bind at 1.
  destruct (collect K Functions _ _ [] st) as [[a1|e] st1] eqn:H1; [|discriminate].
  unfold bind at 1.
  destruct (collect K Cosmos _ _ a1 st1) as [[a2|e] st2] eqn:H2; [|discriminate].
  unfold bind at 1.
  destruct (collect K AppService _ _ a2 st2) as [[a3|e] st3] eqn:H3; [|discriminate].
  unfold bind, await.
  destruct (generateValidResourceGroupName w _ _) as [g|e]; [|discriminate].
  intros H. apply Promise_all_selections in H as [Hmap Hcache].
  rewrite Hmap. f_equal.
  apply collect_resolved in H1 as (_ & _ & ->).
  apply collect_resolved in H2 as (_ & Ho2 & ->).
  apply collect_resolved in H3 as (_ & Ho3 & ->).
  unfold selected_caches.
  change (usersFunctionSubscriptionItemCache st') with (cache_of Functions st').
  change (usersCosmosDBSubscriptionItemCache st') with (cache_of Cosmos st').
  change (usersAppServiceSubscriptionItemCache st') with (cache_of AppService st').
  rewrite !Hcache, !cache_of_log.
  rewrite (Ho3 Functions), (Ho3 Cosmos), (Ho2 Functions) by discriminate.
  now rewrite <- app_assoc.
Qed.

Lemma elem_of_option_list_Some {A} (mx : option A) (x : A) :
  x ∈ option_list mx -> mx = Some x.
Proof.
  destruct mx as [y|]; simpl; intros H.
  - apply list_elem_of_singleton in H. now subst.
  - now apply elem_of_nil in H.
Qed.

Lemma resolve_subscription_ext st st1 kind l :
  subscriptionItemList st1 = subscriptionItemList st ->
  cache_of kind st1 = cache_of kind st ->
  resolve_subscription st1 kind l = resolve_subscription st kind l.
Proof. intros Hl Hc. unfold resolve_subscription. now rewrite Hl, Hc. Qed.

Lemma resolve_subscription_label st kind l c :
  resolve_subscription st kind l = Some c -> label c = l.
Proof.
  unfold resolve_subscription.
  destruct (cache_miss (cache_of kind st) l) eqn:Hm.
  - intros H. now apply find_label_Some in H.
  - apply cache_miss_false in Hm as (c' & Hc & Hl). rewrite Hc. congruence.
Qed.

(** On a state whose cached items are the list's own, a label resolves to
    the list's item for it, hit or miss. *)
Lemma resolve_subscription_coherent st kind l c :
  coherent st -> resolve_subscription st kind l = Some c ->
  find_label l (subscriptionItemList st) = Some c.
Proof.
  intros Hco. unfold resolve_subscription.
  destruct (cache_miss (cache_of kind st) l) eqn:Hm; [auto|].
  apply cache_miss_false in Hm as (c' & Hc & Hl). rewrite Hc. intros [= <-].
  rewrite <- Hl. now apply (Hco kind).
Qed.

(** A resolved block of a selected kind leaves in the slot what the label
    resolves to on the state before it. *)
Lemma collect_resolves_to K kind l acc st acc' st1 :
  collect K kind true l acc st = (Resolved acc', st1) ->
  exists c, resolve_subscription st kind l = Some c /\ cache_of kind st1 = Some c.
Proof.
  rewrite collect_unfold, updateCache_unfold. unfold resolve_subscription.
  destruct (cache_miss (cache_of kind st) l) eqn:Hm.
  - destruct (find_label l (subscriptionItemList st)) as [s|]; [|discriminate].
    rewrite cache_of_set_cache.
    replace (kind_eqb kind kind) with true by now destruct kind.
    intros [= _ <-]. exists s. split; [reflexivity|].
    rewrite cache_of_set_cache. now destruct kind.
  - apply cache_miss_false in Hm as (c & Hc & Hl). rewrite Hc.
    intros [= _ <-]. eauto.
Qed.

(** What the planner deduplicates, read off the payload and the state
    before the run: each selected kind contributes the subscription its
    label resolves to, and that subscription carries the label. *)
Lemma planner_resolves_from K w payload st sels st' :
  generateDistinctResourceGroupSelections K w payload st = (Resolved sels, st') ->
  selected_caches payload st' = resolved_subscriptions payload st
  /\ map label (resolved_subscriptions payload st) = selected_labels payload.
Proof.
  rewrite planner_unfold. unfold bind at 1.
  destruct (collect K Functions _ _ [] st) as [[a1|e] st1] eqn:H1; [|discriminate].
  unfold bind at 1.
  destruct (collect K Cosmos _ _ a1 st1) as [[a2|e] st2] eqn:H2; [|discriminate].
  unfold bind at 1.
  destruct (collect K AppService _ _ a2 st2) as [[a3|e] st3] eqn:H3; [|discriminate].
  unfold bind, await.
  destruct (generateValidResourceGroupName w _ _) as [g|e]; [|discriminate].
  intros H. apply Promise_all_selections in H as [_ Hcache].
  pose proof (collect_resolved _ _ _ _ _ _ _ _ H1) as (Hl1 & Ho1 & _).
  pose proof (collect_resolved _ _ _ _ _ _ _ _ H2) as (Hl2 & Ho2 & _).
  pose proof (collect_resolved _ _ _ _ _ _ _ _ H3) as (Hl3 & Ho3 & _).
  assert (RF : Payload.selectedFunctions payload = true ->
               exists c, resolve_subscription st Functions
                           (Payload.functions_subscription payload) = Some c
                         /\ cache_of Functions st' = Some c
                         /\ label c = Payload.functions_subscription payload).
  { intros Hs. rewrite Hs in H1.
    destruct (collect_resolves_to _ _ _ _ _ _ _ H1) as (c & Hr & Hc).
    exists c. split; [exact Hr|].
    split; [|now apply resolve_subscription_label in Hr].
    rewrite Hcache, cache_of_log, (Ho3 Functions), (Ho2 Functions) by discriminate.
    exact Hc. }
  assert (RC : Payload.selectedCosmos payload = true ->
               exists c, resolve_subscription st Cosmos
                           (Payload.cosmos_subscription payload) = Some c
                         /\ cache_of Cosmos st' = Some c
                         /\ label c = Payload.cosmos_subscription payload).
  { intros Hs. rewrite Hs in H2.
    destruct (collect_resolves_to _ _ _ _ _ _ _ H2) as (c & Hr & Hc).
    exists c. split; [|split; [|now apply resolve_subscription_label in Hr]].
    - rewrite <- Hr. symmetry. apply resolve_subscription_ext; [exact Hl1|].
      apply Ho1. discriminate.
    - rewrite Hcache, cache_of_log, (Ho3 Cosmos) by discriminate. exact Hc. }
  assert (RA : Payload.selectedAppService payload = true ->
               exists c, resolve_subscription st AppService
                           (Payload.appService_subscription payload) = Some c
                         /\ cache_of AppService st' = Some c
                         /\ label c = Payload.appService_subscription payload).
  { intros Hs. rewrite Hs in H3.
    destruct (collect_resolves_to _ _ _ _ _ _ _ H3) as (c & Hr & Hc).
    exists c. split; [|split; [|now apply resolve_subscription_label in Hr]].
    - rewrite <- Hr. symmetry. apply resolve_subscription_ext; [congruence|].
      rewrite (Ho2 AppService), (Ho1 AppService) by discriminate. reflexivity.
    - rewrite Hcache, cache_of_log. exact Hc. }
  unfold selected_caches, resolved_subscriptions, selected_labels.
  change (usersFunctionSubscriptionItemCache st') with (cache_of Functions st').
  change (usersCosmosDBSubscriptionItemCache st') with (cache_of Cosmos st').
  change (usersAppServiceSubscriptionItemCache st') with (cache_of AppService st').
  rewrite !map_app.
  destruct (Payload.selectedFunctions payload);
    [destruct (RF eq_refl) as (cf & -> & -> & <-) | clear RF];
    (destruct (Payload.selectedCosmos payload);
       [destruct (RC eq_refl) as (cc & -> & -> & <-) | clear RC]);
    (destruct (Payload.selectedAppService payload);
       [destruct (RA eq_refl) as (ca & -> & -> & <-) | clear RA]);
    simpl; split; reflexivity.
Qed.

(** C7.  Whenever the planner resolves, the subscriptions of its
    selections are the distinct objects among the subscriptions that the
    labels of the selected kinds resolve to (the cached item when the slot
    carries the label, the list's item for the label otherwise; each
    carries its label, and each is what the slot of its kind holds when the
    planner returns), each exactly once, in order of first selection; when
    those subscriptions are all one and the same object there is exactly
    one selection, and so there is when the selected kinds all name one
    label and the cached items are the list's own.  The planner does
    resolve when the label of every selected kind is in the list, the name
    generator resolves, and the provider lists at least one resource group
    for every Microsoft Learn subscription. *)
Theorem distinct_resource_group_selections
  (K : Constants) (w : Oracle) (payload : Payload.t) (st : State) :
  (forall sels st',
     generateDistinctResourceGroupSelections K w payload st = (Resolved sels, st') ->
     let subs := map ResourceGroupSelection.subscriptionItem sels in
     subs = Set_of (selected_caches payload st')
     /\ NoDup subs
     /\ (forall s, s ∈ subs <-> s ∈ selected_caches payload st')
     /\ (forall s, selected_caches payload st' <> [] ->
                   Forall (eq s) (selected_caches payload st') ->
                   subs = [s] /\ List.length sels = 1%nat)
     /\ selected_caches payload st' = resolved_subscriptions payload st
     /\ subs = Set_of (resolved_subscriptions payload st)
     /\ map label (resolved_subscriptions payload st) = selected_labels payload
     /\ (forall s, s ∈ subs <-> s ∈ resolved_subscriptions payload st)
     /\ (forall l, coherent st ->
                   selected_labels payload <> [] ->
                   Forall (eq l) (selected_labels payload) ->
                   exists s, find_label l (subscriptionItemList st) = Some s
                             /\ subs = [s] /\ List.length sels = 1%nat))
  /\ ((Payload.selectedFunctions payload = true ->
       is_Some (find_label (Payload.functions_subscription payload)
                           (subscriptionItemList st))) ->
      (Payload.selectedCosmos payload = true ->
       is_Some (find_label (Payload.cosmos_subscription payload)
                           (subscriptionItemList st))) ->
      (Payload.selectedAppService payload = true ->
       is_Some (find_label (Payload.appService_subscription payload)
                           (subscriptionItemList st))) ->
      (forall subs, resolved (generateValidResourceGroupName w
                                (Payload.engine_projectName payload) subs) = true) ->
      (forall s, session_tenantId s ∈ MICROSOFT_LEARN_TENANTS K ->
                 exists first rest, GetResourceGroups w s = Resolved (first :: rest)) ->
      exists sels st',
        generateDistinctResourceGroupSelections K w payload st = (Resolved sels, st')).
Proof.
  split.
  - intros sels st' H. cbv zeta.
    destruct (planner_resolves_from _ _ _ _ _ _ H) as [Hfrom Hlabels].
    rewrite (planner_resolved _ _ _ _ _ _ H).
    assert (Hone : forall s, selected_caches payload st' <> [] ->
                     Forall (eq s) (selected_caches payload st') ->
                     Set_of (selected_caches payload st') = [s]
                     /\ List.length sels = 1%nat).
    { intros s Hne Hall. pose proof (Set_of_same s _ Hne Hall) as Hs.
      split; [exact Hs|].
      rewrite <- (length_map ResourceGroupSelection.subscriptionItem).
      rewrite (planner_resolved _ _ _ _ _ _ H), Hs. reflexivity. }
    split; [reflexivity|]. split; [apply Set_of_NoDup|].
    split; [intros s; apply elem_of_Set_of|].
    split; [exact Hone|].
    split; [exact Hfrom|]. split; [now rewrite Hfrom|].
    split; [exact Hlabels|].
    split; [intros s; rewrite <- Hfrom; apply elem_of_Set_of|].
    intros l Hco Hne Hall.
    assert (Hres : forall c, c ∈ resolved_subscriptions payload st ->
                     find_label l (subscriptionItemList st) = Some c).
    { intros c Hc.
      assert (Hl : label c = l).
      { assert (Hin : label c ∈ selected_labels payload)
          by (rewrite <- Hlabels; now apply list_elem_of_fmap_2).
        rewrite Forall_forall in Hall. symmetry. now apply Hall. }
      unfold resolved_subscriptions in Hc.
      rewrite !elem_of_app in Hc.
      destruct Hc as [Hc|[Hc|Hc]];
        match type of Hc with
        | _ ∈ (if ?b then _ else _) => destruct b; [|now apply elem_of_nil in Hc]
        end;
        apply elem_of_option_list_Some in Hc;
        apply (resolve_subscription_coherent _ _ _ _ Hco) in Hc as Hf;
        apply resolve_subscription_label in Hc; congruence. }
    destruct (resolved_subscriptions payload st) as [|s rest] eqn:Hrs.
    { exfalso. apply Hne. rewrite <- Hlabels. reflexivity. }
    exists s. split; [apply Hres, list_elem_of_here|].
    apply Hone; rewrite Hfrom; [discriminate|].
    apply Forall_forall. intros c Hc.
    pose proof (Hres s (list_elem_of_here _ _)) as Hs.
    pose proof (Hres c Hc) as Hc'. congruence.
  - intros Hf Hc Ha Hname Hrg.
    rewrite planner_unfold. unfold bind at 1.
    destruct (collect_total K Functions _ _ [] st Hf) as (a1 & st1 & H1).
    rewrite H1. pose proof (collect_resolved _ _ _ _ _ _ _ _ H1) as (Hl1 & _).
    unfold bind at 1. rewrite <- Hl1 in Hc, Ha.
    destruct (collect_total K Cosmos _ _ a1 st1 Hc) as (a2 & st2 & H2).
    rewrite H2. pose proof (collect_resolved _ _ _ _ _ _ _ _ H2) as (Hl2 & _).
    unfold bind at 1. rewrite <- Hl2 in Ha.
    destruct (collect_total K AppService _ _ a2 st2 Ha) as (a3 & st3 & H3).
    rewrite H3. unfold bind, await.
    specialize (Hname (Set_of a3)).
    destruct (generateValidResourceGroupName w _ _) as [g|e]; [|discriminate].
    apply Promise_all_total. intros s Hs.
    apply Hrg. now apply IsMicrosoftLearnSubscription_true.
Qed.

Lemma distinct_resource_group_selections_witness :
  exists sels st',
    generateDistinctResourceGroupSelections Sample.K0
      (Sample.oracle [] None [{| name := "learn-rg" |}])
      (Sample.payload true true false "A" "A" "")
      (Sample.session [Sample.subA; Sample.subB]) = (Resolved sels, st')
    /\ map ResourceGroupSelection.subscriptionItem sels = [Sample.subA]
    /\ List.length sels = 1%nat.
Proof.
  destruct (distinct_resource_group_selections Sample.K0
              (Sample.oracle [] None [{| name := "learn-rg" |}])
              (Sample.payload true true false "A" "A" "")
              (Sample.session [Sample.subA; Sample.subB])) as [Hshape Htotal].
  destruct Htotal as (sels & st' & Hrun).
  - intros _. eexists. reflexivity.
  - intros _. eexists. reflexivity.
  - discriminate.
  - reflexivity.
  - intros s _. eexists _, _. reflexivity.
  - exists sels, st'. split; [exact Hrun|].
    destruct (Hshape sels st' Hrun) as (_ & _ & _ & _ & _ & _ & _ & _ & Hlabel).
    destruct (Hlabel "A") as (s & Hs & Hsubs & Hlen).
    + intros kind c Hc. destruct kind; discriminate.
    + discriminate.
    + repeat constructor.
    + injection Hs as <-. split; [exact Hsubs | exact Hlen].
Defined.

(** Two kinds on one subscription give one selection; two distinct objects
    give two, even under one label (here the Functions slot still holds
    the object of an earlier fetch). *)
Example planner_dedups_by_identity :
  fst (generateDistinctResourceGroupSelections Sample.K0
         (Sample.oracle [] None [])
         (Sample.payload true true true "A" "A" "B")
         (Sample.session [Sample.subA; Sample.subB]))
  = Resolved
      [ {| ResourceGroupSelection.subscriptionItem := Sample.subA;
           ResourceGroupSelection.resourceGroupName := "myapp";
           ResourceGroupSelection.location := "Central US" |};
        {| ResourceGroupSelection.subscriptionItem := Sample.subB;
           ResourceGroupSelection.resourceGroupName := "myapp";
           ResourceGroupSelection.location := "Central US" |} ]
  /\ fst (generateDistinctResourceGroupSelections Sample.K0
            (Sample.oracle [] None [])
            (Sample.payload true true false "A" "A" "")
            (set_cache Functions Sample.subA (Sample.session [Sample.subA'])))
     = Resolved
         [ {| ResourceGroupSelection.subscriptionItem := Sample.subA;
              ResourceGroupSelection.resourceGroupName := "myapp";
              ResourceGroupSelection.location := "Central US" |};
           {| ResourceGroupSelection.subscriptionItem := Sample.subA';
              ResourceGroupSelection.resourceGroupName := "myapp";
              ResourceGroupSelection.location := "Central US" |} ].
Proof. split; vm_compute; reflexivity. Qed.


(** ** Worked examples *)

(** A line without ["="] is stored under the empty key, and an assignment
    to ["__proto__"] leaves the object as it was. *)
Example convertToSettings_odd_lines :
  convertToSettings ("novalue" ++ LF) = {[ "" := "novalue" ]}
  /\ convertToSettings ("__proto__=x" ++ LF ++ "A=1" ++ LF) = {[ "A" := "1" ]}
  /\ convertToSettings ("A=1" ++ LF ++ "A=2" ++ LF) = {[ "A" := "2" ]}
  /\ convertToSettings "" = ∅.
Proof. repeat split; vm_compute; reflexivity. Qed.

(** The end-to-end scenario of the name validation: a free name, then the
    same name once it is taken. *)
Example validate_name_scenario :
  fst (clientCommandMap Sample.K0 ExtensionCommand.NameAppService
         (Sample.oracle [Sample.subA] None []) (Sample.msg "A")
         (Sample.session [Sample.subA]))
  = Resolved {| payload := JObject [("scope", JString "wizard-7");
                                    ("isAvailable", JBool true);
                                    ("reason", JUndefined)] |}
  /\ fst (clientCommandMap Sample.K0 ExtensionCommand.NameAppService
            (Sample.oracle [Sample.subA] (Some "name taken") []) (Sample.msg "A")
            (Sample.session [Sample.subA]))
     = Resolved {| payload := JObject [("scope", JString "wizard-7");
                                       ("isAvailable", JBool false);
                                       ("reason", JString "name taken")] |}
  /\ fst (clientCommandMap Sample.K0 ExtensionCommand.NameAppService
            (Sample.oracle [Sample.subA] None []) (Sample.msg "Z")
            (Sample.session [Sample.subA]))
     = Rejected (SubscriptionError "subscription not found").
Proof. repeat split; vm_compute; reflexivity. Qed.

(** A run of updates: the App Service slot follows the labels that
    resolve and ignores the one that does not. *)
Example update_sequence_run :
  let calls := [(AppService, "A"); (Cosmos, "B"); (AppService, "Z");
                (AppService, "B"); (AppService, "Y")] in
  let st := Sample.session [Sample.subA; Sample.subB] in
  last_resolved Sample.K0 AppService calls st None = Some "B"
  /\ cache_of AppService (run_updates Sample.K0 calls st) = Some Sample.subB
  /\ cache_of Cosmos (run_updates Sample.K0 calls st) = Some Sample.subB
  /\ cache_of Functions (run_updates Sample.K0 calls st) = None.
Proof. repeat split; vm_compute; reflexivity. Qed.

(** A status query of a logged-in user lists the subscriptions with their
    tenant classification; without an e-mail the payload is [null]. *)
Example user_status_run :
  fst (sendUserStatusIfLoggedIn Sample.K0
         (Sample.oracle [Sample.subA; Sample.subLearn] None [])
         (Sample.msg "") initial)
  = Resolved
      {| payload :=
           JObject
             [("scope", JString "wizard-7");
              ("email", JString "dev@example.com");
              ("subscriptions",
               JArray
                 [JObject [("label", JString "A"); ("value", JString "A");
                           ("isMicrosoftLearnSubscription", JBool false)];
                  JObject [("label", JString "L"); ("value", JString "L");
                           ("isMicrosoftLearnSubscription", JBool true)]])] |}
  /\ subscriptionItemList
       (snd (sendUserStatusIfLoggedIn Sample.K0
               (Sample.oracle [Sample.subA; Sample.subLearn] None [])
               (Sample.msg "") initial))
     = [Sample.subA; Sample.subLearn].
Proof. split; vm_compute; reflexivity. Qed.


(** ** Lines, keys and values *)

Lemma indexOf_char_found c f : forall i,
  indexOf (String c "") f = Z.of_nat i ->
  exists k v, f = k ++ String c v
              /\ indexOf (String c "") k = -1
              /\ String.length k = i.
Proof.
  induction f as [|b f IH]; intros i H.
  - simpl in H. lia.
  - cbn [indexOf] in H. rewrite startsWith_char in H.
    destruct (Ascii.eqb c b) eqn:E.
    + apply Ascii.eqb_eq in E. subst b.
      exists "", f. repeat split. simpl. lia.
    + destruct (indexOf (String c "") f <? 0) eqn:El; [lia|].
      apply Z.ltb_ge in El.
      destruct i as [|i]; [lia|].
      destruct (IH i ltac:(lia)) as (k & v & -> & Hk & Hlen).
      exists (String b k), v. repeat split.
      * now apply indexOf_char_cons.
      * simpl. now rewrite Hlen.
Qed.

Lemma indexOf_char_app c a b :
  indexOf (String c "") a = -1 ->
  indexOf (String c "") b = -1 ->
  indexOf (String c "") (a ++ b) = -1.
Proof.
  induction a as [|x a IH]; intros Ha Hb; [exact Hb|].
  destruct (indexOf_cons_absent _ _ _ Ha) as [Hs Hi].
  rewrite startsWith_char in Hs.
  rewrite append_cons. apply indexOf_char_cons; auto.
Qed.

(** X1.  Every field splits one way or the other: a field without ["="]
    is stored under the empty key with the whole field as its value; a
    field with one is cut at the first ["="], so that key, ["="] and value
    give the field back and the key holds no ["="]. *)
Theorem field_split_cases (field : string) :
  (indexOf "=" field = -1 ->
   field_key field = "" /\ field_value field = field)
  /\ (0 <= indexOf "=" field ->
      field_key field ++ "=" ++ field_value field = field
      /\ indexOf "=" (field_key field) = -1).
Proof.
  split.
  - intros H. unfold field_key, field_value, substr. rewrite H.
    change (0 <? 0) with false. change (-1 + 1 <? 0) with false. cbv iota.
    split.
    + replace (Z.to_nat _) with 0%nat by lia. reflexivity.
    + replace (Z.to_nat (Z.min _ _ - _)) with (String.length field) by lia.
      replace (Z.to_nat _) with 0%nat by lia.
      apply slice_to_all.
  - intros H.
    destruct (indexOf_char_found "=" field (Z.to_nat (indexOf "=" field))
                ltac:(lia)) as (k & v & -> & Hk & _).
    change (String "="%char v) with ("=" ++ v).
    rewrite (field_key_first_eq k v Hk), (field_value_first_eq k v Hk).
    split; [reflexivity | exact Hk].
Qed.

Lemma field_split_cases_witness :
  (field_key "novalue" = "" /\ field_value "novalue" = "novalue")
  /\ (field_key "A=x=y" ++ "=" ++ field_value "A=x=y" = "A=x=y"
      /\ indexOf "=" (field_key "A=x=y") = -1).
Proof.
  split.
  - apply (field_split_cases "novalue"). reflexivity.
  - apply (field_split_cases "A=x=y"). vm_compute. discriminate.
Defined.

(** The loop on a serialised list of pairs makes one assignment per pair. *)
Lemma convertToSettings_pairs kvs last :
  Forall line_safe kvs ->
  indexOf LF last = -1 ->
  convertToSettings (serialize kvs ++ last)
  = foldl (fun m kv => obj_assign m (fst kv) (snd kv)) ∅ kvs.
Proof.
  intros Hsafe Hlast. unfold serialize.
  rewrite convertToSettings_unlines; [| |exact Hlast].
  - generalize (∅ : gmap string string) as acc.
    induction Hsafe as [|[k v] kvs (Hk & _ & _) _ IH]; intros acc; [reflexivity|].
    simpl. rewrite <- IH. f_equal.
    unfold assign_field, key_value_line. simpl.
    now rewrite (field_key_first_eq k v Hk), (field_value_first_eq k v Hk).
  - induction Hsafe as [|[k v] kvs (_ & Hk & Hv) _ IH]; constructor; [|exact IH].
    unfold key_value_line. simpl.
    apply indexOf_char_app; [exact Hk|].
    change ("=" ++ v) with (String "="%char v).
    apply indexOf_char_cons; [reflexivity | exact Hv].
Qed.

Lemma foldl_obj_assign kvs : forall acc : gmap string string,
  foldl (fun m kv => obj_assign m (fst kv) (snd kv)) acc kvs
  = list_to_map (reverse (filter (fun kv => fst kv <> "__proto__") kvs)) ∪ acc.
Proof.
  induction kvs as [|[k v] kvs IH]; intros acc.
  - simpl. now rewrite (left_id_L ∅ (∪)).
  - simpl. rewrite IH. unfold obj_assign. rewrite filter_cons. simpl.
    destruct (decide (k = "__proto__")) as [->|Hne].
    + rewrite decide_False by (intros H; now apply H). reflexivity.
    + rewrite decide_True by exact Hne.
      rewrite reverse_cons, list_to_map_app. simpl.
      rewrite <- (assoc_L (∪)). f_equal.
      now rewrite insert_union_singleton_l.
Qed.

(** X2.  Round trip of the settings.  Pairs whose keys hold no ["="] and
    whose parts hold no line feed, written one [key=value] line each, are
    read back as the map of those pairs: a later pair overrides an earlier
    one with the same key, a pair with the key ["__proto__"] is lost, and
    whatever follows the last line feed is ignored.  With distinct keys,
    none of them ["__proto__"], the result is exactly the map of the
    pairs. *)
Theorem convertToSettings_round_trip
  (kvs : list (string * string)) (last : string) :
  Forall line_safe kvs ->
  indexOf LF last = -1 ->
  convertToSettings (serialize kvs ++ last)
  = list_to_map (reverse (filter (fun kv => fst kv <> "__proto__") kvs))
  /\ (NoDup (kvs.*1) -> "__proto__" ∉ kvs.*1 ->
      convertToSettings (serialize kvs ++ last) = list_to_map kvs).
Proof.
  intros Hsafe Hlast.
  rewrite (convertToSettings_pairs _ _ Hsafe Hlast), foldl_obj_assign.
  rewrite (right_id_L ∅ (∪)). split; [reflexivity|].
  intros Hnd Hproto.
  assert (Hf : filter (fun kv : string * string => fst kv <> "__proto__") kvs = kvs).
  { clear -Hproto. induction kvs as [|[k v] kvs IH]; [reflexivity|].
    rewrite filter_cons. simpl in *.
    apply not_elem_of_cons in Hproto as [Hk Hrest].
    rewrite decide_True by (intros ->; now apply Hk).
    now rewrite IH. }
  rewrite Hf. apply list_to_map_proper.
  - rewrite fmap_reverse, reverse_Permutation. exact Hnd.
  - apply reverse_Permutation.
Qed.

Lemma convertToSettings_round_trip_witness :
  convertToSettings
    (serialize [("Endpoint", "https://db"); ("Key", "a=b"); ("Endpoint", "x")]
       ++ "dangling")
  = {[ "Endpoint" := "x"; "Key" := "a=b" ]}
  /\ convertToSettings (serialize [("A", "1"); ("B", "2")] ++ "")
     = list_to_map [("A", "1"); ("B", "2")].
Proof.
  split.
  - destruct (convertToSettings_round_trip
                [("Endpoint", "https://db"); ("Key", "a=b"); ("Endpoint", "x")]
                "dangling") as [H _].
    + repeat constructor.
    + reflexivity.
    + rewrite H. vm_compute. reflexivity.
  - destruct (convertToSettings_round_trip [("A", "1"); ("B", "2")] "")
      as [_ H].
    + repeat constructor.
    + reflexivity.
    + apply H; compute_done.
Defined.

(** X3.  An id that holds neither ["Microsoft.Resources/deployments"] nor
    ["-"] followed by the app-service type name comes back from [convertId]
    as it is. *)
Theorem convertId_without_patterns (T rawId : string) :
  indexOf MS_RESOURCE_DEPLOYMENT rawId = -1 ->
  indexOf ("-" ++ T) rawId = -1 ->
  convertId T rawId = rawId.
Proof.
  intros H1 H2. unfold convertId.
  rewrite (replace_absent _ _ _ H1). now apply replace_absent.
Qed.

Lemma convertId_without_patterns_witness :
  convertId "AppService"
    "/subscriptions/0/resourceGroups/rg/providers/Microsoft.Web/sites/myapp"
  = "/subscriptions/0/resourceGroups/rg/providers/Microsoft.Web/sites/myapp".
Proof.
  apply (convertId_without_patterns "AppService"); vm_compute; reflexivity.
Defined.

(** X4.  [updateAppSettings] hands the provider one call, for the given
    resource group and web app, whose properties are the pairs of the
    parsed connection string read as in X2, and resolves; when the parser
    throws, the error is the outcome and the provider is not called. *)
Theorem updateAppSettings_sends_pairs
  (parse : string -> Outcome string)
  (resourceGroupName webAppName connectionString : string)
  (kvs : list (string * string)) (last : string) :
  Forall line_safe kvs ->
  indexOf LF last = -1 ->
  (parse connectionString = Resolved (serialize kvs ++ last) ->
   updateAppSettings parse resourceGroupName webAppName connectionString
   = (Resolved tt,
      [ {| settings_resourceGroupName := resourceGroupName;
           settings_webAppName := webAppName;
           settings_properties :=
             list_to_map
               (reverse (filter (fun kv => fst kv <> "__proto__") kvs)) |} ]))
  /\ (forall e, parse connectionString = Rejected e ->
        updateAppSettings parse resourceGroupName webAppName connectionString
        = (Rejected e, [])).
Proof.
  intros Hsafe Hlast. unfold updateAppSettings. split.
  - intros ->. cbv zeta.
    rewrite (convertToSettings_pairs _ _ Hsafe Hlast), foldl_obj_assign.
    now rewrite (right_id_L ∅ (∪)).
  - now intros e ->.
Qed.

Lemma updateAppSettings_sends_pairs_witness :
  updateAppSettings (fun cs => Resolved (serialize [("COSMOSDB_CONNSTR", cs)]))
    "rg" "myapp" "AccountEndpoint=x"
  = (Resolved tt,
     [ {| settings_resourceGroupName := "rg";
          settings_webAppName := "myapp";
          settings_properties :=
            {[ "COSMOSDB_CONNSTR" := "AccountEndpoint=x" ]} |} ])
  /\ updateAppSettings (fun _ => Rejected (PlainError "bad connection string"))
       "rg" "myapp" "AccountEndpoint=x"
     = (Rejected (PlainError "bad connection string"), []).
Proof.
  split.
  - destruct (updateAppSettings_sends_pairs
                (fun cs => Resolved (serialize [("COSMOSDB_CONNSTR", cs)]))
                "rg" "myapp" "AccountEndpoint=x"
                [("COSMOSDB_CONNSTR", "AccountEndpoint=x")] "") as [H _].
    + repeat constructor.
    + reflexivity.
    + rewrite H; [reflexivity|]. unfold serialize. simpl.
      now rewrite !append_empty_r.
  - destruct (updateAppSettings_sends_pairs
                (fun _ => Rejected (PlainError "bad connection string"))
                "rg" "myapp" "AccountEndpoint=x" [] "") as [_ H].
    + constructor.
    + reflexivity.
    + now apply H.
Defined.

(** ** What an operation may write *)

Lemma same_statics_log c st : same_statics st (log c st).
Proof. split; [reflexivity | intros kind; apply cache_of_log]. Qed.

Lemma trace_only_ret {A} (a : A) : trace_only (ret a).
Proof. intros st. split; reflexivity. Qed.

Lemma trace_only_throw {A} e : trace_only (@throw A e).
Proof. intros st. split; reflexivity. Qed.

Lemma trace_only_await {A} c (o : Outcome A) : trace_only (await c o).
Proof. intros st. apply same_statics_log. Qed.

Lemma trace_only_cached slot : trace_only (cached slot).
Proof. intros st. unfold cached. destruct (slot st); split; reflexivity. Qed.

Lemma trace_only_bind {A B} (m : M A) (k : A -> M B) :
  trace_only m -> (forall a, trace_only (k a)) -> trace_only (bind m k).
Proof.
  intros Hm Hk st. unfold bind. specialize (Hm st).
  destruct (m st) as [[a|e] st1]; simpl in Hm; [|exact Hm].
  specialize (Hk a st1). destruct Hm as [Hl Hc], Hk as [Hl' Hc'].
  split; [congruence | intros kind; now rewrite Hc', Hc].
Qed.

Lemma trace_only_rejectInvalidReason r : trace_only (rejectInvalidReason r).
Proof.
  unfold rejectInvalidReason.
  destruct (negb (is_undefined r) && strict_eq r "");
    [apply trace_only_throw | apply trace_only_ret].
Qed.

Lemma trace_only_generateResourceGroupSelection K w g s :
  trace_only (generateResourceGroupSelection K w g s).
Proof.
  intros st. rewrite generateResourceGroupSelection_unfold.
  destruct (IsMicrosoftLearnSubscription K s); [|split; reflexivity].
  destruct (GetResourceGroups w s) as [[|first rest]|e]; apply same_statics_log.
Qed.

Lemma trace_only_Promise_all {A} (ms : list (M A)) :
  Forall trace_only ms -> trace_only (Promise_all ms).
Proof.
  induction 1 as [|m ms Hm _ IH]; intros st; simpl; [split; reflexivity|].
  specialize (Hm st). destruct (m st) as [o st1]. simpl in Hm.
  specialize (IH st1). destruct (Promise_all ms st1) as [os st2]. simpl in *.
  destruct Hm as [Hl Hc], IH as [Hl' Hc'].
  split; [congruence | intros kind; now rewrite Hc', Hc].
Qed.

Lemma trace_only_gets {A} (f : State -> A) : trace_only (gets f).
Proof. intros st. split; reflexivity. Qed.

Lemma writes_of_trace_only {A} kinds (m : M A) :
  trace_only m -> writes_only kinds m.
Proof.
  intros Hm st. destruct (Hm st) as [Hl Hc]. split.
  - split; [exact Hl | intros kind c; rewrite Hc; auto].
  - intros kind _. apply Hc.
Qed.

Lemma writes_updateCache K kind l kinds :
  kind ∈ kinds -> writes_only kinds (updateCache K kind l).
Proof.
  intros Hin st. pose proof (updateCache_effect K kind l st) as Heff.
  destruct (updateCache K kind l st) as [o st1]. simpl.
  destruct Heff as (Hlist & _ & Hother & Hres & Hrej).
  split; [split; [exact Hlist|]|].
  - intros kind' c Hc.
    destruct o as [u|e]; [|rewrite (Hrej eq_refl) in Hc; auto].
    destruct (decide (kind' = kind)) as [->|Hne].
    + destruct (Hres eq_refl) as (c0 & Hc0 & _ & [Hold|Hf]).
      * left. congruence.
      * right. apply find_label_Some in Hf as [_ Hin']. congruence.
    + left. now rewrite <- (Hother _ Hne).
  - intros kind' Hnin. apply Hother. intros ->. contradiction.
Qed.

Lemma writes_bind {A B} kinds (m : M A) (k : A -> M B) :
  writes_only kinds m -> (forall a, writes_only kinds (k a)) ->
  writes_only kinds (bind m k).
Proof.
  intros Hm Hk st. unfold bind. specialize (Hm st).
  destruct (m st) as [[a|e] st1]; simpl in Hm; [|exact Hm].
  specialize (Hk a st1). destruct Hm as [[Hl Hc] Ho], Hk as [[Hl' Hc'] Ho'].
  split; [split; [congruence|]|].
  - intros kind c Hin.
    destruct (Hc' _ _ Hin) as [Hold|Hlist]; [now apply Hc|].
    right. now rewrite <- Hl.
  - intros kind Hnin. now rewrite (Ho' _ Hnin), (Ho _ Hnin).
Qed.

Lemma caches_from_list_invariant st st' :
  caches_from_list st st' -> cache_invariant st -> cache_invariant st'.
Proof.
  intros [Hl Hc] Hinv kind c Hin. rewrite Hl.
  destruct (Hc _ _ Hin) as [Hold|Hlist]; [now apply (Hinv kind) | exact Hlist].
Qed.

Ltac writes :=
  cbv beta iota zeta;
  lazymatch goal with
  | |- writes_only _ (bind _ _) => apply writes_bind; [writes | intros ?; writes]
  | |- writes_only _ (await _ _) => apply writes_of_trace_only, trace_only_await
  | |- writes_only _ (ret _) => apply writes_of_trace_only, trace_only_ret
  | |- writes_only _ (throw _) => apply writes_of_trace_only, trace_only_throw
  | |- writes_only _ (cached _) => apply writes_of_trace_only, trace_only_cached
  | |- writes_only _ (gets _) => apply writes_of_trace_only, trace_only_gets
  | |- writes_only _ (rejectInvalidReason _) =>
      apply writes_of_trace_only, trace_only_rejectInvalidReason
  | |- writes_only _ (updateAppServiceSubscriptionItemCache ?K ?l) =>
      apply (writes_updateCache K AppService l); set_solver
  | |- writes_only _ (updateCosmosDBSubscriptionItemCache ?K ?l) =>
      apply (writes_updateCache K Cosmos l); set_solver
  | |- writes_only _ (updateFunctionSubscriptionItemCache ?K ?l) =>
      apply (writes_updateCache K Functions l); set_solver
  | |- writes_only _ (Promise_all _) =>
      apply writes_of_trace_only, trace_only_Promise_all, Forall_forall;
      intros ? [? [-> _]]%list_elem_of_fmap;
      apply trace_only_generateResourceGroupSelection
  | |- writes_only _ (if ?b then _ else _) => destruct b; writes
  | |- writes_only _ (match ?x with _ => _ end) => destruct x; writes
  end.

Lemma writes_operation K w op :
  refreshing op = false ->
  exists A (m : M A),
    (forall st, after K w op st = snd (m st)) /\ writes_only (slots_of op) m.
Proof.
  intros Hr.
  destruct op as [command msg|p|selections appPath|selections genPath|p
                  |selections|projectName s azureType]; simpl in *.
  - exists IPayloadResponse, (clientCommandMap K command w msg).
    split; [reflexivity|].
    destruct command; try discriminate Hr; simpl.
    + unfold performLogout. writes.
    + unfold sendCosmosSubscriptionDataToClient, getSubscriptionData. writes.
    + unfold sendAppServiceSubscriptionDataToClient, getSubscriptionData. writes.
    + unfold GetValidAppServiceName. writes.
    + unfold GetValidCosmosName. writes.
    + unfold sendFunctionNameValidationStatusToClient. writes.
    + unfold sendCosmosNameValidationStatusToClient. writes.
    + unfold sendAppServiceNameValidationStatusToClient. writes.
  - eexists _, (deployWebApp K w p). split; [reflexivity|].
    unfold deployWebApp. writes.
  - eexists _, (deployFunctionApp K w selections appPath). split; [reflexivity|].
    unfold deployFunctionApp. writes.
  - eexists _, (deployCosmosResource K w selections genPath).
    split; [reflexivity|]. unfold deployCosmosResource. writes.
  - eexists _, (generateDistinctResourceGroupSelections K w p).
    split; [reflexivity|]. unfold generateDistinctResourceGroupSelections. writes.
  - eexists _, (deployResourceGroup K w selections). split; [reflexivity|].
    unfold deployResourceGroup. writes.
  - eexists _, (validateNameForAzureType w projectName s azureType).
    split; [reflexivity|]. unfold validateNameForAzureType. writes.
Qed.

(** X5.  No operation other than the two refreshes changes
    [subscriptionItemList]; each operation leaves every cache slot outside
    its own kinds exactly as it was (a name validation or a deployment has
    one kind, the planner the kinds its payload selects, the others none);
    and if every cached item was in the list before, every cached item is
    in the list after. *)
Theorem operations_write_their_own_slots
  (K : Constants) (w : Oracle) (op : Operation) (st : State) :
  refreshing op = false ->
  subscriptionItemList (after K w op st) = subscriptionItemList st
  /\ (forall kind, kind ∉ slots_of op ->
        cache_of kind (after K w op st) = cache_of kind st)
  /\ (cache_invariant st -> cache_invariant (after K w op st)).
Proof.
  intros Hr. destruct (writes_operation K w op Hr) as (A & m & Hafter & Hm).
  rewrite Hafter. destruct (Hm st) as [Hfrom Hother].
  split; [apply Hfrom|]. split; [exact Hother|].
  now apply caches_from_list_invariant.
Qed.

Lemma operations_write_their_own_slots_witness :
  let st := set_cache Cosmos Sample.subB (Sample.session [Sample.subA; Sample.subB]) in
  let st' := after Sample.K0 Scenario.fine
               (OpDeployWebApp (Scenario.webPayload "A")) st in
  subscriptionItemList st' = [Sample.subA; Sample.subB]
  /\ cache_of Cosmos st' = Some Sample.subB
  /\ cache_invariant st'.
Proof.
  cbv zeta.
  destruct (operations_write_their_own_slots Sample.K0 Scenario.fine
              (OpDeployWebApp (Scenario.webPayload "A"))
              (set_cache Cosmos Sample.subB
                 (Sample.session [Sample.subA; Sample.subB])))
    as (Hl & Ho & Hinv); [reflexivity|].
  split; [exact Hl|]. split.
  - rewrite (Ho Cosmos); [reflexivity | compute_done].
  - apply Hinv. intros kind c Hc.
    destruct kind; try discriminate. injection Hc as <-. compute_done.
Defined.

(** ** Refreshing the list *)

(** X6.  A status query of a user without e-mail resolves with a [null]
    payload, makes no call and leaves the state as it is.  For a user with
    e-mail the subscriptions are fetched: if that fails, the error is the
    outcome and the list stays; if it resolves, the list becomes the
    fetched one, the caches stay, and the payload shows the scope and one
    entry per fetched subscription, in order, with its label as label and
    value and its tenant classification. *)
Theorem user_status_outcomes
  (K : Constants) (w : Oracle) (msg : Message.t) (st : State) :
  (truthy (AzureAuth_getEmail w) = false ->
   sendUserStatusIfLoggedIn K w msg st = (Resolved {| payload := JNull |}, st))
  /\ (truthy (AzureAuth_getEmail w) = true ->
      forall e, AzureAuth_getSubscriptions w = Rejected e ->
        sendUserStatusIfLoggedIn K w msg st
        = (Rejected e, log CallGetSubscriptions st))
  /\ (truthy (AzureAuth_getEmail w) = true ->
      forall subs, AzureAuth_getSubscriptions w = Resolved subs ->
        exists resp,
          sendUserStatusIfLoggedIn K w msg st
          = (Resolved resp,
             set_subscriptionItemList subs (log CallGetSubscriptions st))
          /\ js_get (payload resp) "scope" = Message.payload_scope msg
          /\ js_get (payload resp) "email" = js_of_reason (AzureAuth_getEmail w)
          /\ js_get (payload resp) "subscriptions"
             = JArray (map (subscriptionToDisplay K) subs)).
Proof.
  unfold sendUserStatusIfLoggedIn. unfold_monad. repeat split.
  - now intros ->.
  - intros -> e ->. reflexivity.
  - intros -> subs ->. eexists. split; [reflexivity|]. repeat split.
Qed.

Lemma user_status_outcomes_witness :
  sendUserStatusIfLoggedIn Sample.K0
    (Scenario.oracle (Resolved true) None (Resolved [Sample.subA])
       (Resolved None) (Resolved None) {| isValid := true; message := "" |})
    (Sample.msg "") (Sample.session [Sample.subB])
  = (Resolved {| payload := JNull |}, Sample.session [Sample.subB])
  /\ sendUserStatusIfLoggedIn Sample.K0
       (Scenario.oracle (Resolved true) (Some "dev@example.com")
          (Rejected (ExternalError "offline"))
          (Resolved None) (Resolved None) {| isValid := true; message := "" |})
       (Sample.msg "") (Sample.session [Sample.subB])
     = (Rejected (ExternalError "offline"),
        log CallGetSubscriptions (Sample.session [Sample.subB]))
  /\ subscriptionItemList
       (snd (sendUserStatusIfLoggedIn Sample.K0 Scenario.fine (Sample.msg "")
               (Sample.session [Sample.subB])))
     = [Sample.subA; Sample.subLearn].
Proof.
  split; [|split].
  - apply user_status_outcomes. reflexivity.
  - apply user_status_outcomes; reflexivity.
  - destruct (user_status_outcomes Sample.K0 Scenario.fine (Sample.msg "")
                (Sample.session [Sample.subB])) as (_ & _ & H).
    destruct (H eq_refl [Sample.subA; Sample.subLearn] eq_refl) as (resp & -> & _).
    reflexivity.
Defined.

Lemma sendUserStatus_without_email K w msg st :
  truthy (AzureAuth_getEmail w) = false ->
  sendUserStatusIfLoggedIn K w msg st = (Resolved {| payload := JNull |}, st).
Proof. unfold sendUserStatusIfLoggedIn. now intros ->. Qed.

(** X7.  [Login] logs in first.  If the login does not complete, the
    handler throws [AuthorizationError] with the timeout message; if the
    login call itself fails, its error is the outcome; in both cases the
    subscriptions are not fetched and the list and the caches stay.  After
    a completed login the handler is the status query, run after the login
    call; so a completed login of a user without e-mail resolves with a
    [null] payload. *)
Theorem login_outcomes
  (K : Constants) (w : Oracle) (msg : Message.t) (st : State) :
  (AzureAuth_login w = Resolved false ->
   performLoginForSubscriptions K w msg st
   = (Rejected (AuthorizationError (ERRORS_LOGIN_TIMEOUT K)), log CallLogin st))
  /\ (forall e, AzureAuth_login w = Rejected e ->
        performLoginForSubscriptions K w msg st = (Rejected e, log CallLogin st))
  /\ (AzureAuth_login w = Resolved true ->
      performLoginForSubscriptions K w msg st
      = sendUserStatusIfLoggedIn K w msg (log CallLogin st))
  /\ (AzureAuth_login w = Resolved true ->
      truthy (AzureAuth_getEmail w) = false ->
      performLoginForSubscriptions K w msg st
      = (Resolved {| payload := JNull |}, log CallLogin st)).
Proof.
  unfold performLoginForSubscriptions. unfold bind, await. repeat split.
  - now intros ->.
  - now intros e ->.
  - now intros ->.
  - intros -> He. now apply sendUserStatus_without_email.
Qed.

Lemma login_outcomes_witness :
  performLoginForSubscriptions Sample.K0
    (Scenario.oracle (Resolved false) (Some "dev@example.com")
       (Resolved [Sample.subA]) (Resolved None) (Resolved None)
       {| isValid := true; message := "" |})
    (Sample.msg "") (Sample.session [Sample.subB])
  = (Rejected (AuthorizationError "login timeout"),
     log CallLogin (Sample.session [Sample.subB]))
  /\ performLoginForSubscriptions Sample.K0
       (Scenario.oracle (Resolved true) None
          (Resolved [Sample.subA]) (Resolved None) (Resolved None)
          {| isValid := true; message := "" |})
       (Sample.msg "") (Sample.session [Sample.subB])
     = (Resolved {| payload := JNull |},
        log CallLogin (Sample.session [Sample.subB])).
Proof.
  split.
  - destruct (login_outcomes Sample.K0
                (Scenario.oracle (Resolved false) (Some "dev@example.com")
                   (Resolved [Sample.subA]) (Resolved None) (Resolved None)
                   {| isValid := true; message := "" |})
                (Sample.msg "") (Sample.session [Sample.subB])) as (H & _).
    now apply H.
  - destruct (login_outcomes Sample.K0
                (Scenario.oracle (Resolved true) None
                   (Resolved [Sample.subA]) (Resolved None) (Resolved None)
                   {| isValid := true; message := "" |})
                (Sample.msg "") (Sample.session [Sample.subB]))
      as (_ & _ & _ & H).
    now apply H.
Defined.

(** ** Subscription data *)

(** X8.  The two subscription-data handlers look the label up in the list,
    never in a cache.  For a label that is not in the list they throw
    [SubscriptionError], make no call and change nothing.  For a label in
    the list they list the subscription's resource groups and then its
    locations, App Service locations for the one and Cosmos locations for
    the other, and answer with both as label/value pairs in the provider's
    order; the Cosmos handler also asks for a valid name, last, and adds
    it. *)
Theorem subscription_data_outcomes
  (K : Constants) (w : Oracle) (msg : Message.t) (st : State) :
  (find_label (Message.subscription msg) (subscriptionItemList st) = None ->
   sendAppServiceSubscriptionDataToClient K w msg st
   = (Rejected (SubscriptionError (ERRORS_SUBSCRIPTION_NOT_FOUND K)), st)
   /\ sendCosmosSubscriptionDataToClient K w msg st
      = (Rejected (SubscriptionError (ERRORS_SUBSCRIPTION_NOT_FOUND K)), st))
  /\ (forall s groups locations,
        find_label (Message.subscription msg) (subscriptionItemList st) = Some s ->
        AzureAuth_getAllResourceGroupItems w s = Resolved groups ->
        AzureAuth_getLocationsForApp w s = Resolved locations ->
        sendAppServiceSubscriptionDataToClient K w msg st
        = (Resolved
             {| payload :=
                  JObject
                    [("resourceGroups",
                      JArray (map (fun g => label_value (name g)) groups));
                     ("locations",
                      JArray (map (fun l => label_value (locationDisplayName l))
                                  locations));
                     ("scope", Message.payload_scope msg)] |},
           log_all [CallGetAllResourceGroupItems s; CallGetLocationsForApp s] st))
  /\ (forall s groups locations validName,
        find_label (Message.subscription msg) (subscriptionItemList st) = Some s ->
        AzureAuth_getAllResourceGroupItems w s = Resolved groups ->
        AzureAuth_getLocationsForCosmos w s = Resolved locations ->
        generateValidAzureTypeName w (Message.projectName msg) Cosmos
        = Resolved validName ->
        sendCosmosSubscriptionDataToClient K w msg st
        = (Resolved
             {| payload :=
                  JObject
                    [("resourceGroups",
                      JArray (map (fun g => label_value (name g)) groups));
                     ("locations",
                      JArray (map (fun l => label_value (locationDisplayName l))
                                  locations));
                     ("validName", JString validName);
                     ("scope", Message.payload_scope msg)] |},
           log_all [CallGetAllResourceGroupItems s; CallGetLocationsForCosmos s;
                    CallGenerateValidAzureTypeName (Message.projectName msg) Cosmos]
                   st)).
Proof.
  unfold sendAppServiceSubscriptionDataToClient,
    sendCosmosSubscriptionDataToClient, getSubscriptionData.
  unfold_monad. repeat split.
  - now rewrite H.
  - now rewrite H.
  - intros s groups locations -> -> ->. reflexivity.
  - intros s groups locations validName -> -> -> ->. reflexivity.
Qed.

Lemma subscription_data_outcomes_witness :
  sendAppServiceSubscriptionDataToClient Sample.K0 Scenario.fine (Sample.msg "A")
    (set_cache AppService Sample.subA (Sample.session [Sample.subB]))
  = (Rejected (SubscriptionError "subscription not found"),
     set_cache AppService Sample.subA (Sample.session [Sample.subB]))
  /\ fst (sendCosmosSubscriptionDataToClient Sample.K0 Scenario.fine
            (Sample.msg "A") (Sample.session [Sample.subA]))
     = Resolved
         {| payload :=
              JObject
                [("resourceGroups",
                  JArray [label_value "rg-one"; label_value "rg-two"]);
                 ("locations", JArray [label_value "West Europe"]);
                 ("validName", JString "myapp");
                 ("scope", JString "wizard-7")] |}.
Proof.
  split.
  - apply (subscription_data_outcomes Sample.K0 Scenario.fine (Sample.msg "A")).
    reflexivity.
  - destruct (subscription_data_outcomes Sample.K0 Scenario.fine (Sample.msg "A")
                (Sample.session [Sample.subA])) as (_ & _ & H).
    rewrite (H Sample.subA _ _ "myapp" eq_refl eq_refl eq_refl eq_refl).
    reflexivity.
Defined.

(** ** Validating twice *)

Lemma updateCache_hit K kind l st c :
  cache_of kind st = Some c -> label c = l ->
  updateCache K kind l st = (Resolved tt, st).
Proof.
  intros Hc Hl. rewrite updateCache_unfold.
  assert (Hm : cache_miss (cache_of kind st) l = false)
    by (apply cache_miss_false; eauto).
  now rewrite Hm.
Qed.

(** X9.  A cache update repeated on the state it left gives the same
    outcome and that same state: after a resolved update the slot carries
    the label, and a rejected update changed nothing. *)
Theorem update_twice (K : Constants) (kind : AzureResourceType) (l : string)
  (st : State) :
  updateCache K kind l (snd (updateCache K kind l st)) = updateCache K kind l st.
Proof.
  destruct (updateCache K kind l st) as [[[]|e] st1] eqn:Hu; simpl.
  - destruct (update_resolved_defined _ _ _ _ _ _ Hu) as (c & Hc & Hl).
    now apply (updateCache_hit K kind l st1 c).
  - apply updateCache_rejection in Hu as Hu'. destruct Hu' as [_ ->]. exact Hu.
Qed.

(** X10.  Name validation is idempotent against an unchanged provider: a
    second run of a name-validation handler with the same message and the
    same answers gives the same outcome as the first, and changes neither
    the list nor any cache slot. *)
Theorem name_validation_twice
  (K : Constants) (kind : AzureResourceType) (w : Oracle) (msg : Message.t)
  (st : State) :
  fst (clientCommandMap K (nameCommand kind) w msg
         (snd (clientCommandMap K (nameCommand kind) w msg st)))
  = fst (clientCommandMap K (nameCommand kind) w msg st)
  /\ same_statics (snd (clientCommandMap K (nameCommand kind) w msg st))
       (snd (clientCommandMap K (nameCommand kind) w msg
               (snd (clientCommandMap K (nameCommand kind) w msg st)))).
Proof.
  rewrite (nameHandler_unfold K kind w msg st).
  destruct (updateCache K kind (Message.subscription msg) st) as [[[]|e] st1] eqn:Hu.
  - destruct (update_resolved_defined _ _ _ _ _ _ Hu) as (c & Hc & Hl).
    rewrite Hc. cbv zeta.
    set (st2 := log (nameCheckCall kind (Message.appName msg) c) st1).
    assert (Hc2 : cache_of kind st2 = Some c) by (unfold st2; now rewrite cache_of_log).
    assert (Hrun : clientCommandMap K (nameCommand kind) w msg st2
                   = match nameCheck w kind (Message.appName msg) c with
                     | Resolved r =>
                         (Resolved {| payload :=
                            nameValidationPayload kind (Message.payload_scope msg) r |},
                          log (nameCheckCall kind (Message.appName msg) c) st2)
                     | Rejected e =>
                         (Rejected e,
                          log (nameCheckCall kind (Message.appName msg) c) st2)
                     end).
    { rewrite nameHandler_unfold.
      rewrite (updateCache_hit K kind _ st2 c Hc2 Hl), Hc2.
      now destruct (nameCheck w kind (Message.appName msg) c). }
    destruct (nameCheck w kind (Message.appName msg) c) as [r|e]; simpl;
      rewrite Hrun; simpl; (split; [reflexivity | apply same_statics_log]).
  - apply updateCache_rejection in Hu as Hu'. destruct Hu' as [_ ->]. simpl.
    rewrite nameHandler_unfold, Hu. simpl. split; [reflexivity|].
    split; reflexivity.
Qed.

(** X11.  [validateNameForAzureType] calls the check of the kind on the
    subscription it is given and reads no cache.  When the check resolves,
    its answer is [true] exactly for the reason [undefined]; it agrees with
    the handlers' [isAvailable] on every reason but the empty string,
    which it counts as invalid and they count as available. *)
Theorem validateNameForAzureType_outcomes
  (w : Oracle) (projectName : string) (s : SubscriptionItem)
  (azureType : AzureResourceType) (st : State) (r : option string) :
  nameCheck w azureType projectName s = Resolved r ->
  exists b,
    validateNameForAzureType w projectName s azureType st
    = (Resolved b, log (nameCheckCall azureType projectName s) st)
    /\ (b = true <-> r = None)
    /\ (b = isAvailable_of r <-> r <> Some "").
Proof.
  intros H. exists (is_undefined r). split.
  - unfold validateNameForAzureType. unfold_monad.
    destruct azureType; simpl in H; rewrite H; reflexivity.
  - destruct r as [x|]; simpl.
    + split; [split; discriminate|].
      unfold isAvailable_of. simpl.
      destruct (String.eqb x "") eqn:E; simpl.
      * apply String.eqb_eq in E. subst. split; [discriminate | congruence].
      * apply String.eqb_neq in E. split; [congruence | reflexivity].
    + split; [tauto|]. split; [discriminate | reflexivity].
Qed.

Lemma validateNameForAzureType_outcomes_witness :
  exists b,
    validateNameForAzureType
      (Sample.oracle [] (Some "") []) "myapp" Sample.subA AppService initial
    = (Resolved b, log (CallCheckWebAppName "myapp" Sample.subA) initial)
    /\ b = false /\ isAvailable_of (Some "") = true.
Proof.
  destruct (validateNameForAzureType_outcomes
              (Sample.oracle [] (Some "") []) "myapp" Sample.subA AppService
              initial (Some "") eq_refl) as (b & Hrun & _ & _).
  exists b. split; [exact Hrun|].
  split; [|reflexivity]. vm_compute in Hrun. now injection Hrun as <-.
Defined.

(** ** The course of a deployment *)

(** [deployWebApp], step by step. *)
Lemma deployWebApp_unfold K w p st :
  deployWebApp K w p st =
  match updateCache K AppService (Payload.appService_subscription p) st with
  | (Rejected e, st1) => (Rejected e, st1)
  | (Resolved _, st1) =>
      let c1 := CallGenerateValidASPName (Payload.engine_projectName p) in
      match generateValidASPName w (Payload.engine_projectName p) with
      | Rejected e => (Rejected e, log c1 st1)
      | Resolved aspName =>
          match cache_of AppService st1 with
          | None => (Rejected TypeError, log c1 st1)
          | Some cache =>
              let c2 := CallGetResourceGroupItem
                          (Payload.appService_resourceGroup p) cache in
              match AzureAuth_getResourceGroupItem w
                      (Payload.appService_resourceGroup p) cache with
              | Rejected e => (Rejected e, log_all [c1; c2] st1)
              | Resolved resourceGroupItem =>
                  let sel := userAppServiceSelection K p cache
                               resourceGroupItem aspName in
                  let c3 := CallCheckWebAppName
                              (Payload.appService_siteName p) cache in
                  match checkWebAppName w (Payload.appService_siteName p) cache with
                  | Rejected e => (Rejected e, log_all [c1; c2; c3] st1)
                  | Resolved invalidReason =>
                      if decide (invalidReason = Some "") then
                        (Rejected (ValidationError ""), log_all [c1; c2; c3] st1)
                      else
                        let c4 := CallCreateWebApp sel (Payload.engine_path p) in
                        match createWebApp w sel (Payload.engine_path p) with
                        | Rejected e => (Rejected e, log_all [c1; c2; c3; c4] st1)
                        | Resolved result =>
                            (if truthy result then
                               Resolved (convertId (AzureResourceType_AppService K)
                                           (default "" result))
                             else
                               Rejected (PlainError
                                           (ERRORS_APP_SERVICE_UNDEFINED_ID K)),
                             log_all [c1; c2; c3; c4] st1)
                        end
                  end
              end
          end
      end
  end.
Proof.
  unfold deployWebApp. unfold bind at 1.
  change (updateAppServiceSubscriptionItemCache K) with (updateCache K AppService).
  destruct (updateCache K AppService _ st) as [[[]|e] st1]; [|reflexivity].
  unfold bind, await, cached, ret, throw. cbv zeta.
  destruct (generateValidASPName w _) as [aspName|e]; [|reflexivity].
  change (usersAppServiceSubscriptionItemCache
            (log (CallGenerateValidASPName (Payload.engine_projectName p)) st1))
    with (cache_of AppService st1).
  destruct (cache_of AppService st1) as [cache|]; [|reflexivity].
  destruct (AzureAuth_getResourceGroupItem w _ cache) as [rgi|e]; [|reflexivity].
  simpl AppServiceSelections.siteName. simpl AppServiceSelections.subscriptionItem.
  destruct (checkWebAppName w _ cache) as [r|e]; [|reflexivity].
  rewrite rejectInvalidReason_spec.
  destruct (decide (r = Some "")); [reflexivity|].
  fold (planned_sku K cache).
  change {| AppServiceSelections.siteName := Payload.appService_siteName p;
            AppServiceSelections.subscriptionItem := cache;
            AppServiceSelections.resourceGroupItem := rgi;
            AppServiceSelections.appServicePlanName := aspName;
            AppServiceSelections.tier := sku_tier (planned_sku K cache);
            AppServiceSelections.sku := sku_name (planned_sku K cache);
            AppServiceSelections.linuxFxVersion :=
              BackendFrameworkLinuxVersion K (Payload.engine_backendFramework p);
            AppServiceSelections.location := AZURE_LOCATION_CENTRAL_US K |}
    with (userAppServiceSelection K p cache rgi aspName).
  destruct (createWebApp w _ _) as [result|e]; [|reflexivity].
  destruct (truthy result); reflexivity.
Qed.

(** [deployFunctionApp], step by step. *)
Lemma deployFunctionApp_unfold K w selections appPath st :
  deployFunctionApp K w selections appPath st =
  match updateCache K Functions (FunctionInput.subscription selections) st with
  | (Rejected e, st1) => (Rejected e, st1)
  | (Resolved _, st1) =>
      match cache_of Functions st1 with
      | None => (Rejected TypeError, st1)
      | Some cache =>
          let c1 := CallGetResourceGroupItem
                      (FunctionInput.resourceGroup selections) cache in
          match AzureAuth_getResourceGroupItem w
                  (FunctionInput.resourceGroup selections) cache with
          | Rejected e => (Rejected e, log c1 st1)
          | Resolved resourceGroupItem =>
              let sel := userFunctionsSelections selections cache
                           resourceGroupItem in
              let validation :=
                validateFunctionNames w (FunctionInput.functionNames selections) in
              if isValid validation then
                let c2 := CallCheckFunctionAppName
                            (FunctionInput.appName selections) cache in
                match checkFunctionAppName w
                        (FunctionInput.appName selections) cache with
                | Rejected e => (Rejected e, log_all [c1; c2] st1)
                | Resolved invalidReason =>
                    if decide (invalidReason = Some "") then
                      (Rejected (ValidationError ""), log_all [c1; c2] st1)
                    else
                      (createFunctionApp w sel appPath,
                       log_all [c1; c2; CallCreateFunctionApp sel appPath] st1)
                end
              else (Rejected (ValidationError (message validation)), log c1 st1)
          end
      end
  end.
Proof.
  unfold deployFunctionApp. unfold bind at 1.
  change (updateFunctionSubscriptionItemCache K) with (updateCache K Functions).
  destruct (updateCache K Functions _ st) as [[[]|e] st1]; [|reflexivity].
  unfold bind, await, cached, ret, throw. cbv zeta.
  change (usersFunctionSubscriptionItemCache st1) with (cache_of Functions st1).
  destruct (cache_of Functions st1) as [cache|]; [|reflexivity].
  destruct (AzureAuth_getResourceGroupItem w _ cache) as [rgi|e]; [|reflexivity].
  cbn [FunctionSelections.functionNames FunctionSelections.functionAppName
       FunctionSelections.subscriptionItem].
  destruct (isValid (validateFunctionNames w _)); [|reflexivity].
  change (negb true) with false. cbv iota.
  destruct (checkFunctionAppName w _ cache) as [r|e]; [|reflexivity].
  rewrite rejectInvalidReason_spec.
  destruct (decide (r = Some "")); reflexivity.
Qed.

(** [deployCosmosResource], step by step. *)
Lemma deployCosmosResource_unfold K w selections genPath st :
  deployCosmosResource K w selections genPath st =
  match updateCache K Cosmos (CosmosInput.subscription selections) st with
  | (Rejected e, st1) => (Rejected e, st1)
  | (Resolved _, st1) =>
      match cache_of Cosmos st1 with
      | None => (Rejected TypeError, st1)
      | Some cache =>
          let c1 := CallGetResourceGroupItem
                      (CosmosInput.resourceGroup selections) cache in
          match AzureAuth_getResourceGroupItem w
                  (CosmosInput.resourceGroup selections) cache with
          | Rejected e => (Rejected e, log c1 st1)
          | Resolved resourceGroupItem =>
              let sel := userCosmosDBSelection K selections cache
                           resourceGroupItem in
              let c2 := CallValidateCosmosDBAccountName
                          (CosmosInput.accountName selections) cache in
              match validateCosmosDBAccountName w
                      (CosmosInput.accountName selections) cache with
              | Rejected e => (Rejected e, log_all [c1; c2] st1)
              | Resolved invalidReason =>
                  if decide (invalidReason = Some "") then
                    (Rejected (ValidationError ""), log_all [c1; c2] st1)
                  else
                    (createCosmosDB w sel genPath,
                     log_all [c1; c2; CallCreateCosmosDB sel genPath] st1)
              end
          end
      end
  end.
Proof.
  unfold deployCosmosResource. unfold bind at 1.
  change (updateCosmosDBSubscriptionItemCache K) with (updateCache K Cosmos).
  destruct (updateCache K Cosmos _ st) as [[[]|e] st1]; [|reflexivity].
  unfold bind, await, cached, ret, throw. cbv zeta.
  change (usersCosmosDBSubscriptionItemCache st1) with (cache_of Cosmos st1).
  destruct (cache_of Cosmos st1) as [cache|]; [|reflexivity].
  destruct (AzureAuth_getResourceGroupItem w _ cache) as [rgi|e]; [|reflexivity].
  cbn [CosmosDBSelections.cosmosDBResourceName
       CosmosDBSelections.subscriptionItem].
  destruct (validateCosmosDBAccountName w _ cache) as [r|e]; [|reflexivity].
  rewrite rejectInvalidReason_spec.
  destruct (decide (r = Some "")); reflexivity.
Qed.

(** X12.  A deployment whose subscription label is neither the cached one
    nor in the list throws [SubscriptionError] before anything else
    happens: no call is made and the state is as it was.  This holds for
    the three deployments alike. *)
Theorem deployment_unknown_subscription
  (K : Constants) (w : Oracle) (st : State)
  (p : Payload.t) (fn : FunctionInput.t) (db : CosmosInput.t) (path : string) :
  (cache_miss (cache_of AppService st) (Payload.appService_subscription p) = true ->
   find_label (Payload.appService_subscription p) (subscriptionItemList st) = None ->
   deployWebApp K w p st
   = (Rejected (SubscriptionError (ERRORS_SUBSCRIPTION_NOT_FOUND K)), st))
  /\ (cache_miss (cache_of Functions st) (FunctionInput.subscription fn) = true ->
      find_label (FunctionInput.subscription fn) (subscriptionItemList st) = None ->
      deployFunctionApp K w fn path st
      = (Rejected (SubscriptionError (ERRORS_SUBSCRIPTION_NOT_FOUND K)), st))
  /\ (cache_miss (cache_of Cosmos st) (CosmosInput.subscription db) = true ->
      find_label (CosmosInput.subscription db) (subscriptionItemList st) = None ->
      deployCosmosResource K w db path st
      = (Rejected (SubscriptionError (ERRORS_SUBSCRIPTION_NOT_FOUND K)), st)).
Proof.
  split; [|split]; intros Hm Hf.
  - now rewrite deployWebApp_unfold, updateCache_unfold, Hm, Hf.
  - now rewrite deployFunctionApp_unfold, updateCache_unfold, Hm, Hf.
  - now rewrite deployCosmosResource_unfold, updateCache_unfold, Hm, Hf.
Qed.

Lemma deployment_unknown_subscription_witness :
  deployWebApp Sample.K0 Scenario.fine (Scenario.webPayload "Z")
    (Sample.session [Sample.subA])
  = (Rejected (SubscriptionError "subscription not found"),
     Sample.session [Sample.subA])
  /\ deployFunctionApp Sample.K0 Scenario.fine Sample.functionInput "/tmp/fn"
       (Sample.session [Sample.subB])
     = (Rejected (SubscriptionError "subscription not found"),
        Sample.session [Sample.subB])
  /\ deployCosmosResource Sample.K0 Scenario.fine Sample.cosmosInput "/tmp/db"
       (Sample.session [])
     = (Rejected (SubscriptionError "subscription not found"), Sample.session []).
Proof.
  split; [|split].
  - destruct (deployment_unknown_subscription Sample.K0 Scenario.fine
                (Sample.session [Sample.subA]) (Scenario.webPayload "Z")
                Sample.functionInput Sample.cosmosInput "/tmp/fn") as (H & _).
    apply H; reflexivity.
  - destruct (deployment_unknown_subscription Sample.K0 Scenario.fine
                (Sample.session [Sample.subB]) (Scenario.webPayload "Z")
                Sample.functionInput Sample.cosmosInput "/tmp/fn") as (_ & H & _).
    apply H; reflexivity.
  - destruct (deployment_unknown_subscription Sample.K0 Scenario.fine
                (Sample.session []) (Scenario.webPayload "Z")
                Sample.functionInput Sample.cosmosInput "/tmp/db") as (_ & _ & H).
    apply H; reflexivity.
Defined.

(** X13.  The course of [deployWebApp] once the subscription is resolved
    and the plan name, the resource group and the name check have come
    back with a reason other than the empty string.  It makes those three
    calls and then [createWebApp], in that order, with a selection for the
    cached subscription, the payload's site name, the Central US location,
    and the free tier for a Microsoft Learn tenant, the basic tier
    otherwise.  Its outcome is the creation's error if that fails,
    [convertId] of the id if the creation resolves to a non-empty id, and
    the "undefined id" error if it resolves to nothing, in which case the
    creation call has been made all the same. *)
Theorem deployWebApp_course
  (K : Constants) (w : Oracle) (p : Payload.t) (st st1 : State)
  (cache : SubscriptionItem) (aspName : string) (rgi : ResourceGroupItem)
  (r : option string) :
  updateCache K AppService (Payload.appService_subscription p) st
  = (Resolved tt, st1) ->
  cache_of AppService st1 = Some cache ->
  generateValidASPName w (Payload.engine_projectName p) = Resolved aspName ->
  AzureAuth_getResourceGroupItem w (Payload.appService_resourceGroup p) cache
  = Resolved rgi ->
  checkWebAppName w (Payload.appService_siteName p) cache = Resolved r ->
  r <> Some "" ->
  let sel := userAppServiceSelection K p cache rgi aspName in
  deployWebApp K w p st
  = (match createWebApp w sel (Payload.engine_path p) with
     | Rejected e => Rejected e
     | Resolved None | Resolved (Some "") =>
         Rejected (PlainError (ERRORS_APP_SERVICE_UNDEFINED_ID K))
     | Resolved (Some id) => Resolved (convertId (AzureResourceType_AppService K) id)
     end,
     log_all [CallGenerateValidASPName (Payload.engine_projectName p);
              CallGetResourceGroupItem (Payload.appService_resourceGroup p) cache;
              CallCheckWebAppName (Payload.appService_siteName p) cache;
              CallCreateWebApp sel (Payload.engine_path p)] st1)
  /\ label cache = Payload.appService_subscription p
  /\ AppServiceSelections.siteName sel = Payload.appService_siteName p
  /\ AppServiceSelections.location sel = AZURE_LOCATION_CENTRAL_US K
  /\ (session_tenantId cache ∈ MICROSOFT_LEARN_TENANTS K ->
      AppServiceSelections.tier sel = sku_tier (SKU_DESCRIPTION_FREE K)
      /\ AppServiceSelections.sku sel = sku_name (SKU_DESCRIPTION_FREE K))
  /\ (session_tenantId cache ∉ MICROSOFT_LEARN_TENANTS K ->
      AppServiceSelections.tier sel = sku_tier (SKU_DESCRIPTION_BASIC K)
      /\ AppServiceSelections.sku sel = sku_name (SKU_DESCRIPTION_BASIC K)).
Proof.
  intros Hu Hc Hasp Hrg Hcheck Hr. cbv zeta. split; [|split; [|split; [|split; [|split]]]].
  - rewrite deployWebApp_unfold, Hu, Hasp, Hc, Hrg, Hcheck. cbv zeta.
    rewrite decide_False by exact Hr.
    destruct (createWebApp w _ _) as [[id|]|e]; try reflexivity.
    destruct id; reflexivity.
  - destruct (update_resolved_defined _ _ _ _ _ _ Hu) as (c & Hc' & Hl). congruence.
  - reflexivity.
  - reflexivity.
  - intros Hlearn%IsMicrosoftLearnSubscription_true. simpl. unfold planned_sku.
    now rewrite Hlearn.
  - intros Hother%IsMicrosoftLearnSubscription_false. simpl. unfold planned_sku.
    now rewrite Hother.
Qed.

Lemma deployWebApp_course_witness :
  deployWebApp Sample.K0
    (Scenario.oracle (Resolved true) (Some "dev@example.com") (Resolved [])
       (Resolved None) (Resolved None) {| isValid := true; message := "" |})
    (Scenario.webPayload "L") (Sample.session [Sample.subLearn])
  = (Rejected (PlainError "undefined app service id"),
     log_all
       [CallGenerateValidASPName "myapp";
        CallGetResourceGroupItem "rg" Sample.subLearn;
        CallCheckWebAppName "myapp" Sample.subLearn;
        CallCreateWebApp
          (userAppServiceSelection Sample.K0 (Scenario.webPayload "L")
             Sample.subLearn {| rg_name := "rg"; rg_location := "Central US" |}
             "myapp")
          "/tmp/myapp"]
       (set_cache AppService Sample.subLearn (Sample.session [Sample.subLearn])))
  /\ AppServiceSelections.tier
       (userAppServiceSelection Sample.K0 (Scenario.webPayload "L")
          Sample.subLearn {| rg_name := "rg"; rg_location := "Central US" |}
          "myapp") = "Free".
Proof.
  destruct (deployWebApp_course Sample.K0
              (Scenario.oracle (Resolved true) (Some "dev@example.com")
                 (Resolved []) (Resolved None) (Resolved None)
                 {| isValid := true; message := "" |})
              (Scenario.webPayload "L") (Sample.session [Sample.subLearn])
              (set_cache AppService Sample.subLearn
                 (Sample.session [Sample.subLearn]))
              Sample.subLearn "myapp"
              {| rg_name := "rg"; rg_location := "Central US" |} None)
    as (Hrun & _ & _ & _ & Hfree & _);
    try reflexivity; [discriminate|].
  split; [exact Hrun|]. apply Hfree. compute_done.
Defined.

(** X14.  The course of [deployFunctionApp] once the subscription and the
    resource group are resolved.  The function names are validated first:
    if they are invalid it throws [ValidationError] with the validator's
    message, and neither the name check nor the creation is called.  If
    they are valid and the name check resolves to a reason other than the
    empty string, it calls [createFunctionApp] with a selection for the
    cached subscription that carries the caller's own location, runtime
    and function names, and its outcome is the creation's outcome. *)
Theorem deployFunctionApp_course
  (K : Constants) (w : Oracle) (selections : FunctionInput.t) (appPath : string)
  (st st1 : State) (cache : SubscriptionItem) (rgi : ResourceGroupItem) :
  updateCache K Functions (FunctionInput.subscription selections) st
  = (Resolved tt, st1) ->
  cache_of Functions st1 = Some cache ->
  AzureAuth_getResourceGroupItem w (FunctionInput.resourceGroup selections) cache
  = Resolved rgi ->
  let sel := userFunctionsSelections selections cache rgi in
  let validation :=
    validateFunctionNames w (FunctionInput.functionNames selections) in
  let lookup :=
    CallGetResourceGroupItem (FunctionInput.resourceGroup selections) cache in
  let check :=
    CallCheckFunctionAppName (FunctionInput.appName selections) cache in
  (isValid validation = false ->
   deployFunctionApp K w selections appPath st
   = (Rejected (ValidationError (message validation)), log lookup st1))
  /\ (isValid validation = true ->
      forall r,
        checkFunctionAppName w (FunctionInput.appName selections) cache
        = Resolved r ->
        r <> Some "" ->
        deployFunctionApp K w selections appPath st
        = (createFunctionApp w sel appPath,
           log_all [lookup; check; CallCreateFunctionApp sel appPath] st1))
  /\ FunctionSelections.location sel = FunctionInput.location selections
  /\ FunctionSelections.functionAppName sel = FunctionInput.appName selections
  /\ label (FunctionSelections.subscriptionItem sel)
     = FunctionInput.subscription selections.
Proof.
  intros Hu Hc Hrg. cbv zeta. split; [|split; [|split; [|split]]].
  - intros Hv. rewrite deployFunctionApp_unfold, Hu, Hc, Hrg. cbv zeta.
    now rewrite Hv.
  - intros Hv r Hcheck Hr.
    rewrite deployFunctionApp_unfold, Hu, Hc, Hrg. cbv zeta.
    rewrite Hv, Hcheck. now rewrite decide_False by exact Hr.
  - reflexivity.
  - reflexivity.
  - destruct (update_resolved_defined _ _ _ _ _ _ Hu) as (c & Hc' & Hl).
    simpl. congruence.
Qed.

Lemma deployFunctionApp_course_witness :
  deployFunctionApp Sample.K0
    (Scenario.oracle (Resolved true) (Some "dev@example.com") (Resolved [])
       (Resolved None) (Resolved None)
       {| isValid := false; message := "function names must be unique" |})
    Sample.functionInput "/tmp/fn" (Sample.session [Sample.subA])
  = (Rejected (ValidationError "function names must be unique"),
     log (CallGetResourceGroupItem "rg" Sample.subA)
         (set_cache Functions Sample.subA (Sample.session [Sample.subA])))
  /\ fst (deployFunctionApp Sample.K0 Scenario.fine Sample.functionInput "/tmp/fn"
            (Sample.session [Sample.subA]))
     = Resolved tt.
Proof.
  split.
  - destruct (deployFunctionApp_course Sample.K0
                (Scenario.oracle (Resolved true) (Some "dev@example.com")
                   (Resolved []) (Resolved None) (Resolved None)
                   {| isValid := false; message := "function names must be unique" |})
                Sample.functionInput "/tmp/fn" (Sample.session [Sample.subA])
                (set_cache Functions Sample.subA (Sample.session [Sample.subA]))
                Sample.subA {| rg_name := "rg"; rg_location := "Central US" |}
                eq_refl eq_refl eq_refl)
      as (H & _).
    now apply H.
  - destruct (deployFunctionApp_course Sample.K0 Scenario.fine
                Sample.functionInput "/tmp/fn" (Sample.session [Sample.subA])
                (set_cache Functions Sample.subA (Sample.session [Sample.subA]))
                Sample.subA {| rg_name := "rg"; rg_location := "Central US" |}
                eq_refl eq_refl eq_refl)
      as (_ & H & _).
    rewrite (H eq_refl None eq_refl); [reflexivity | discriminate].
Defined.

(** X15.  The course of [deployCosmosResource] once the subscription and
    the resource group are resolved and the account-name check resolves to
    a reason other than the empty string: it calls [createCosmosDB] with a
    selection for the cached subscription, the caller's API and account
    name and the Central US location, whatever the caller chose, and its
    outcome is the creation's outcome. *)
Theorem deployCosmosResource_course
  (K : Constants) (w : Oracle) (selections : CosmosInput.t) (genPath : string)
  (st st1 : State) (cache : SubscriptionItem) (rgi : ResourceGroupItem)
  (r : option string) :
  updateCache K Cosmos (CosmosInput.subscription selections) st
  = (Resolved tt, st1) ->
  cache_of Cosmos st1 = Some cache ->
  AzureAuth_getResourceGroupItem w (CosmosInput.resourceGroup selections) cache
  = Resolved rgi ->
  validateCosmosDBAccountName w (CosmosInput.accountName selections) cache
  = Resolved r ->
  r <> Some "" ->
  let sel := userCosmosDBSelection K selections cache rgi in
  deployCosmosResource K w selections genPath st
  = (createCosmosDB w sel genPath,
     log_all [CallGetResourceGroupItem (CosmosInput.resourceGroup selections) cache;
              CallValidateCosmosDBAccountName
                (CosmosInput.accountName selections) cache;
              CallCreateCosmosDB sel genPath] st1)
  /\ CosmosDBSelections.location sel = AZURE_LOCATION_CENTRAL_US K
  /\ CosmosDBSelections.cosmosDBResourceName sel = CosmosInput.accountName selections
  /\ CosmosDBSelections.cosmosAPI sel = CosmosInput.api selections
  /\ label (CosmosDBSelections.subscriptionItem sel)
     = CosmosInput.subscription selections.
Proof.
  intros Hu Hc Hrg Hcheck Hr. cbv zeta. split; [|split; [|split; [|split]]].
  - rewrite deployCosmosResource_unfold, Hu, Hc, Hrg. cbv zeta.
    rewrite Hcheck. now rewrite decide_False by exact Hr.
  - reflexivity.
  - reflexivity.
  - reflexivity.
  - destruct (update_resolved_defined _ _ _ _ _ _ Hu) as (c & Hc' & Hl).
    simpl. congruence.
Qed.

Lemma deployCosmosResource_course_witness :
  fst (deployCosmosResource Sample.K0 Scenario.fine Sample.cosmosInput "/tmp/db"
         (Sample.session [Sample.subA]))
  = Resolved {| connectionString := "AccountEndpoint=x" |}
  /\ CosmosDBSelections.location
       (userCosmosDBSelection Sample.K0 Sample.cosmosInput Sample.subA
          {| rg_name := "rg"; rg_location := "Central US" |})
     = "Central US".
Proof.
  destruct (deployCosmosResource_course Sample.K0 Scenario.fine
              Sample.cosmosInput "/tmp/db" (Sample.session [Sample.subA])
              (set_cache Cosmos Sample.subA (Sample.session [Sample.subA]))
              Sample.subA {| rg_name := "rg"; rg_location := "Central US" |} None
              eq_refl eq_refl eq_refl eq_refl ltac:(discriminate))
    as (Hrun & Hloc & _).
  split; [now rewrite Hrun | exact Hloc].
Defined.

(** X16.  When the provider's name check itself fails, each deployment
    fails with that very error and stops there: the check is the last call
    it makes, so nothing is created. *)
Theorem deployment_check_failure (K : Constants) (w : Oracle) (e : Error) :
  (forall p st st1 cache aspName rgi,
     updateCache K AppService (Payload.appService_subscription p) st
     = (Resolved tt, st1) ->
     cache_of AppService st1 = Some cache ->
     generateValidASPName w (Payload.engine_projectName p) = Resolved aspName ->
     AzureAuth_getResourceGroupItem w (Payload.appService_resourceGroup p) cache
     = Resolved rgi ->
     checkWebAppName w (Payload.appService_siteName p) cache = Rejected e ->
     deployWebApp K w p st
     = (Rejected e,
        log_all [CallGenerateValidASPName (Payload.engine_projectName p);
                 CallGetResourceGroupItem (Payload.appService_resourceGroup p) cache;
                 CallCheckWebAppName (Payload.appService_siteName p) cache] st1))
  /\ (forall fn path st st1 cache rgi,
        updateCache K Functions (FunctionInput.subscription fn) st
        = (Resolved tt, st1) ->
        cache_of Functions st1 = Some cache ->
        AzureAuth_getResourceGroupItem w (FunctionInput.resourceGroup fn) cache
        = Resolved rgi ->
        isValid (validateFunctionNames w (FunctionInput.functionNames fn)) = true ->
        checkFunctionAppName w (FunctionInput.appName fn) cache = Rejected e ->
        deployFunctionApp K w fn path st
        = (Rejected e,
           log_all [CallGetResourceGroupItem (FunctionInput.resourceGroup fn) cache;
                    CallCheckFunctionAppName (FunctionInput.appName fn) cache] st1))
  /\ (forall db path st st1 cache rgi,
        updateCache K Cosmos (CosmosInput.subscription db) st
        = (Resolved tt, st1) ->
        cache_of Cosmos st1 = Some cache ->
        AzureAuth_getResourceGroupItem w (CosmosInput.resourceGroup db) cache
        = Resolved rgi ->
        validateCosmosDBAccountName w (CosmosInput.accountName db) cache
        = Rejected e ->
        deployCosmosResource K w db path st
        = (Rejected e,
           log_all [CallGetResourceGroupItem (CosmosInput.resourceGroup db) cache;
                    CallValidateCosmosDBAccountName (CosmosInput.accountName db) cache]
                   st1)).
Proof.
  split; [|split].
  - intros p st st1 cache aspName rgi Hu Hc Hasp Hrg Hcheck.
    now rewrite deployWebApp_unfold, Hu, Hasp, Hc, Hrg, Hcheck.
  - intros fn path st st1 cache rgi Hu Hc Hrg Hv Hcheck.
    rewrite deployFunctionApp_unfold, Hu, Hc, Hrg. cbv zeta.
    now rewrite Hv, Hcheck.
  - intros db path st st1 cache rgi Hu Hc Hrg Hcheck.
    rewrite deployCosmosResource_unfold, Hu, Hc, Hrg. cbv zeta.
    now rewrite Hcheck.
Qed.

Lemma deployment_check_failure_witness :
  deployWebApp Sample.K0
    (Scenario.oracle (Resolved true) (Some "dev@example.com") (Resolved [])
       (Rejected (ExternalError "network down")) (Resolved (Some Sample.rawId))
       {| isValid := true; message := "" |})
    (Scenario.webPayload "A") (Sample.session [Sample.subA])
  = (Rejected (ExternalError "network down"),
     log_all [CallGenerateValidASPName "myapp";
              CallGetResourceGroupItem "rg" Sample.subA;
              CallCheckWebAppName "myapp" Sample.subA]
             (set_cache AppService Sample.subA (Sample.session [Sample.subA])))
  /\ fst (deployCosmosResource Sample.K0
            (Scenario.oracle (Resolved true) (Some "dev@example.com") (Resolved [])
               (Rejected (ExternalError "network down"))
               (Resolved (Some Sample.rawId))
               {| isValid := true; message := "" |})
            Sample.cosmosInput "/tmp/db" (Sample.session [Sample.subA]))
     = Rejected (ExternalError "network down").
Proof.
  destruct (deployment_check_failure Sample.K0
              (Scenario.oracle (Resolved true) (Some "dev@example.com")
                 (Resolved []) (Rejected (ExternalError "network down"))
                 (Resolved (Some Sample.rawId))
                 {| isValid := true; message := "" |})
              (ExternalError "network down")) as (Hweb & _ & Hdb).
  split.
  - exact (Hweb (Scenario.webPayload "A") (Sample.session [Sample.subA])
             (set_cache AppService Sample.subA (Sample.session [Sample.subA]))
             Sample.subA "myapp" {| rg_name := "rg"; rg_location := "Central US" |}
             eq_refl eq_refl eq_refl eq_refl eq_refl).
  - rewrite (Hdb Sample.cosmosInput "/tmp/db" (Sample.session [Sample.subA])
               (set_cache Cosmos Sample.subA (Sample.session [Sample.subA]))
               Sample.subA {| rg_name := "rg"; rg_location := "Central US" |}
               eq_refl eq_refl eq_refl eq_refl).
    reflexivity.
Defined.

(** ** The planner's calls and names *)

Lemma trace_log_all cs : forall st, trace (log_all cs st) = (trace st ++ cs)%list.
Proof.
  unfold log_all.
  induction cs as [|c cs IH]; intros st; simpl; [now rewrite app_nil_r|].
  rewrite IH. simpl. now rewrite <- app_assoc.
Qed.

(** What the joined selections look like and which calls building them
    makes. *)
Lemma Promise_all_detail K w generatedName subs : forall st sels st',
  Promise_all (map (generateResourceGroupSelection K w generatedName) subs) st
  = (Resolved sels, st') ->
  trace st' = (trace st ++ learn_lookups K subs)%list
  /\ Forall (fun sel =>
       ResourceGroupSelection.location sel = AZURE_LOCATION_CENTRAL_US K
       /\ (IsMicrosoftLearnSubscription K (ResourceGroupSelection.subscriptionItem sel)
           = false ->
           ResourceGroupSelection.resourceGroupName sel = generatedName)
       /\ (IsMicrosoftLearnSubscription K (ResourceGroupSelection.subscriptionItem sel)
           = true ->
           exists first rest,
             GetResourceGroups w (ResourceGroupSelection.subscriptionItem sel)
             = Resolved (first :: rest)
             /\ ResourceGroupSelection.resourceGroupName sel = name first)) sels.
Proof.
  unfold learn_lookups.
  induction subs as [|s subs IH]; intros st sels st' H; simpl in H.
  - injection H as <- <-. simpl. rewrite app_nil_r. auto.
  - rewrite generateResourceGroupSelection_unfold in H.
    rewrite filter_cons.
    destruct (IsMicrosoftLearnSubscription K s) eqn:E.
    + rewrite decide_True by reflexivity.
      destruct (GetResourceGroups w s) as [[|first rest]|e] eqn:Hg.
      * destruct (Promise_all _ _) as [os st2]. discriminate.
      * destruct (Promise_all _ _) as [[l|e] st2] eqn:Hrest; [|discriminate].
        injection H as <- <-. destruct (IH _ _ _ Hrest) as [Ht Hall].
        split.
        -- rewrite Ht. simpl. now rewrite <- app_assoc.
        -- constructor; [|exact Hall]. simpl. rewrite E, Hg.
           repeat split; [discriminate|]. intros _. eauto.
      * destruct (Promise_all _ _) as [os st2]. discriminate.
    + rewrite decide_False by discriminate.
      destruct (Promise_all _ _) as [[l|e] st2] eqn:Hrest; [|discriminate].
      injection H as <- <-. destruct (IH _ _ _ Hrest) as [Ht Hall].
      split; [exact Ht|]. constructor; [|exact Hall]. simpl. rewrite E.
      repeat split. discriminate.
Qed.

Lemma collect_trace K kind selected l acc st :
  trace (snd (collect K kind selected l acc st)) = trace st.
Proof.
  rewrite collect_unfold. destruct selected; [|reflexivity].
  pose proof (updateCache_effect K kind l st) as Heff.
  destruct (updateCache K kind l st) as [[u|e] st1]; simpl.
  - destruct Heff as (_ & Ht & _). now destruct (cache_of kind st1).
  - tauto.
Qed.

(** X17.  When the planner resolves, it has asked the name generator
    once, for the project name and the distinct subscriptions, and after
    that the resource groups of each Microsoft Learn subscription among
    them once, in order; it has made no other call.  Every selection has
    the Central US location; the selections of the other subscriptions all
    carry the one generated name, and the selection of a Microsoft Learn
    subscription carries the name of the first resource group listed for
    it. *)
Theorem planner_calls_and_names
  (K : Constants) (w : Oracle) (p : Payload.t) (st st' : State)
  (sels : list ResourceGroupSelection.t) :
  generateDistinctResourceGroupSelections K w p st = (Resolved sels, st') ->
  let subs := map ResourceGroupSelection.subscriptionItem sels in
  exists generatedName,
    generateValidResourceGroupName w (Payload.engine_projectName p) subs
    = Resolved generatedName
    /\ trace st'
       = (trace st
          ++ CallGenerateValidResourceGroupName (Payload.engine_projectName p) subs
          :: learn_lookups K subs)%list
    /\ Forall (fun sel =>
         ResourceGroupSelection.location sel = AZURE_LOCATION_CENTRAL_US K
         /\ (session_tenantId (ResourceGroupSelection.subscriptionItem sel)
               ∉ MICROSOFT_LEARN_TENANTS K ->
             ResourceGroupSelection.resourceGroupName sel = generatedName)
         /\ (session_tenantId (ResourceGroupSelection.subscriptionItem sel)
               ∈ MICROSOFT_LEARN_TENANTS K ->
             exists first rest,
               GetResourceGroups w (ResourceGroupSelection.subscriptionItem sel)
               = Resolved (first :: rest)
               /\ ResourceGroupSelection.resourceGroupName sel = name first)) sels.
Proof.
  intros H. cbv zeta. pose proof H as Hrun.
  rewrite planner_unfold in H. unfold bind at 1 in H.
  pose proof (collect_trace K Functions (Payload.selectedFunctions p)
                (Payload.functions_subscription p) [] st) as T1.
  destruct (collect K Functions _ _ [] st) as [[a1|e] st1]; [|discriminate].
  unfold bind at 1 in H.
  pose proof (collect_trace K Cosmos (Payload.selectedCosmos p)
                (Payload.cosmos_subscription p) a1 st1) as T2.
  destruct (collect K Cosmos _ _ a1 st1) as [[a2|e] st2]; [|discriminate].
  unfold bind at 1 in H.
  pose proof (collect_trace K AppService (Payload.selectedAppService p)
                (Payload.appService_subscription p) a2 st2) as T3.
  destruct (collect K AppService _ _ a2 st2) as [[a3|e] st3]; [|discriminate].
  unfold bind, await in H. simpl in T1, T2, T3.
  destruct (generateValidResourceGroupName w _ (Set_of a3)) as [g|e] eqn:Hg;
    [|discriminate].
  pose proof (Promise_all_selections _ _ _ _ _ _ _ H) as [Hmap _].
  apply Promise_all_detail in H as [Ht Hall].
  rewrite Hmap. exists g. split; [exact Hg|]. split.
  - rewrite Ht. simpl. rewrite T3, T2, T1. now rewrite <- app_assoc.
  - eapply Forall_impl; [exact Hall|]. intros sel (Hloc & Hother & Hlearn).
    split; [exact Hloc|]. split.
    + intros Hn. apply Hother. now apply IsMicrosoftLearnSubscription_false.
    + intros Hy. apply Hlearn. now apply IsMicrosoftLearnSubscription_true.
Qed.

Lemma planner_calls_and_names_witness :
  exists sels st',
    generateDistinctResourceGroupSelections Sample.K0 Scenario.fine
      (Sample.payload true true true "A" "L" "A")
      (Sample.session [Sample.subA; Sample.subLearn]) = (Resolved sels, st')
    /\ trace st'
       = [CallGenerateValidResourceGroupName "myapp" [Sample.subA; Sample.subLearn];
          CallGetResourceGroups Sample.subLearn]
    /\ map ResourceGroupSelection.resourceGroupName sels = ["myapp"; "learn-rg"].
Proof.
  eexists _, _. split; [vm_compute; reflexivity|].
  destruct (planner_calls_and_names Sample.K0 Scenario.fine
              (Sample.payload true true true "A" "L" "A")
              (Sample.session [Sample.subA; Sample.subLearn]) _ _ eq_refl)
    as (g & _ & Ht & _).
  split; [exact Ht | reflexivity].
Defined.

(** One block of the planner on a state whose cached items are the list's
    own: it logs nothing, keeps the list and that property, can only
    reject with [SubscriptionError], and does reject when its kind is
    selected with a label the list lacks. *)
Lemma collect_cases K kind selected l acc st :
  coherent st ->
  let '(o, st1) := collect K kind selected l acc st in
  trace st1 = trace st
  /\ subscriptionItemList st1 = subscriptionItemList st
  /\ coherent st1
  /\ (forall e, o = Rejected e ->
                e = SubscriptionError (ERRORS_SUBSCRIPTION_NOT_FOUND K))
  /\ (selected = true ->
      find_label l (subscriptionItemList st) = None -> resolved o = false).
Proof.
  intros Hco. rewrite collect_unfold. destruct selected.
  - pose proof (updateCache_effect K kind l st) as Heff.
    pose proof (updateCache_coherent K kind l st Hco) as Hco1.
    destruct (updateCache K kind l st) as [[u|e] st1] eqn:Hu; simpl in Hco1.
    + destruct (update_resolved_defined _ _ _ _ _ _ Hu) as (c & Hc & Hl).
      rewrite Hc. destruct Heff as (Hlist & Ht & _).
      repeat split; auto; try discriminate.
      intros _ Hf. apply Hco1 in Hc. rewrite Hlist, Hl, Hf in Hc. discriminate.
    + destruct Heff as (Hlist & Ht & _).
      apply updateCache_rejection in Hu as [-> _].
      repeat split; auto. now intros e [= <-].
  - repeat split; auto; discriminate.
Qed.

(** X18.  On a state whose cached items are the list's own, a planner run
    that selects a kind with a label the list lacks throws
    [SubscriptionError] without having made any call: neither the name
    generator nor a provider is asked.  The list is unchanged; slots of
    kinds visited before the failing one may have been updated. *)
Theorem planner_missing_label
  (K : Constants) (w : Oracle) (p : Payload.t) (st : State) :
  coherent st ->
  (Payload.selectedFunctions p = true
   /\ find_label (Payload.functions_subscription p) (subscriptionItemList st) = None)
  \/ (Payload.selectedCosmos p = true
      /\ find_label (Payload.cosmos_subscription p) (subscriptionItemList st) = None)
  \/ (Payload.selectedAppService p = true
      /\ find_label (Payload.appService_subscription p) (subscriptionItemList st)
         = None) ->
  fst (generateDistinctResourceGroupSelections K w p st)
  = Rejected (SubscriptionError (ERRORS_SUBSCRIPTION_NOT_FOUND K))
  /\ trace (snd (generateDistinctResourceGroupSelections K w p st)) = trace st
  /\ subscriptionItemList (snd (generateDistinctResourceGroupSelections K w p st))
     = subscriptionItemList st.
Proof.
  intros Hco Hmissing.
  destruct (generateDistinctResourceGroupSelections K w p st) as [o stf] eqn:Hrun.
  simpl. rewrite planner_unfold in Hrun. unfold bind at 1 in Hrun.
  pose proof (collect_cases K Functions (Payload.selectedFunctions p)
                (Payload.functions_subscription p) [] st Hco) as H1.
  destruct (collect K Functions _ _ [] st) as [[a1|e1] st1].
  2:{ destruct H1 as (Ht & Hl & _ & He & _). injection Hrun as <- <-.
      rewrite (He e1 eq_refl). repeat split; congruence. }
  destruct H1 as (Ht1 & Hl1 & Hco1 & _ & Hrej1).
  unfold bind at 1 in Hrun.
  pose proof (collect_cases K Cosmos (Payload.selectedCosmos p)
                (Payload.cosmos_subscription p) a1 st1 Hco1) as H2.
  destruct (collect K Cosmos _ _ a1 st1) as [[a2|e2] st2].
  2:{ destruct H2 as (Ht & Hl & _ & He & _). injection Hrun as <- <-.
      rewrite (He e2 eq_refl). repeat split; congruence. }
  destruct H2 as (Ht2 & Hl2 & Hco2 & _ & Hrej2).
  unfold bind at 1 in Hrun.
  pose proof (collect_cases K AppService (Payload.selectedAppService p)
                (Payload.appService_subscription p) a2 st2 Hco2) as H3.
  destruct (collect K AppService _ _ a2 st2) as [[a3|e3] st3].
  2:{ destruct H3 as (Ht & Hl & _ & He & _). injection Hrun as <- <-.
      rewrite (He e3 eq_refl). repeat split; congruence. }
  destruct H3 as (_ & _ & _ & _ & Hrej3).
  exfalso. destruct Hmissing as [[Hs Hf]|[[Hs Hf]|[Hs Hf]]].
  - specialize (Hrej1 Hs Hf). discriminate.
  - rewrite <- Hl1 in Hf. specialize (Hrej2 Hs Hf). discriminate.
  - rewrite <- Hl1, <- Hl2 in Hf. specialize (Hrej3 Hs Hf). discriminate.
Qed.

Lemma planner_missing_label_witness :
  let run :=
    generateDistinctResourceGroupSelections Sample.K0 Scenario.fine
      (Sample.payload true true false "A" "Z" "")
      (Sample.session [Sample.subA]) in
  fst run = Rejected (SubscriptionError "subscription not found")
  /\ trace (snd run) = []
  /\ cache_of Functions (snd run) = Some Sample.subA.
Proof.
  cbv zeta.
  destruct (planner_missing_label Sample.K0 Scenario.fine
              (Sample.payload true true false "A" "Z" "")
              (Sample.session [Sample.subA])) as (Hfst & Ht & _).
  - intros kind c Hc. destruct kind; discriminate.
  - right. left. split; reflexivity.
  - split; [exact Hfst|]. split; [exact Ht | reflexivity].
Defined.

(** ** Edge cases *)

(** X19.  For a Microsoft Learn subscription the selection depends on the
    provider's list of resource groups: when the list is empty, reading
    the name of its first element throws [TypeError]; when the listing
    fails, its error is the outcome.  In both cases the listing is the only
    call made and no selection is produced. *)
Theorem learn_selection_failures
  (K : Constants) (w : Oracle) (generatedName : string) (s : SubscriptionItem)
  (st : State) :
  session_tenantId s ∈ MICROSOFT_LEARN_TENANTS K ->
  (GetResourceGroups w s = Resolved [] ->
   generateResourceGroupSelection K w generatedName s st
   = (Rejected TypeError, log (CallGetResourceGroups s) st))
  /\ (forall e, GetResourceGroups w s = Rejected e ->
        generateResourceGroupSelection K w generatedName s st
        = (Rejected e, log (CallGetResourceGroups s) st)).
Proof.
  intros Hlearn%IsMicrosoftLearnSubscription_true.
  rewrite generateResourceGroupSelection_unfold, Hlearn.
  split; [now intros -> | now intros e ->].
Qed.

Lemma learn_selection_failures_witness :
  generateResourceGroupSelection Sample.K0 (Sample.oracle [] None []) "myapp-rg"
    Sample.subLearn initial
  = (Rejected TypeError, log (CallGetResourceGroups Sample.subLearn) initial).
Proof.
  destruct (learn_selection_failures Sample.K0 (Sample.oracle [] None [])
              "myapp-rg" Sample.subLearn initial) as [H _]; [compute_done|].
  now apply H.
Defined.

(** X20.  A name validation whose label is the cached one never looks at
    the list: it calls the provider's check on the cached subscription and
    answers from it, whatever the list holds by then, even when the list no
    longer has the label. *)
Theorem name_validation_cache_hit
  (K : Constants) (kind : AzureResourceType) (w : Oracle) (msg : Message.t)
  (st : State) (c : SubscriptionItem) :
  cache_of kind st = Some c ->
  label c = Message.subscription msg ->
  clientCommandMap K (nameCommand kind) w msg st
  = (match nameCheck w kind (Message.appName msg) c with
     | Resolved r =>
         Resolved {| payload :=
                       nameValidationPayload kind (Message.payload_scope msg) r |}
     | Rejected e => Rejected e
     end,
     log (nameCheckCall kind (Message.appName msg) c) st).
Proof.
  intros Hc Hl. rewrite nameHandler_unfold.
  rewrite (updateCache_hit K kind _ st c Hc Hl), Hc. cbv zeta.
  now destruct (nameCheck w kind (Message.appName msg) c).
Qed.

Lemma name_validation_cache_hit_witness :
  fst (clientCommandMap Sample.K0 ExtensionCommand.NameCosmos
         (Sample.oracle [] (Some "taken") []) (Sample.msg "A")
         (set_cache Cosmos Sample.subA (Sample.session [])))
  = Resolved {| payload := JObject [("scope", JString "wizard-7");
                                    ("isAvailable", JBool false);
                                    ("reason", JString "taken")] |}.
Proof.
  change ExtensionCommand.NameCosmos with (nameCommand Cosmos).
  rewrite (name_validation_cache_hit Sample.K0 Cosmos
             (Sample.oracle [] (Some "taken") []) (Sample.msg "A")
             (set_cache Cosmos Sample.subA (Sample.session [])) Sample.subA
             eq_refl eq_refl).
  reflexivity.
Defined.

Lemma size_obj_assign (m : gmap string string) k v :
  (size (obj_assign m k v) <= S (size m))%nat.
Proof.
  unfold obj_assign. destruct (decide (k = "__proto__")); [lia|].
  rewrite map_size_insert. destruct (m !! k); simpl; lia.
Qed.

Lemma size_loop fields (l : list nat) : forall m : gmap string string,
  (size (foldl (convertToSettings_body fields) m l) <= size m + List.length l)%nat.
Proof.
  induction l as [|i l IH]; intros m; simpl; [lia|].
  etransitivity; [apply IH|].
  assert (size (convertToSettings_body fields m i) <= S (size m))%nat; [|lia].
  unfold convertToSettings_body.
  destruct (fields !! i); [apply size_obj_assign | lia].
Qed.

(** X21.  [convertToSettings] yields at most one setting per line feed of
    its input; in particular a string without a line feed, the empty
    string included, yields no setting at all. *)
Theorem convertToSettings_size (s : string) :
  (size (convertToSettings s) <= List.length (split "010"%char s) - 1)%nat
  /\ (indexOf LF s = -1 -> convertToSettings s = ∅).
Proof.
  split.
  - unfold convertToSettings. etransitivity; [apply size_loop|].
    rewrite map_size_empty, length_seq. lia.
  - intros H. unfold convertToSettings. now rewrite (split_last _ H).
Qed.

Lemma convertToSettings_size_witness :
  convertToSettings "AccountEndpoint=https://db;AccountKey=abc" = ∅.
Proof.
  apply (convertToSettings_size "AccountEndpoint=https://db;AccountKey=abc").
  reflexivity.
Defined.
